(** * The batch log-analysis pipeline of deepl-log-ai

    A shallow embedding of [app/services/ai_service.py] (the response
    parser inside [AIService.analyze_log], [_parse_custom_analysis],
    [_parse_analysis], [_extract_priority], [analyze_logs_batch]),
    [app/services/log_service.py] (the error classification, the
    webhook notifier and [analyze_and_save_batch]),
    [app/repositories/log_repository.py] ([save_batch], [get_batch])
    and
    [app/main.py] (the routes [receive_logs], [get_analysis] and
    [analyze_prompt_with_logs]).

    Conventions.
    - Text is [string]; a character stands for one code point and the
      model is exact on ASCII text (white space and letter case are
      those of the ASCII range).
    - Python values that travel through dictionaries are [pyval]; a
      [dict] is an association list in insertion order.
    - An exception is a value of [exn]; code that can raise returns a
      [result].
    - The OpenAI client, the MongoDB collection, the HTTP client and the
      clock are the outside world: their answers are read from a
      [world] of oracles and every call is recorded in a trace.  What
      the collection gives back for a batch id is a function
      [find_one]. *)

From Stdlib Require Import String Ascii List ZArith Bool Lia Floats.
Import ListNotations.
Open Scope string_scope.
Open Scope list_scope.

(** ** Python runtime: text *)

Module Py.

(** [str.isspace] on the ASCII range: TAB, LF, VT, FF, CR, the four
    separators FS, GS, RS, US and the space. *)
Definition isspace (c : ascii) : bool :=
  let n := nat_of_ascii c in
  ((9 <=? n) && (n <=? 13) || (28 <=? n) && (n <=? 32))%nat.

Definition is_empty (s : string) : bool :=
  match s with EmptyString => true | String _ _ => false end.

Fixpoint lstrip_by (p : ascii -> bool) (s : string) : string :=
  match s with
  | EmptyString => EmptyString
  | String c s' => if p c then lstrip_by p s' else s
  end.

Fixpoint rstrip_by (p : ascii -> bool) (s : string) : string :=
  match s with
  | EmptyString => EmptyString
  | String c s' =>
      let r := rstrip_by p s' in
      if is_empty r && p c then EmptyString else String c r
  end.

Definition strip_by (p : ascii -> bool) (s : string) : string :=
  rstrip_by p (lstrip_by p s).

(** [s.strip()] *)
Definition strip (s : string) : string := strip_by isspace s.

Fixpoint mem_char (c : ascii) (chars : string) : bool :=
  match chars with
  | EmptyString => false
  | String d chars' => Ascii.eqb c d || mem_char c chars'
  end.

(** [s.strip(chars)] *)
Definition strip_chars (chars s : string) : string :=
  strip_by (fun c => mem_char c chars) s.

(** [s.startswith(pre)] *)
Definition startswith (pre s : string) : bool := String.prefix pre s.

(** [sub in s] *)
Fixpoint contains (sub s : string) : bool :=
  startswith sub s ||
  match s with
  | EmptyString => false
  | String _ s' => contains sub s'
  end.

(** [s.split(sep)] for a one-character separator. *)
Fixpoint split (sep : ascii) (s : string) : list string :=
  match s with
  | EmptyString => [EmptyString]
  | String c s' =>
      if Ascii.eqb c sep then EmptyString :: split sep s'
      else match split sep s' with
           | h :: t => String c h :: t
           | [] => [String c EmptyString]
           end
  end.

(** [s.split(sep, 1)[1]]: the text after the first separator;
    [None] is the IndexError of a string without separator. *)
Fixpoint split1_snd (sep : ascii) (s : string) : option string :=
  match s with
  | EmptyString => None
  | String c s' => if Ascii.eqb c sep then Some s' else split1_snd sep s'
  end.

Definition upper_char (c : ascii) : ascii :=
  let n := nat_of_ascii c in
  if ((97 <=? n) && (n <=? 122))%nat then ascii_of_nat (n - 32) else c.

(** [s.upper()] *)
Fixpoint upper (s : string) : string :=
  match s with
  | EmptyString => EmptyString
  | String c s' => String (upper_char c) (upper s')
  end.

(** [s[:n]] *)
Fixpoint slice_to (n : nat) (s : string) : string :=
  match n, s with
  | S n', String c s' => String c (slice_to n' s')
  | _, _ => EmptyString
  end.

(** [int(s)] on text: optional white space around, an optional sign,
    then decimal digits in which single underscores may separate
    digits.  [None] is the ValueError.  The interpreter's bound on the
    number of digits is left out: the parser, the only caller, turns a
    ValueError into the status code 500. *)
Definition digit_of (c : ascii) : option Z :=
  let n := nat_of_ascii c in
  if ((48 <=? n) && (n <=? 57))%nat then Some (Z.of_nat (n - 48)) else None.

Definition is_underscore (c : ascii) : bool := Ascii.eqb c "_"%char.

(** [digits acc after_digit s]: [after_digit] tells that the previous
    character was a digit, so that an underscore may follow. *)
Fixpoint digits (acc : Z) (after_digit : bool) (s : string) : option Z :=
  match s with
  | EmptyString => if after_digit then Some acc else None
  | String c s' =>
      match digit_of c with
      | Some d => digits (10 * acc + d)%Z true s'
      | None =>
          if is_underscore c && after_digit then digits acc false s'
          else None
      end
  end.

Definition int (s : string) : option Z :=
  match strip s with
  | String "-" s' => option_map Z.opp (digits 0%Z false s')
  | String "+" s' => digits 0%Z false s'
  | s' => digits 0%Z false s'
  end.

Definition lower_char (c : ascii) : ascii :=
  let n := nat_of_ascii c in
  if ((65 <=? n) && (n <=? 90))%nat then ascii_of_nat (n + 32) else c.

(** [s.lower()] *)
Fixpoint lower (s : string) : string :=
  match s with
  | EmptyString => EmptyString
  | String c s' => String (lower_char c) (lower s')
  end.

(** [s[1:]] *)
Definition tail (s : string) : string :=
  match s with EmptyString => EmptyString | String _ s' => s' end.

(** ** Python runtime: values, dictionaries, exceptions *)

(** The values a decoded JSON text or an analysis dictionary holds. *)
#[local] Set Warnings "-register-all".
Inductive pyval : Type :=
| PNone
| PBool (b : bool)
| PInt (z : Z)
| PFloat (f : float)
| PStr (s : string)
| PList (l : list pyval)
| PDict (d : list (string * pyval)).
#[local] Set Warnings "register-all".

(** A [dict] keeps its keys in insertion order, each key once. *)
Definition dict : Type := list (string * pyval).

Inductive exn : Type :=
| AttributeError
| TypeError
| IndexError
| KeyError (key : string)
| JSONDecodeError
| APIError          (* whatever the OpenAI client raises *)
| PyMongoError      (* whatever the collection raises *)
| HTTPError.        (* whatever the HTTP client raises: network, timeout,
                       raise_for_status *)

Inductive result (A : Type) : Type :=
| Ok (a : A)
| Raise (e : exn).
Arguments Ok {A} a.
Arguments Raise {A} e.

Definition bind {A B : Type} (r : result A) (k : A -> result B) : result B :=
  match r with
  | Ok a => k a
  | Raise e => Raise e
  end.

(** [d.get(k)], [None] when the key is missing *)
Fixpoint lookup (k : string) (d : dict) : option pyval :=
  match d with
  | [] => None
  | (k', v) :: d' => if String.eqb k k' then Some v else lookup k d'
  end.

(** [d.get(k, default)] *)
Definition get (k : string) (default : pyval) (d : dict) : pyval :=
  match lookup k d with
  | Some v => v
  | None => default
  end.

(** [d[k]] *)
Definition getitem (k : string) (d : dict) : result pyval :=
  match lookup k d with
  | Some v => Ok v
  | None => Raise (KeyError k)
  end.

(** [d[k] = v]: an existing key keeps its place, a new one goes last. *)
Fixpoint setitem (k : string) (v : pyval) (d : dict) : dict :=
  match d with
  | [] => [(k, v)]
  | (k', v') :: d' =>
      if String.eqb k k' then (k', v) :: d' else (k', v') :: setitem k v d'
  end.

Definition keys (d : dict) : list string := map fst d.

(** [v.get(k, default)] on a value of any type: only a dict has [get]. *)
Definition value_get (k : string) (default : pyval) (v : pyval)
  : result pyval :=
  match v with
  | PDict d => Ok (get k default d)
  | _ => Raise AttributeError
  end.

(** [v == s] for a text literal [s] *)
Definition eq_str (v : pyval) (s : string) : bool :=
  match v with
  | PStr s' => String.eqb s' s
  | _ => false
  end.

(** [v >= 400]: numbers compare ([True] counts as 1), anything else is a
    TypeError. *)
Definition ge_400 (v : pyval) : result bool :=
  match v with
  | PInt z => Ok (400 <=? z)%Z
  | PBool _ => Ok false
  | PFloat f => Ok (PrimFloat.leb 400%float f)
  | _ => Raise TypeError
  end.

(** Truth value of a value in a condition. *)
Definition truthy (v : pyval) : bool :=
  match v with
  | PNone => false
  | PBool b => b
  | PInt z => negb (z =? 0)%Z
  | PFloat f => negb (PrimFloat.eqb f 0%float)
  | PStr s => negb (is_empty s)
  | PList l => match l with [] => false | _ => true end
  | PDict d => match d with [] => false | _ => true end
  end.

(** [v[:n]]: a text and a list have slices; [None], a boolean and a
    number are not subscriptable (TypeError).  A dict cannot be indexed
    by a slice: TypeError (unhashable) up to Python 3.11, KeyError from
    3.12 on; the model has the former. *)
Definition slice_value (n : nat) (v : pyval) : result pyval :=
  match v with
  | PStr s => Ok (PStr (slice_to n s))
  | PList l => Ok (PList (firstn n l))
  | _ => Raise TypeError
  end.

End Py.

Declare Scope py_scope.
Notation "'let!' x ':=' e 'in' k" := (Py.bind e (fun x => k))
  (at level 10, x name, e at level 100, k at level 200) : py_scope.
Open Scope py_scope.


(** ** [app/models/log_model.py]: the ingested record *)

(** The pipeline reads [log.source] with
    [json.loads(log.source.get("event", {}).get("original", "{}"))].
    [json.loads] is a library function: the model does not decode text,
    the record carries what that expression meets. *)
Inductive original_event : Type :=
| NoOriginal        (* no "event" entry, or an "event" dict without
                       "original": the default text "{}" is decoded *)
| EventNotDict      (* "event" holds a value that has no [get] *)
| OriginalNotText   (* "original" holds a value that is not text *)
| Undecodable       (* text that [json.loads] rejects *)
| Decoded (v : Py.pyval).  (* text that [json.loads] decodes to [v] *)

(** [log.source], a dict: the entries the pipeline reads.
    [level_name] is only compared with labels: it is the text under
    "level_name", [None] when the key is missing or holds a value that
    is not text (such a value equals no label).  [message] is whatever
    JSON value the key "message" holds, [None] when the key is
    missing: [ElkLog] declares [source: dict], so nothing makes it
    text. *)
Record LogSource : Type := {
  level_name : option string;    (* log.source.get("level_name") *)
  message : option Py.pyval;     (* log.source.get("message") *)
  event : original_event
}.

(** [ElkLog]; [index], [score], [ignored] and [fields] are not read. *)
Record ElkLog : Type := {
  id : string;
  source : LogSource;
  elk_id : option Z
}.

(** [json.loads(log.source.get("event", {}).get("original", "{}"))] *)
Definition loads_event_original (log : ElkLog) : Py.result Py.pyval :=
  match event (source log) with
  | NoOriginal => Py.Ok (Py.PDict [])
  | EventNotDict => Py.Raise Py.AttributeError
  | OriginalNotText => Py.Raise Py.TypeError
  | Undecodable => Py.Raise Py.JSONDecodeError
  | Decoded v => Py.Ok v
  end.

(** ** The outside world *)

(** What a prompt is rendered from; the template text itself is not
    modelled. *)
Inductive request : Type :=
| LogPrompt (log : ElkLog) (event_data : Py.pyval)
| CustomPrompt (prompt : string) (log : ElkLog).

(** The document [save_batch] inserts. *)
Record batch_doc : Type := {
  doc_timestamp : string;
  doc_logs : list ElkLog;
  doc_analyses : list Py.dict;
  doc_total_errors : nat
}.

(** One call to the outside, with its outcome. *)
Inductive effect : Type :=
| ChatCompletion (req : request) (content : option string)
    (* client.chat.completions.create; [None]: the call raised *)
| InsertOne (doc : batch_doc) (inserted_id : option string)
    (* collection.insert_one; [None]: the call raised *)
| HttpPost (payload : Py.pyval) (delivered : bool).
    (* client.post and raise_for_status; [false]: one of them raised *)

Definition trace : Type := list effect.

(** The answers of the outside world, each a function of what has
    happened so far. *)
Record world : Type := {
  chat_completion : trace -> request -> option string;
  insert_one : trace -> batch_doc -> option string;
  http_post : trace -> Py.pyval -> bool;
  utcnow : trace -> string     (* datetime.utcnow(), as ISO text *)
}.

(** Code that talks to the outside: it extends the trace, and may
    raise. *)
Definition io (A : Type) : Type := trace -> Py.result A * trace.

Definition io_ret {A : Type} (a : A) : io A := fun tr => (Py.Ok a, tr).

Definition io_bind {A B : Type} (m : io A) (k : A -> io B) : io B :=
  fun tr =>
    match m tr with
    | (Py.Ok a, tr') => k a tr'
    | (Py.Raise e, tr') => (Py.Raise e, tr')
    end.

(** [try: m except Exception as e: handler(e)] *)
Definition io_try {A : Type} (m : io A) (handler : Py.exn -> io A) : io A :=
  fun tr =>
    match m tr with
    | (Py.Ok a, tr') => (Py.Ok a, tr')
    | (Py.Raise e, tr') => handler e tr'
    end.

Definition io_lift {A : Type} (r : Py.result A) : io A := fun tr => (r, tr).

Notation "'let*' x ':=' e 'in' k" := (io_bind e (fun x => k))
  (at level 10, x name, e at level 100, k at level 200) : py_scope.

Section Calls.
Variable w : world.

Definition now : io string := fun tr => (Py.Ok (utcnow w tr), tr).

Definition create_completion (req : request) : io string := fun tr =>
  let content := chat_completion w tr req in
  (match content with
   | Some text => Py.Ok text
   | None => Py.Raise Py.APIError
   end, tr ++ [ChatCompletion req content]).

Definition collection_insert_one (doc : batch_doc) : io string := fun tr =>
  let inserted_id := insert_one w tr doc in
  (match inserted_id with
   | Some i => Py.Ok i
   | None => Py.Raise Py.PyMongoError
   end, tr ++ [InsertOne doc inserted_id]).

Definition client_post (payload : Py.pyval) : io unit := fun tr =>
  let delivered := http_post w tr payload in
  (if delivered then Py.Ok tt else Py.Raise Py.HTTPError,
   tr ++ [HttpPost payload delivered]).
End Calls.

(** ** [app/services/ai_service.py] *)

Module AIService.

(** The locals of the parsing loop of [analyze_log]. *)
Record parse_state : Type := {
  current_section : string;
  error_info : Py.dict;
  code_info : Py.dict;
  immediate_actions : list string;
  resolution_steps : list string
}.

Definition initial : parse_state :=
  {| current_section := "";
     error_info := [];
     code_info := [];
     immediate_actions := [];
     resolution_steps := [] |}.

Definition enter (name : string) (st : parse_state) : parse_state :=
  {| current_section := name;
     error_info := error_info st;
     code_info := code_info st;
     immediate_actions := immediate_actions st;
     resolution_steps := resolution_steps st |}.

Definition set_error_info (k : string) (v : Py.pyval) (st : parse_state)
  : parse_state :=
  {| current_section := current_section st;
     error_info := Py.setitem k v (error_info st);
     code_info := code_info st;
     immediate_actions := immediate_actions st;
     resolution_steps := resolution_steps st |}.

Definition set_code_info (k : string) (v : Py.pyval) (st : parse_state)
  : parse_state :=
  {| current_section := current_section st;
     error_info := error_info st;
     code_info := Py.setitem k v (code_info st);
     immediate_actions := immediate_actions st;
     resolution_steps := resolution_steps st |}.

Definition add_immediate_action (a : string) (st : parse_state)
  : parse_state :=
  {| current_section := current_section st;
     error_info := error_info st;
     code_info := code_info st;
     immediate_actions := immediate_actions st ++ [a];
     resolution_steps := resolution_steps st |}.

Definition add_resolution_step (a : string) (st : parse_state)
  : parse_state :=
  {| current_section := current_section st;
     error_info := error_info st;
     code_info := code_info st;
     immediate_actions := immediate_actions st;
     resolution_steps := resolution_steps st ++ [a] |}.

(** [line.split(":", 1)[1].strip()] *)
Definition field (line : string) : Py.result string :=
  match Py.split1_snd ":" line with
  | Some v => Py.Ok (Py.strip v)
  | None => Py.Raise Py.IndexError
  end.

(** [try: int(line.split(":", 1)[1].strip()) except: 500] *)
Definition status_code_of (line : string) : Z :=
  match field line with
  | Py.Ok v => match Py.int v with
               | Some n => n
               | None => 500%Z
               end
  | Py.Raise _ => 500%Z
  end.

(** One turn of [for line in sections] (lines 77 to 115). *)
Definition parse_line (st : parse_state) (raw : string)
  : Py.result parse_state :=
  let line := Py.strip raw in
  let section := current_section st in
  if Py.is_empty line then Py.Ok st
  else if Py.startswith "ERROR DETECTION" line then Py.Ok (enter "error" st)
  else if Py.startswith "CODE ANALYSIS" line then Py.Ok (enter "code" st)
  else if Py.startswith "ANALYSIS" line then Py.Ok (enter "analysis" st)
  else if Py.startswith "RESOLUTION" line then Py.Ok (enter "resolution" st)
  else if Py.startswith "Type:" line && (section =? "error") then
    let! v := field line in
    Py.Ok (set_error_info "error_type" (Py.PStr v) st)
  else if Py.startswith "Status Code:" line && (section =? "error") then
    Py.Ok (set_error_info "status_code" (Py.PInt (status_code_of line)) st)
  else if Py.startswith "Description:" line && (section =? "error") then
    let! v := field line in
    Py.Ok (set_error_info "error_message" (Py.PStr v) st)
  else if Py.startswith "File Location:" line && (section =? "error") then
    let! v := field line in
    Py.Ok (set_error_info "file_location" (Py.PStr v) st)
  else if Py.startswith "Problematic Code:" line && (section =? "code") then
    let! v := field line in
    Py.Ok (set_code_info "problematic_code" (Py.PStr v) st)
  else if Py.startswith "Suggested Fix:" line && (section =? "code") then
    let! v := field line in
    Py.Ok (set_code_info "suggested_fix" (Py.PStr v) st)
  else if Py.startswith "Severity:" line && (section =? "analysis") then
    let! v := field line in
    Py.Ok (set_error_info "severity" (Py.PStr (Py.upper v)) st)
  else if Py.startswith "Impact:" line && (section =? "analysis") then
    let! v := field line in
    Py.Ok (set_error_info "impact" (Py.PStr v) st)
  else if Py.startswith "Root Cause:" line && (section =? "analysis") then
    let! v := field line in
    Py.Ok (set_error_info "root_cause" (Py.PStr v) st)
  else if Py.startswith "-" line then
    if Py.contains "Immediate Actions" section then
      Py.Ok (add_immediate_action (Py.strip_chars "- " line) st)
    else if Py.contains "Long-term Solutions" section then
      Py.Ok (add_resolution_step (Py.strip_chars "- " line) st)
    else Py.Ok st
  else Py.Ok st.

Fixpoint parse_lines (st : parse_state) (lines : list string)
  : Py.result parse_state :=
  match lines with
  | [] => Py.Ok st
  | raw :: lines' =>
      let! st' := parse_line st raw in
      parse_lines st' lines'
  end.

(** [log.source.get("message", "")[:150]] *)
Definition message_head (log : ElkLog) : Py.result Py.pyval :=
  Py.slice_value 150 (match message (source log) with
                      | Some m => m
                      | None => Py.PStr ""
                      end).

Definition str_list (l : list string) : Py.pyval :=
  Py.PList (map Py.PStr l).

(** The dictionary [analyze_log] returns (lines 117 to 131).  The
    default of "error_message" is an argument of [get]: it is computed,
    and can raise, whether or not the key is there. *)
Definition analysis_dict (log : ElkLog) (timestamp : string)
  (st : parse_state) : Py.result Py.dict :=
  let! head := message_head log in
  Py.Ok
  [ ("timestamp", Py.PStr timestamp);
    ("error_type",
      Py.get "error_type" (Py.PStr "Unknown Error") (error_info st));
    ("error_message", Py.get "error_message" head (error_info st));
    ("file_location",
      Py.get "file_location" (Py.PStr "Unknown location") (error_info st));
    ("problematic_code", Py.get "problematic_code" Py.PNone (code_info st));
    ("suggested_fix", Py.get "suggested_fix" Py.PNone (code_info st));
    ("status_code", Py.get "status_code" (Py.PInt 500) (error_info st));
    ("severity", Py.get "severity" (Py.PStr "MEDIUM") (error_info st));
    ("impact", Py.get "impact" (Py.PStr "Unknown impact") (error_info st));
    ("root_cause",
      Py.get "root_cause" (Py.PStr "Unknown cause") (error_info st));
    ("immediate_actions", str_list (immediate_actions st));
    ("resolution_steps", str_list (resolution_steps st));
    ("needs_immediate_attention",
      Py.PBool
        (Py.eq_str (Py.get "severity" (Py.PStr "MEDIUM") (error_info st))
           "HIGH")) ].

Definition newline : ascii := "010"%char.

(** The parsing step of [analyze_log] (lines 70 to 131): from the text
    of the reply to the returned dictionary. *)
Definition parse_response (log : ElkLog) (analysis timestamp : string)
  : Py.result Py.dict :=
  let! st := parse_lines initial (Py.split newline analysis) in
  analysis_dict log timestamp st.

(** What [analyze_log] does before it calls the backend (lines 19 to
    57): [event_data] is the decoded original event, or the empty dict
    when the text does not decode; rendering the prompt then reads
    [event_data.get("context", {})] and [event_data.get("datetime")]. *)
Definition prompt_event (log : ElkLog) : Py.result Py.pyval :=
  let! event_data :=
    match loads_event_original log with
    | Py.Raise Py.JSONDecodeError => Py.Ok (Py.PDict [])
    | r => r
    end in
  let! _ := Py.value_get "context" (Py.PDict []) event_data in
  let! _ := Py.value_get "datetime" Py.PNone event_data in
  Py.Ok event_data.

Section Client.
Variable w : world.

(** [analyze_log]; its [except Exception] logs and raises again. *)
Definition analyze_log (log : ElkLog) : io Py.dict :=
  let* event_data := io_lift (prompt_event log) in
  let* analysis := create_completion w (LogPrompt log event_data) in
  let* st := io_lift (parse_lines initial (Py.split newline analysis)) in
  let* timestamp := now w in
  io_lift (analysis_dict log timestamp st).
End Client.

(** [d[k].append(x)] *)
Definition item_append (k x : string) (d : Py.dict) : Py.result Py.dict :=
  let! v := Py.getitem k d in
  match v with
  | Py.PList l => Py.Ok (Py.setitem k (Py.PList (l ++ [Py.PStr x])) d)
  | _ => Py.Raise Py.AttributeError
  end.

(** [d[k] += x] for text [x] *)
Definition item_iadd (k x : string) (d : Py.dict) : Py.result Py.dict :=
  let! v := Py.getitem k d in
  match v with
  | Py.PStr s => Py.Ok (Py.setitem k (Py.PStr (String.append s x)) d)
  | Py.PList l =>
      Py.Ok (Py.setitem k
               (Py.PList (l ++ map (fun c => Py.PStr (String c EmptyString))
                                 (list_ascii_of_string x))) d)
  | _ => Py.Raise Py.TypeError
  end.

(** One turn of the loop of [_parse_custom_analysis] on the pair of
    [current_section] and [result]. *)
Definition parse_custom_line (st : string * Py.dict) (raw : string)
  : Py.result (string * Py.dict) :=
  let line := Py.strip raw in
  let '(section, result) := st in
  if Py.is_empty line then Py.Ok st
  else if Py.contains "Analysis" line then Py.Ok ("analysis", result)
  else if Py.contains "Recommendations" line then
    Py.Ok ("recommendations", result)
  else if Py.contains "Code Suggestions" line then
    Py.Ok ("code_suggestions", result)
  else if Py.contains "Next Steps" line then Py.Ok ("next_steps", result)
  else if Py.startswith "-" line then
    if existsb (String.eqb section)
         ["recommendations"; "code_suggestions"; "next_steps"] then
      let! result' := item_append section (Py.strip (Py.tail line)) result in
      Py.Ok (section, result')
    else Py.Ok st
  else if section =? "analysis" then
    let! result' :=
      item_iadd "analysis" (String.append line (String newline "")) result in
    Py.Ok (section, result')
  else Py.Ok st.

Fixpoint parse_custom_lines (st : string * Py.dict) (lines : list string)
  : Py.result (string * Py.dict) :=
  match lines with
  | [] => Py.Ok st
  | raw :: lines' =>
      let! st' := parse_custom_line st raw in
      parse_custom_lines st' lines'
  end.

Definition _parse_custom_analysis (analysis : string) : Py.result Py.dict :=
  let result :=
    [ ("analysis", Py.PStr "");
      ("recommendations", Py.PList []);
      ("code_suggestions", Py.PList []);
      ("next_steps", Py.PList []) ] in
  let! st := parse_custom_lines ("", result) (Py.split newline analysis) in
  Py.Ok (snd st).

Section CustomClient.
Variable w : world.

(** [analyze_custom_prompt(prompt, {"log": log.model_dump()})]; its
    [except Exception] logs and raises again. *)
Definition analyze_custom_prompt (prompt : string) (log : ElkLog)
  : io Py.dict :=
  let* analysis := create_completion w (CustomPrompt prompt log) in
  io_lift (_parse_custom_analysis analysis).
End CustomClient.

(** [_parse_analysis]: the keyword parser.  Its locals: *)
Module ParseAnalysis.

Record state : Type := {
  severity : string;
  impact : string;
  immediate_actions : list string;
  resolution_steps : list string;
  current_section : string
}.

Definition initial : state :=
  {| severity := "MEDIUM";
     impact := "";
     immediate_actions := [];
     resolution_steps := [];
     current_section := "" |}.

Definition set_severity (v : string) (st : state) : state :=
  {| severity := v;
     impact := impact st;
     immediate_actions := immediate_actions st;
     resolution_steps := resolution_steps st;
     current_section := current_section st |}.

Definition set_impact (v : string) (st : state) : state :=
  {| severity := severity st;
     impact := v;
     immediate_actions := immediate_actions st;
     resolution_steps := resolution_steps st;
     current_section := current_section st |}.

Definition add_immediate_action (a : string) (st : state) : state :=
  {| severity := severity st;
     impact := impact st;
     immediate_actions := immediate_actions st ++ [a];
     resolution_steps := resolution_steps st;
     current_section := current_section st |}.

Definition add_resolution_step (a : string) (st : state) : state :=
  {| severity := severity st;
     impact := impact st;
     immediate_actions := immediate_actions st;
     resolution_steps := resolution_steps st ++ [a];
     current_section := current_section st |}.

Definition enter (name : string) (st : state) : state :=
  {| severity := severity st;
     impact := impact st;
     immediate_actions := immediate_actions st;
     resolution_steps := resolution_steps st;
     current_section := name |}.

(** One turn of [for line in sections] (lines 215 to 238). *)
Definition parse_line (st : state) (raw : string) : Py.result state :=
  let line := Py.strip raw in
  if Py.is_empty line then Py.Ok st
  else if Py.contains "severity" (Py.lower line) then
    if Py.contains "high" (Py.lower line) then
      Py.Ok (set_severity "HIGH" st)
    else if Py.contains "low" (Py.lower line) then
      Py.Ok (set_severity "LOW" st)
    else Py.Ok st
  else if Py.contains "impact" (Py.lower line) then
    if Py.contains ":" line then
      let! v := field line in
      Py.Ok (set_impact v st)
    else Py.Ok (set_impact line st)
  else if Py.startswith "-" line then
    if Py.contains "immediate" (current_section st) then
      Py.Ok (add_immediate_action (Py.strip (Py.tail line)) st)
    else if Py.contains "resolution" (current_section st)
            || Py.contains "preventive" (current_section st) then
      Py.Ok (add_resolution_step (Py.strip (Py.tail line)) st)
    else Py.Ok st
  else Py.Ok (enter (Py.lower line) st).

Fixpoint parse_lines (st : state) (lines : list string) : Py.result state :=
  match lines with
  | [] => Py.Ok st
  | raw :: lines' =>
      let! st' := parse_line st raw in
      parse_lines st' lines'
  end.

End ParseAnalysis.

Definition _parse_analysis (analysis : string) : Py.result Py.dict :=
  let! st :=
    ParseAnalysis.parse_lines ParseAnalysis.initial
      (Py.split newline analysis) in
  Py.Ok
    [ ("severity", Py.PStr (ParseAnalysis.severity st));
      ("impact", Py.PStr (ParseAnalysis.impact st));
      ("immediate_actions", str_list (ParseAnalysis.immediate_actions st));
      ("resolution_steps", str_list (ParseAnalysis.resolution_steps st)) ].

(** The loop of [_extract_priority] over [priority_levels]. *)
Fixpoint first_level_in (levels : list string) (analysis : string)
  : string :=
  match levels with
  | [] => "MEDIUM"
  | level :: levels' =>
      if Py.contains level (Py.upper analysis) then level
      else first_level_in levels' analysis
  end.

Definition _extract_priority (analysis : string) : string :=
  first_level_in ["CRITICAL"; "HIGH"; "MEDIUM"; "LOW"] analysis.

Definition _group_similar_errors (analyses : list Py.dict) : list Py.dict :=
  analyses.

Section BatchClient.
Variable w : world.

(** [[self.analyze_log(log) for log in logs]] *)
Fixpoint analyze_each (logs : list ElkLog) : io (list Py.dict) :=
  match logs with
  | [] => io_ret []
  | log :: logs' =>
      let* analysis := analyze_log w log in
      let* analyses := analyze_each logs' in
      io_ret (analysis :: analyses)
  end.

Definition analyze_logs_batch (logs : list ElkLog) : io (list Py.dict) :=
  let* analyses := analyze_each logs in
  io_ret (_group_similar_errors analyses).
End BatchClient.

End AIService.

(** ** [app/repositories/log_repository.py] *)

(** [bson.ObjectId(text)], a library constructor: it accepts a text of
    24 characters that [bytes.fromhex] accepts, and raises InvalidId on
    any other. *)
Module Bson.

Definition is_hex (c : ascii) : bool :=
  let n := nat_of_ascii c in
  ((48 <=? n) && (n <=? 57) || (65 <=? n) && (n <=? 70)
   || (97 <=? n) && (n <=? 102))%nat.

(** The white space [bytes.fromhex] skips: TAB, LF, VT, FF, CR and the
    space. *)
Definition is_blank (c : ascii) : bool :=
  let n := nat_of_ascii c in
  ((9 <=? n) && (n <=? 13) || (n =? 32))%nat.

(** [bytes.fromhex(s)] does not raise: pairs of hexadecimal digits,
    with white space between the pairs. *)
Fixpoint fromhex_ok (s : string) : bool :=
  match s with
  | EmptyString => true
  | String c s' =>
      if is_blank c then fromhex_ok s'
      else
        match s' with
        | String c' s'' => is_hex c && is_hex c' && fromhex_ok s''
        | EmptyString => false
        end
  end.

Definition object_id_ok (text : string) : bool :=
  (String.length text =? 24)%nat && fromhex_ok text.

End Bson.

(** What [collection.find_one({"_id": ObjectId(batch_id)})] and the
    constructor [AnalysisBatch] make of a batch id. *)
Inductive found : Type :=
| FindRaised                   (* find_one raised *)
| NoDocument                   (* find_one returned None *)
| NotABatch                    (* a document AnalysisBatch rejects *)
| Document (doc : batch_doc).  (* a document AnalysisBatch accepts *)

Module LogRepository.
Section Collection.
Variable w : world.

(** [save_batch(logs, analyses)] *)
Definition save_batch (logs : list ElkLog) (analyses : list Py.dict)
  : io string :=
  let* timestamp := now w in
  collection_insert_one w
    {| doc_timestamp := timestamp;
       doc_logs := logs;
       doc_analyses := analyses;
       doc_total_errors := length logs |}.
End Collection.

Section Reader.
(** The collection as [get_batch] reads it, by the text of the id. *)
Variable find_one : string -> found.

(** [get_batch(batch_id)]; its [except Exception] prints and returns
    [None], also for the InvalidId of [ObjectId(batch_id)]. *)
Definition get_batch (batch_id : string) : option batch_doc :=
  if Bson.object_id_ok batch_id then
    match find_one batch_id with
    | Document doc => Some doc
    | FindRaised | NoDocument | NotABatch => None
    end
  else None.
End Reader.
End LogRepository.

(** ** [app/services/log_service.py] *)

Module LogService.

(** The classification at the head of the loop of
    [analyze_and_save_batch] (lines 119 to 137): the value of [is_error]
    when the record is tested, or the exception that escapes the
    [except json.JSONDecodeError]. *)
Definition is_error (log : ElkLog) : Py.result bool :=
  let source_level := level_name (source log) in
  let flagged :=
    match source_level with
    | Some l => (l =? "ERROR") || (l =? "EMERGENCY")
    | None => false
    end in
  match loads_event_original log with
  | Py.Raise Py.JSONDecodeError => Py.Ok flagged
  | Py.Raise e => Py.Raise e
  | Py.Ok event_data =>
      let! name := Py.value_get "level_name" Py.PNone event_data in
      if Py.eq_str name "ERROR" then Py.Ok true
      else
        let! level := Py.value_get "level" (Py.PInt 0) event_data in
        let! high := Py.ge_400 level in
        Py.Ok (if high then true else flagged)
  end.

(** The dict [analysis_data] that [analyze_and_save_batch] builds. *)
Record analysis_data : Type := {
  timestamp : string;
  total_errors : nat;
  analyses : list Py.dict
}.

(** [sum(1 for a in analyses if a["severity"] == sev)] *)
Fixpoint count_severity (sev : string) (l : list Py.dict)
  : Py.result Z :=
  match l with
  | [] => Py.Ok 0%Z
  | a :: l' =>
      let! s := Py.getitem "severity" a in
      let! n := count_severity sev l' in
      Py.Ok (if Py.eq_str s sev then (1 + n)%Z else n)
  end.

(** The list comprehension under ["critical_files"]. *)
Fixpoint critical_files (l : list Py.dict) : Py.result (list Py.pyval) :=
  match l with
  | [] => Py.Ok []
  | a :: l' =>
      let! urgent := Py.getitem "needs_immediate_attention" a in
      if Py.truthy urgent then
        let! file := Py.getitem "file_location" a in
        let! error_type := Py.getitem "error_type" a in
        let! error_message := Py.getitem "error_message" a in
        let! elk := Py.getitem "elk_id" a in
        let! rest := critical_files l' in
        Py.Ok (Py.PDict [ ("file", file);
                          ("error_type", error_type);
                          ("error_message", error_message);
                          ("elk_id", elk) ] :: rest)
      else critical_files l'
  end.

(** The dict [webhook_payload] (lines 61 to 84). *)
Definition webhook_payload (data : analysis_data) (batch_id : string)
  (elk_ids : list Z) : Py.result Py.pyval :=
  let! high := count_severity "HIGH" (analyses data) in
  let! medium := count_severity "MEDIUM" (analyses data) in
  let! low := count_severity "LOW" (analyses data) in
  let! critical := critical_files (analyses data) in
  Py.Ok
    (Py.PDict
       [ ("data",
           Py.PDict
             [ ("timestamp", Py.PStr (timestamp data));
               ("batch_id", Py.PStr batch_id);
               ("elk_ids", Py.PList (map Py.PInt elk_ids));
               ("total_errors", Py.PInt (Z.of_nat (total_errors data)));
               ("analyses", Py.PList (map Py.PDict (analyses data)));
               ("summary",
                 Py.PDict
                   [ ("high_severity", Py.PInt high);
                     ("medium_severity", Py.PInt medium);
                     ("low_severity", Py.PInt low);
                     ("critical_files", Py.PList critical);
                     ("error_types", Py.PDict []) ]) ]) ]).

(** The accumulators of the loop: [analyses], [error_logs], [elk_ids]. *)
Record batch : Type := {
  batch_analyses : list Py.dict;
  error_logs : list ElkLog;
  elk_ids : list Z
}.

Definition empty_batch : batch :=
  {| batch_analyses := []; error_logs := []; elk_ids := [] |}.

(** [if custom_prompt:] *)
Definition given (custom_prompt : option string) : option string :=
  match custom_prompt with
  | Some p => if Py.is_empty p then None else Some p
  | None => None
  end.

(** [get_batch_analysis(batch_id)] *)
Definition get_batch_analysis (find_one : string -> found)
  (batch_id : string) : option batch_doc :=
  LogRepository.get_batch find_one batch_id.

Section Service.
Variable w : world.

(** [send_webhook_notification]; its [except Exception] logs and
    raises again. *)
Definition send_webhook_notification (data : analysis_data)
  (batch_id : string) (elk_ids : list Z) : io unit :=
  let* payload := io_lift (webhook_payload data batch_id elk_ids) in
  client_post w payload.

(** One turn of [for log in logs] (lines 113 to 154). *)
Definition process_log (custom_prompt : option string) (acc : batch)
  (log : ElkLog) : io batch :=
  let* flagged := io_lift (is_error log) in
  if flagged then
    let* analysis :=
      match given custom_prompt with
      | Some prompt => AIService.analyze_custom_prompt w prompt log
      | None => AIService.analyze_log w log
      end in
    let analysis :=
      Py.setitem "elk_id"
        (match elk_id log with
         | Some i => Py.PInt i
         | None => Py.PNone
         end) analysis in
    io_ret
      {| batch_analyses := batch_analyses acc ++ [analysis];
         error_logs := error_logs acc ++ [log];
         elk_ids :=
           match elk_id log with
           | Some i => if (i =? 0)%Z then elk_ids acc
                       else elk_ids acc ++ [i]
           | None => elk_ids acc
           end |}
  else io_ret acc.

Fixpoint process_logs (custom_prompt : option string) (acc : batch)
  (logs : list ElkLog) : io batch :=
  match logs with
  | [] => io_ret acc
  | log :: logs' =>
      let* acc' := process_log custom_prompt acc log in
      process_logs custom_prompt acc' logs'
  end.

(** [analyze_and_save_batch(logs, ai_service, custom_prompt)]; the
    result is the batch id or [None]. *)
Definition analyze_and_save_batch (logs : list ElkLog)
  (custom_prompt : option string) : io (option string) :=
  io_try
    (let* acc := process_logs custom_prompt empty_batch logs in
     match error_logs acc with
     | _ :: _ =>
         let* batch_id :=
           LogRepository.save_batch w (error_logs acc)
             (batch_analyses acc) in
         let* stamp := now w in
         let data :=
           {| timestamp := stamp;
              total_errors := length (error_logs acc);
              analyses := batch_analyses acc |} in
         let* _ :=
           io_try (send_webhook_notification data batch_id (elk_ids acc))
             (fun _ => io_ret tt) in
         io_ret (Some batch_id)
     | [] => io_ret None
     end)
    (fun _ => io_ret None).
End Service.

End LogService.

(** ** [app/main.py]: the routes around the service *)

Module Main.

(** What a route returns: a JSON body, or the body
    [{"error": str(e)}] of its [except Exception as e]. *)
Inductive reply : Type :=
| Body (body : Py.dict)
| Failure (e : Py.exn).

(** [[log.elk_id for log in logs if log.elk_id]] *)
Fixpoint elk_ids_of (logs : list ElkLog) : list Py.pyval :=
  match logs with
  | [] => []
  | log :: logs' =>
      match elk_id log with
      | Some i => if (i =? 0)%Z then elk_ids_of logs'
                  else Py.PInt i :: elk_ids_of logs'
      | None => elk_ids_of logs'
      end
  end.

(** The tail shared by [receive_logs] and [analyze_prompt_with_logs]:
    [if batch_id: return {...}] and the fallback body. *)
Definition batch_body (batch_id : option string) (logs : list ElkLog)
  : Py.dict :=
  match batch_id with
  | Some i =>
      if Py.is_empty i then [ ("message", Py.PStr "No errors to analyze") ]
      else [ ("message", Py.PStr "Analysis complete");
             ("batch_id", Py.PStr i);
             ("elk_ids", Py.PList (elk_ids_of logs)) ]
  | None => [ ("message", Py.PStr "No errors to analyze") ]
  end.

(** [log.source.<name>]: [log.source] is a dict and a dict has no such
    attribute. *)
Definition source_attribute (log : ElkLog) (name : string)
  : Py.result Py.pyval :=
  Py.Raise Py.AttributeError.

(** The list under ["logs"] of [logs_context] (lines 183 to 194). *)
Fixpoint logs_context (logs : list ElkLog) : Py.result (list Py.pyval) :=
  match logs with
  | [] => Py.Ok []
  | log :: logs' =>
      let! text := source_attribute log "message" in
      let! stamp := source_attribute log "timestamp" in
      let! level := source_attribute log "msg" in
      let! file := source_attribute log "log" in
      let! rest := logs_context logs' in
      Py.Ok (Py.PDict [ ("message", text);
                        ("timestamp", stamp);
                        ("level", level);
                        ("file", file);
                        ("elk_id", match elk_id log with
                                   | Some i => Py.PInt i
                                   | None => Py.PNone
                                   end) ] :: rest)
  end.

(** One analysis of the body of [get_analysis] (lines 108 to 121). *)
Definition analysis_view (analysis : Py.dict) : Py.result Py.pyval :=
  let! stamp := Py.getitem "timestamp" analysis in
  let! error_type := Py.getitem "error_type" analysis in
  let! error_message := Py.getitem "error_message" analysis in
  let! file_location := Py.getitem "file_location" analysis in
  let problematic_code := Py.get "problematic_code" Py.PNone analysis in
  let suggested_fix := Py.get "suggested_fix" Py.PNone analysis in
  let status_code := Py.get "status_code" (Py.PInt 500) analysis in
  let! severity := Py.getitem "severity" analysis in
  let! impact := Py.getitem "impact" analysis in
  let! immediate_actions := Py.getitem "immediate_actions" analysis in
  let! resolution_steps := Py.getitem "resolution_steps" analysis in
  let! urgent := Py.getitem "needs_immediate_attention" analysis in
  Py.Ok (Py.PDict [ ("timestamp", stamp);
                    ("error_type", error_type);
                    ("error_message", error_message);
                    ("file_location", file_location);
                    ("problematic_code", problematic_code);
                    ("suggested_fix", suggested_fix);
                    ("status_code", status_code);
                    ("severity", severity);
                    ("impact", impact);
                    ("immediate_actions", immediate_actions);
                    ("resolution_steps", resolution_steps);
                    ("needs_immediate_attention", urgent) ]).

Fixpoint analyses_view (analyses : list Py.dict)
  : Py.result (list Py.pyval) :=
  match analyses with
  | [] => Py.Ok []
  | analysis :: analyses' =>
      let! view := analysis_view analysis in
      let! views := analyses_view analyses' in
      Py.Ok (view :: views)
  end.

Section Routes.
Variable w : world.
Variable find_one : string -> found.

(** POST /receive-logs *)
Definition receive_logs (logs : list ElkLog) : io reply :=
  io_try
    (let* batch_id := LogService.analyze_and_save_batch w logs None in
     io_ret (Body (batch_body batch_id logs)))
    (fun e => io_ret (Failure e)).

(** POST /analyze-prompt-with-logs *)
Definition analyze_prompt_with_logs (logs : list ElkLog) (prompt : string)
  : io reply :=
  io_try
    (let* _ := io_lift (logs_context logs) in
     let* batch_id :=
       LogService.analyze_and_save_batch w logs (Some prompt) in
     io_ret (Body (batch_body batch_id logs)))
    (fun e => io_ret (Failure e)).

(** GET /analyze/{batch_id} *)
Definition get_analysis (batch_id : string) : reply :=
  match LogService.get_batch_analysis find_one batch_id with
  | None => Body [ ("error", Py.PStr "Analysis not found") ]
  | Some batch =>
      match analyses_view (doc_analyses batch) with
      | Py.Ok views =>
          Body [ ("timestamp", Py.PStr (doc_timestamp batch));
                 ("total_errors",
                   Py.PInt (Z.of_nat (doc_total_errors batch)));
                 ("analyses", Py.PList views) ]
      | Py.Raise e => Failure e
      end
  end.
End Routes.

End Main.
(** ** The analysis schema, and reference points for the claims *)

Module Schema.

Definition is_str (v : Py.pyval) : bool :=
  match v with Py.PStr _ => true | _ => false end.

Definition is_int (v : Py.pyval) : bool :=
  match v with Py.PInt _ => true | _ => false end.

Definition is_bool (v : Py.pyval) : bool :=
  match v with Py.PBool _ => true | _ => false end.

Definition is_opt_str (v : Py.pyval) : bool :=
  match v with Py.PNone | Py.PStr _ => true | _ => false end.

Definition is_str_list (v : Py.pyval) : bool :=
  match v with Py.PList l => forallb is_str l | _ => false end.

(** The fields of the dictionary of [analyze_log], in the order of the
    literal, each with the type of its value. *)
Definition analysis_fields : list (string * (Py.pyval -> bool)) :=
  [ ("timestamp", is_str);
    ("error_type", is_str);
    ("error_message", is_str);
    ("file_location", is_str);
    ("problematic_code", is_opt_str);
    ("suggested_fix", is_opt_str);
    ("status_code", is_int);
    ("severity", is_str);
    ("impact", is_str);
    ("root_cause", is_str);
    ("immediate_actions", is_str_list);
    ("resolution_steps", is_str_list);
    ("needs_immediate_attention", is_bool) ].

Definition is_str_or_list (v : Py.pyval) : bool :=
  match v with Py.PStr _ | Py.PList _ => true | _ => false end.

(** The same fields for any record: the fallback of "error_message" is
    a slice of the message, a list when the message is a list. *)
Definition sliced_fields : list (string * (Py.pyval -> bool)) :=
  [ ("timestamp", is_str);
    ("error_type", is_str);
    ("error_message", is_str_or_list);
    ("file_location", is_str);
    ("problematic_code", is_opt_str);
    ("suggested_fix", is_opt_str);
    ("status_code", is_int);
    ("severity", is_str);
    ("impact", is_str);
    ("root_cause", is_str);
    ("immediate_actions", is_str_list);
    ("resolution_steps", is_str_list);
    ("needs_immediate_attention", is_bool) ].

(** [d] has exactly the fields of [fields], each of its type. *)
Fixpoint conforms (fields : list (string * (Py.pyval -> bool)))
  (d : Py.dict) : bool :=
  match fields, d with
  | [], [] => true
  | (k, p) :: fields', (k', v) :: d' =>
      (k =? k') && p v && conforms fields' d'
  | _, _ => false
  end.

(** The keys of an analysis of the custom-prompt path once
    [analyze_and_save_batch] has tagged it. *)
Definition custom_keys : list string :=
  ["analysis"; "recommendations"; "code_suggestions"; "next_steps";
   "elk_id"].

End Schema.

(** The parser as the specification words it: a section tag that
    switches at the four headers, and the values of the [Severity:]
    lines met while the tag is ANALYSIS. *)
Module SpecParser.

Definition header_of (line : string) : option string :=
  if Py.startswith "ERROR DETECTION" line then Some "error"
  else if Py.startswith "CODE ANALYSIS" line then Some "code"
  else if Py.startswith "ANALYSIS" line then Some "analysis"
  else if Py.startswith "RESOLUTION" line then Some "resolution"
  else None.

(** The text after the first colon, stripped. *)
Definition value_of (line : string) : string :=
  match Py.split1_snd ":" line with
  | Some v => Py.strip v
  | None => ""
  end.

Fixpoint severity_values (section : string) (lines : list string)
  : list string :=
  match lines with
  | [] => []
  | raw :: lines' =>
      let line := Py.strip raw in
      match header_of line with
      | Some section' => severity_values section' lines'
      | None =>
          if Py.startswith "Severity:" line && (section =? "analysis")
          then value_of line :: severity_values section lines'
          else severity_values section lines'
      end
  end.

Definition last_value (l : list string) : option string :=
  match rev l with
  | [] => None
  | v :: _ => Some v
  end.

(** The severity the code settles on: the last value, upper-cased,
    whatever it is. *)
Definition severity (analysis : string) : string :=
  match last_value
          (severity_values "" (Py.split AIService.newline analysis)) with
  | Some v => Py.upper v
  | None => "MEDIUM"
  end.

Definition recognized (s : string) : bool :=
  (s =? "HIGH") || (s =? "MEDIUM") || (s =? "LOW").

(** The severity as the specification states it: a value outside
    HIGH, MEDIUM, LOW falls back to MEDIUM. *)
Definition claimed_severity (analysis : string) : string :=
  if recognized (severity analysis) then severity analysis else "MEDIUM".

End SpecParser.

(** What the parsing loop of [analyze_log] keeps true of its locals. *)
Module ParserInv.

Definition sections : list string :=
  [""; "error"; "code"; "analysis"; "resolution"].

Definition typed_error_info (d : Py.dict) : Prop :=
  forall k v, Py.lookup k d = Some v ->
    if k =? "status_code" then Schema.is_int v = true
    else Schema.is_str v = true.

Definition typed_code_info (d : Py.dict) : Prop :=
  forall k v, Py.lookup k d = Some v -> Schema.is_str v = true.

Record holds (st : AIService.parse_state) : Prop := {
  section_known : In (AIService.current_section st) sections;
  error_info_typed : typed_error_info (AIService.error_info st);
  code_info_typed : typed_code_info (AIService.code_info st);
  no_immediate_action : AIService.immediate_actions st = [];
  no_resolution_step : AIService.resolution_steps st = []
}.

End ParserInv.

(** The fallback text of the helpers [_extract_error_details] and
    [_extract_specific_error] (lines 201 and 291):
    [message[:150] + ('...' if len(message) > 150 else '')]. *)
Definition truncated_with_ellipsis (message : string) : string :=
  String.append (Py.slice_to 150 message)
    (if (150 <? String.length message)%nat then "..." else "").

(** Reading a trace. *)
Module Trace.

Definition is_chat (e : effect) : bool :=
  match e with ChatCompletion _ _ => true | _ => false end.

Definition is_answered_chat (e : effect) : bool :=
  match e with ChatCompletion _ (Some _) => true | _ => false end.

Definition is_failed_chat (e : effect) : bool :=
  match e with ChatCompletion _ None => true | _ => false end.

Definition is_insert (e : effect) : bool :=
  match e with InsertOne _ _ => true | _ => false end.

Definition is_post (e : effect) : bool :=
  match e with HttpPost _ _ => true | _ => false end.

(** The analyses of the documents handed to [insert_one]. *)
Fixpoint inserted_analyses (tr : trace) : list Py.dict :=
  match tr with
  | [] => []
  | InsertOne doc _ :: tr' => doc_analyses doc ++ inserted_analyses tr'
  | _ :: tr' => inserted_analyses tr'
  end.

End Trace.

(** One invocation of [analyze_and_save_batch]: what it returns and
    what it did to the outside. *)
Definition returned (w : world) (logs : list ElkLog)
  (custom_prompt : option string) : Py.result (option string) :=
  fst (LogService.analyze_and_save_batch w logs custom_prompt []).

Definition effects (w : world) (logs : list ElkLog)
  (custom_prompt : option string) : trace :=
  snd (LogService.analyze_and_save_batch w logs custom_prompt []).

(** The same record with another original event. *)
Definition with_event (log : ElkLog) (ev : original_event) : ElkLog :=
  {| id := id log;
     source := {| level_name := level_name (source log);
                  message := message (source log);
                  event := ev |};
     elk_id := elk_id log |}.

(** What the loop of [analyze_and_save_batch] keeps true of its
    accumulators. *)
Definition batch_inv (custom_prompt : option string)
  (acc : LogService.batch) : Prop :=
  length (LogService.batch_analyses acc) = length (LogService.error_logs acc)
  /\ (LogService.given custom_prompt <> None ->
      Forall (fun a => Py.keys a = Schema.custom_keys)
        (LogService.batch_analyses acc)).

(** The document of a run: never empty, and made of custom analyses
    when a custom prompt is given. *)
Definition saved_doc (custom_prompt : option string) (doc : batch_doc)
  : Prop :=
  doc_analyses doc <> [] /\
  (LogService.given custom_prompt <> None ->
   Forall (fun a => Py.keys a = Schema.custom_keys) (doc_analyses doc)).

(** The three ways a run of [analyze_and_save_batch] ends: backend
    calls only and no batch, a call that raised being the last one;
    backend calls and an insert that raised; backend calls, the
    insert, then at most one webhook attempt. *)
Inductive outcome (custom_prompt : option string) (tr : trace)
  : Py.result (option string) -> trace -> Prop :=
| NoBatch (chats : trace) :
    forallb Trace.is_chat chats = true ->
    forallb Trace.is_answered_chat (removelast chats) = true ->
    outcome custom_prompt tr (Py.Ok None) (tr ++ chats)
| SaveFailed (chats : trace) (doc : batch_doc) :
    forallb Trace.is_answered_chat chats = true ->
    saved_doc custom_prompt doc ->
    outcome custom_prompt tr (Py.Ok None)
      (tr ++ chats ++ [InsertOne doc None])
| Saved (chats : trace) (doc : batch_doc) (batch_id : string)
    (attempt : trace) :
    forallb Trace.is_answered_chat chats = true ->
    saved_doc custom_prompt doc ->
    attempt = [] \/
      (LogService.given custom_prompt = None /\
       exists payload delivered, attempt = [HttpPost payload delivered]) ->
    outcome custom_prompt tr (Py.Ok (Some batch_id))
      (tr ++ chats ++ InsertOne doc (Some batch_id) :: attempt).

(** What the loop of [_parse_custom_analysis] keeps true of [result]. *)
Definition custom_result (d : Py.dict) : Prop :=
  exists a r c n,
    d = [ ("analysis", Py.PStr a);
          ("recommendations", Py.PList r);
          ("code_suggestions", Py.PList c);
          ("next_steps", Py.PList n) ].

(** Sample inputs. *)
Module Samples.

(** [chr(10).join(lines)] *)
Fixpoint join_lines (lines : list string) : string :=
  match lines with
  | [] => ""
  | [l] => l
  | l :: lines' => String.append l (String AIService.newline (join_lines lines'))
  end.

(** A reply that follows the template of the prompt. *)
Definition well_formed_response : string :=
  join_lines
    [ "ERROR DETECTION";
      "Type: Database Connection Error";
      "Status Code: 503";
      "Description: Cannot reach the database";
      "File Location: app/db.py";
      "";
      "CODE ANALYSIS";
      "Problematic Code: connect()";
      "Suggested Fix: retry()";
      "";
      "ANALYSIS";
      "Severity: HIGH";
      "Impact: Service down";
      "Root Cause: Pool exhausted";
      "";
      "RESOLUTION";
      "Immediate Actions:";
      "- Restart service";
      "";
      "Long-term Solutions:";
      "- Add monitoring" ].

(** A reply whose severity is none of HIGH, MEDIUM, LOW. *)
Definition critical_response : string :=
  join_lines [ "ANALYSIS"; "Severity: critical" ].

Definition record_with (level : option string) (msg : option Py.pyval)
  (original : original_event) (elk : option Z) : ElkLog :=
  {| id := "log-1";
     source := {| level_name := level; message := msg; event := original |};
     elk_id := elk |}.

(** A record whose message is text, or missing. *)
Definition record (level : option string) (text : option string)
  (original : original_event) (elk : option Z) : ElkLog :=
  record_with level (option_map Py.PStr text) original elk.

Definition error_record : ElkLog :=
  record (Some "ERROR") (Some "connection refused") NoOriginal (Some 7%Z).

Definition second_error_record : ElkLog :=
  record (Some "EMERGENCY") (Some "disk full") Undecodable (Some 8%Z).

Definition info_record : ElkLog :=
  record (Some "INFO") (Some "started") Undecodable (Some 9%Z).

(** An ERROR record whose original event is the JSON object
    {"level": "error"}. *)
Definition text_level_record : ElkLog :=
  record (Some "ERROR") (Some "boom")
    (Decoded (Py.PDict [("level", Py.PStr "error")])) (Some 7%Z).

(** An ERROR record whose source is
    {"level_name": "ERROR", "message": null}. *)
Definition null_message_record : ElkLog :=
  record_with (Some "ERROR") (Some Py.PNone) NoOriginal (Some 7%Z).

(** An INFO record whose source has {"event": {"original": 5}}: the
    original event is there and is not text. *)
Definition number_payload_record : ElkLog :=
  record (Some "INFO") (Some "started") OriginalNotText (Some 9%Z).

Fixpoint repeat_char (c : ascii) (n : nat) : string :=
  match n with
  | O => EmptyString
  | S n' => String c (repeat_char c n')
  end.

(** A record whose message has 151 characters. *)
Definition long_message_record : ElkLog :=
  record (Some "ERROR") (Some (repeat_char "a" 151)) NoOriginal None.

(** A world where every call succeeds. *)
Definition calm : world :=
  {| chat_completion := fun _ _ => Some well_formed_response;
     insert_one := fun _ _ => Some "batch-1";
     http_post := fun _ _ => true;
     utcnow := fun _ => "2024-01-01T00:00:00" |}.

(** The webhook endpoint is down. *)
Definition webhook_down : world :=
  {| chat_completion := fun _ _ => Some well_formed_response;
     insert_one := fun _ _ => Some "batch-1";
     http_post := fun _ _ => false;
     utcnow := fun _ => "2024-01-01T00:00:00" |}.

(** The first call to the backend raises, the later ones answer. *)
Definition first_call_fails : world :=
  {| chat_completion := fun tr _ =>
       match tr with
       | [] => None
       | _ :: _ => Some well_formed_response
       end;
     insert_one := fun _ _ => Some "batch-1";
     http_post := fun _ _ => true;
     utcnow := fun _ => "2024-01-01T00:00:00" |}.

End Samples.

(** The documents the sample runs insert. *)
Module SampleDocs.

Definition no_doc : batch_doc :=
  {| doc_timestamp := ""; doc_logs := []; doc_analyses := [];
     doc_total_errors := 0 |}.

Definition first_doc (tr : trace) : batch_doc :=
  match filter Trace.is_insert tr with
  | InsertOne doc _ :: _ => doc
  | _ => no_doc
  end.

(** One ERROR record, the webhook down, no custom prompt. *)
Definition log_path_doc : batch_doc :=
  Eval vm_compute in
    first_doc (effects Samples.webhook_down [Samples.error_record] None).

(** One ERROR record and the custom prompt "why". *)
Definition custom_path_doc : batch_doc :=
  Eval vm_compute in
    first_doc (effects Samples.calm [Samples.error_record] (Some "why")).

End SampleDocs.

(** The labelled lines of the parser of [analyze_log], as a table: the
    label, the section it counts in, the key it sets, the dictionary
    that holds the key, the conversion of the text after the colon, and
    the fallback of the returned dictionary, given the slice [head] of
    the message of the record. *)
Module Fields.

Inductive info : Type := ErrorInfo | CodeInfo.

Record labelled : Type := {
  label : string;
  in_section : string;
  key : string;
  store : info;
  convert : string -> Py.pyval;
  fallback : Py.pyval -> Py.pyval
}.

Definition text (l s k : string) (i : info) (default : Py.pyval)
  : labelled :=
  {| label := l; in_section := s; key := k; store := i;
     convert := Py.PStr; fallback := fun _ => default |}.

(** [int(v)], or 500 when [int] raises. *)
Definition status_code_value (v : string) : Py.pyval :=
  Py.PInt (match Py.int v with
           | Some n => n
           | None => 500%Z
           end).

Definition table : list labelled :=
  [ text "Type:" "error" "error_type" ErrorInfo (Py.PStr "Unknown Error");
    {| label := "Status Code:"; in_section := "error";
       key := "status_code"; store := ErrorInfo;
       convert := status_code_value;
       fallback := fun _ => Py.PInt 500 |};
    {| label := "Description:"; in_section := "error";
       key := "error_message"; store := ErrorInfo;
       convert := Py.PStr;
       fallback := fun head => head |};
    text "File Location:" "error" "file_location" ErrorInfo
      (Py.PStr "Unknown location");
    text "Problematic Code:" "code" "problematic_code" CodeInfo Py.PNone;
    text "Suggested Fix:" "code" "suggested_fix" CodeInfo Py.PNone;
    {| label := "Severity:"; in_section := "analysis";
       key := "severity"; store := ErrorInfo;
       convert := fun v => Py.PStr (Py.upper v);
       fallback := fun _ => Py.PStr "MEDIUM" |};
    text "Impact:" "analysis" "impact" ErrorInfo (Py.PStr "Unknown impact");
    text "Root Cause:" "analysis" "root_cause" ErrorInfo
      (Py.PStr "Unknown cause") ].

Definition info_of (f : labelled) (st : AIService.parse_state) : Py.dict :=
  match store f with
  | ErrorInfo => AIService.error_info st
  | CodeInfo => AIService.code_info st
  end.

(** The values of the lines that begin with the label of [f], met
    while the section tag is the section of [f]. *)
Fixpoint values (f : labelled) (section : string) (lines : list string)
  : list string :=
  match lines with
  | [] => []
  | raw :: lines' =>
      let line := Py.strip raw in
      match SpecParser.header_of line with
      | Some section' => values f section' lines'
      | None =>
          if Py.startswith (label f) line && (section =? in_section f)
          then SpecParser.value_of line :: values f section lines'
          else values f section lines'
      end
  end.

(** What the field [f] of the returned dictionary is settled to. *)
Definition settled (f : labelled) (head : Py.pyval) (analysis : string)
  : Py.pyval :=
  match SpecParser.last_value
          (values f "" (Py.split AIService.newline analysis)) with
  | Some v => convert f v
  | None => fallback f head
  end.

(** No line of the text is one of the four headers. *)
Definition headerless (analysis : string) : bool :=
  forallb (fun raw =>
             match SpecParser.header_of (Py.strip raw) with
             | Some _ => false
             | None => true
             end)
    (Py.split AIService.newline analysis).

End Fields.

(** The result of [_parse_custom_analysis] with its values typed: a
    text and three lists of text. *)
Definition custom_typed (d : Py.dict) : Prop :=
  exists (a : string) (r c n : list string),
    d = [ ("analysis", Py.PStr a);
          ("recommendations", AIService.str_list r);
          ("code_suggestions", AIService.str_list c);
          ("next_steps", AIService.str_list n) ].

(** The dictionary [_parse_custom_analysis] starts from. *)
Definition custom_empty : Py.dict :=
  [ ("analysis", Py.PStr "");
    ("recommendations", Py.PList []);
    ("code_suggestions", Py.PList []);
    ("next_steps", Py.PList []) ].

(** No line of the text holds one of the four heading words of
    [_parse_custom_analysis]. *)
Definition headingless (analysis : string) : bool :=
  forallb (fun raw =>
             let line := Py.strip raw in
             negb (Py.contains "Analysis" line
                   || Py.contains "Recommendations" line
                   || Py.contains "Code Suggestions" line
                   || Py.contains "Next Steps" line))
    (Py.split AIService.newline analysis).

(** The severities [_parse_analysis] can return. *)
Definition three_severities : list string := ["HIGH"; "MEDIUM"; "LOW"].

(** Reading a run of [analyze_and_save_batch] against its input. *)
Module Run.

(** The record is an error: its classification returns true. *)
Definition flagged (log : ElkLog) : bool :=
  match LogService.is_error log with
  | Py.Ok true => true
  | _ => false
  end.

(** [log.elk_id] as a value *)
Definition elk_tag (log : ElkLog) : Py.pyval :=
  match elk_id log with
  | Some i => Py.PInt i
  | None => Py.PNone
  end.

(** [[log.elk_id for log in logs if log.elk_id]], as integers *)
Fixpoint nonzero_elk_ids (logs : list ElkLog) : list Z :=
  match logs with
  | [] => []
  | log :: logs' =>
      match elk_id log with
      | Some i => if (i =? 0)%Z then nonzero_elk_ids logs'
                  else i :: nonzero_elk_ids logs'
      | None => nonzero_elk_ids logs'
      end
  end.

Definition request_log (req : request) : ElkLog :=
  match req with
  | LogPrompt log _ => log
  | CustomPrompt _ log => log
  end.

(** The records the backend was asked about, in the order of the
    calls. *)
Fixpoint requested_logs (tr : trace) : list ElkLog :=
  match tr with
  | [] => []
  | ChatCompletion req _ :: tr' => request_log req :: requested_logs tr'
  | _ :: tr' => requested_logs tr'
  end.

(** An answered backend call about the record. *)
Definition chat_for (e : effect) (log : ElkLog) : Prop :=
  exists req text,
    e = ChatCompletion req (Some text) /\ request_log req = log.

Definition is_opt_int (v : Py.pyval) : bool :=
  match v with Py.PNone | Py.PInt _ => true | _ => false end.

(** The fields of an analysis of [analyze_log] once tagged. *)
Definition tagged_fields : list (string * (Py.pyval -> bool)) :=
  Schema.sliced_fields ++ [("elk_id", is_opt_int)].

(** needs_immediate_attention says whether the severity is HIGH. *)
Definition coherent (a : Py.dict) : Prop :=
  Py.lookup "needs_immediate_attention" a
  = Some (Py.PBool (Py.eq_str (Py.get "severity" Py.PNone a) "HIGH")).

(** The analysis the batch holds for the record. *)
Definition analysis_for (custom_prompt : option string) (a : Py.dict)
  (log : ElkLog) : Prop :=
  Py.lookup "elk_id" a = Some (elk_tag log) /\
  match LogService.given custom_prompt with
  | None => Schema.conforms tagged_fields a = true /\ coherent a
  | Some _ => Py.keys a = Schema.custom_keys
  end.

(** [path keys v]: [v[k1][k2]...] when every step is a dict that has
    the key. *)
Fixpoint path (ks : list string) (v : Py.pyval) : option Py.pyval :=
  match ks with
  | [] => Some v
  | k :: ks' =>
      match v with
      | Py.PDict d =>
          match Py.lookup k d with
          | Some v' => path ks' v'
          | None => None
          end
      | _ => None
      end
  end.

(** [a["severity"] == sev] *)
Definition has_severity (sev : string) (a : Py.dict) : bool :=
  Py.eq_str (Py.get "severity" Py.PNone a) sev.

(** The analyses whose severity is one of HIGH, MEDIUM, LOW. *)
Definition in_a_bucket (a : Py.dict) : bool :=
  let s := Py.get "severity" Py.PNone a in
  Py.eq_str s "HIGH" || Py.eq_str s "MEDIUM" || Py.eq_str s "LOW".

End Run.

(** The document of a run over [logs]: the error records in the order
    of the input, one analysis for each. *)
Definition batch_doc_of (custom_prompt : option string)
  (logs : list ElkLog) (doc : batch_doc) : Prop :=
  doc_logs doc = filter Run.flagged logs /\
  doc_total_errors doc = length (filter Run.flagged logs) /\
  Forall2 (Run.analysis_for custom_prompt) (doc_analyses doc)
    (filter Run.flagged logs) /\
  filter Run.flagged logs <> [].

(** The [analysis_data] built after the insert of [doc]. *)
Definition data_of (stamp : string) (doc : batch_doc)
  : LogService.analysis_data :=
  {| LogService.timestamp := stamp;
     LogService.total_errors := length (doc_logs doc);
     LogService.analyses := doc_analyses doc |}.

(** The runs of [analyze_and_save_batch] over [logs], in full: the
    backend is asked about error records only, in the order of the
    input; then either nothing else happens, or the document of the
    error records is inserted and, when the insert succeeded and the
    payload could be built, posted once. *)
Inductive detailed (custom_prompt : option string) (logs : list ElkLog)
  (tr : trace) : Py.result (option string) -> trace -> Prop :=
| GivenUp (chats : trace) (rest : list ElkLog) :
    forallb Trace.is_chat chats = true ->
    filter Run.flagged logs = Run.requested_logs chats ++ rest ->
    detailed custom_prompt logs tr (Py.Ok None) (tr ++ chats)
| NotSaved (chats : trace) (doc : batch_doc) :
    Forall2 Run.chat_for chats (filter Run.flagged logs) ->
    batch_doc_of custom_prompt logs doc ->
    detailed custom_prompt logs tr (Py.Ok None)
      (tr ++ chats ++ [InsertOne doc None])
| NotPosted (chats : trace) (doc : batch_doc) (batch_id stamp : string)
    (e : Py.exn) :
    Forall2 Run.chat_for chats (filter Run.flagged logs) ->
    batch_doc_of custom_prompt logs doc ->
    LogService.webhook_payload (data_of stamp doc) batch_id
      (Run.nonzero_elk_ids (filter Run.flagged logs)) = Py.Raise e ->
    detailed custom_prompt logs tr (Py.Ok (Some batch_id))
      (tr ++ chats ++ [InsertOne doc (Some batch_id)])
| Posted (chats : trace) (doc : batch_doc) (batch_id stamp : string)
    (payload : Py.pyval) (delivered : bool) :
    Forall2 Run.chat_for chats (filter Run.flagged logs) ->
    batch_doc_of custom_prompt logs doc ->
    LogService.webhook_payload (data_of stamp doc) batch_id
      (Run.nonzero_elk_ids (filter Run.flagged logs)) = Py.Ok payload ->
    detailed custom_prompt logs tr (Py.Ok (Some batch_id))
      (tr ++ chats ++ [InsertOne doc (Some batch_id);
                       HttpPost payload delivered]).

(** The document the collection gives back for an inserted one: the
    logs, the analyses and the count it was given (the timestamp comes
    back with the precision of the store). *)
Definition stored_as (inserted read : batch_doc) : Prop :=
  doc_logs read = doc_logs inserted /\
  doc_analyses read = doc_analyses inserted /\
  doc_total_errors read = doc_total_errors inserted.

(** The backend answers every request. *)
Definition always_answers (w : world) : Prop :=
  forall (tr : trace) (req : request), chat_completion w tr req <> None.

(** [analyze_log] can work on the record: its original event can be
    used for the prompt and its message can be sliced. *)
Definition analysable (log : ElkLog) : bool :=
  match AIService.prompt_event log, AIService.message_head log with
  | Py.Ok _, Py.Ok _ => true
  | _, _ => false
  end.

(** A document reached the store. *)
Definition is_saved (e : effect) : bool :=
  match e with InsertOne _ (Some _) => true | _ => false end.

(** The body of the routes when no batch was made. *)
Definition no_errors_body : Py.dict :=
  [ ("message", Py.PStr "No errors to analyze") ].

(** More sample inputs. *)
Module MoreSamples.

(** The store is down. *)
Definition store_down : world :=
  {| chat_completion := fun _ _ => Some Samples.well_formed_response;
     insert_one := fun _ _ => None;
     http_post := fun _ _ => true;
     utcnow := fun _ => "2024-01-01T00:00:00" |}.

(** An error, a record that is none, an error. *)
Definition mixed_logs : list ElkLog :=
  [Samples.error_record; Samples.info_record; Samples.second_error_record].

Definition mixed_doc : batch_doc :=
  Eval vm_compute in
    SampleDocs.first_doc (effects Samples.calm mixed_logs None).

Definition unsaved_doc : batch_doc :=
  Eval vm_compute in
    SampleDocs.first_doc (effects store_down [Samples.error_record] None).

Definition first_payload (tr : trace) : Py.pyval :=
  match filter Trace.is_post tr with
  | HttpPost payload _ :: _ => payload
  | _ => Py.PNone
  end.

Definition mixed_payload : Py.pyval :=
  Eval vm_compute in first_payload (effects Samples.calm mixed_logs None).

(** The [analysis_data] of the run over [mixed_logs]. *)
Definition mixed_data : LogService.analysis_data :=
  data_of "2024-01-01T00:00:00" mixed_doc.

(** An identifier as the store makes them: 24 hexadecimal digits. *)
Definition hex_id : string := "65a1f0c2b3d4e5f601234567".

(** Every call succeeds and the store names the batch [hex_id]. *)
Definition hex_calm : world :=
  {| chat_completion := fun _ _ => Some Samples.well_formed_response;
     insert_one := fun _ _ => Some hex_id;
     http_post := fun _ _ => true;
     utcnow := fun _ => "2024-01-01T00:00:00" |}.

(** What the store gives back for [doc]: the same logs, analyses and
    count, the timestamp cut to milliseconds. *)
Definition read_back (doc : batch_doc) : batch_doc :=
  {| doc_timestamp := "2024-01-01T00:00:00";
     doc_logs := doc_logs doc;
     doc_analyses := doc_analyses doc;
     doc_total_errors := doc_total_errors doc |}.

(** The collection holds the batch of the run over [mixed_logs] under
    [hex_id], and nothing else. *)
Definition mixed_store (batch_id : string) : found :=
  if batch_id =? hex_id then Document (read_back mixed_doc) else NoDocument.

(** The collection holds the batch of a run with the custom prompt
    "why". *)
Definition custom_store (batch_id : string) : found :=
  if batch_id =? hex_id then Document (read_back SampleDocs.custom_path_doc)
  else NoDocument.

End MoreSamples.

Module Classify.

(** [log.source.get("level_name") in ["ERROR", "EMERGENCY"]] *)
Definition by_level (log : ElkLog) : bool :=
  match level_name (source log) with
  | Some l => (l =? "ERROR") || (l =? "EMERGENCY")
  | None => false
  end.

(** An INFO record whose original event is the JSON object
    {"level_name": "NOTICE", "level": 400}. *)
Definition notice_record : ElkLog :=
  Samples.record (Some "INFO") (Some "slow query")
    (Decoded (Py.PDict [ ("level_name", Py.PStr "NOTICE");
                         ("level", Py.PInt 400) ])) (Some 11%Z).

(** What [analyze_log] makes of the well formed reply. *)
Definition well_formed_analysis : Py.dict :=
  Eval vm_compute in
    match AIService.parse_response Samples.error_record
            Samples.well_formed_response "2024-01-01T00:00:00" with
    | Py.Ok d => d
    | Py.Raise _ => []
    end.

End Classify.

(** ** Facts about the runtime *)

Lemma startswith_app (pre s : string) :
  Py.startswith pre s = true -> exists rest, s = String.append pre rest.
Proof.
  unfold Py.startswith. revert s.
  induction pre as [|a pre IH]; intros s H.
  - exists s. reflexivity.
  - destruct s as [|b s]; simpl in H; [discriminate|].
    destruct (ascii_dec a b) as [->|]; [|discriminate].
    destruct (IH s H) as [rest ->]. exists rest. reflexivity.
Qed.

Lemma split1_snd_app (c : ascii) (pre rest v : string) :
  Py.split1_snd c pre = Some v ->
  Py.split1_snd c (String.append pre rest) = Some (String.append v rest).
Proof.
  induction pre as [|a pre IH]; simpl; [discriminate|].
  destruct (Ascii.eqb a c); [intros [= <-]; reflexivity | exact IH].
Qed.

Lemma field_startswith (pre v line : string) :
  Py.split1_snd ":" pre = Some v ->
  Py.startswith pre line = true ->
  exists rest, line = String.append pre rest /\
    AIService.field line = Py.Ok (Py.strip (String.append v rest)).
Proof.
  intros Hpre Hline. destruct (startswith_app _ _ Hline) as [rest ->].
  exists rest. split; [reflexivity|].
  unfold AIService.field. rewrite (split1_snd_app _ _ rest _ Hpre). reflexivity.
Qed.

Lemma lookup_setitem (k k' : string) (v : Py.pyval) (d : Py.dict) :
  Py.lookup k (Py.setitem k' v d) =
  if String.eqb k k' then Some v else Py.lookup k d.
Proof.
  induction d as [|[k0 v0] d IH]; simpl.
  - reflexivity.
  - destruct (String.eqb k' k0) eqn:E'; simpl.
    + apply String.eqb_eq in E'. subst k0.
      destruct (String.eqb k k'); reflexivity.
    + destruct (String.eqb k k0) eqn:E0.
      * apply String.eqb_eq in E0. subst k0.
        rewrite String.eqb_sym in E'. rewrite E'. reflexivity.
      * exact IH.
Qed.

Lemma keys_setitem_in (k : string) (v : Py.pyval) (d : Py.dict) :
  In k (Py.keys d) -> Py.keys (Py.setitem k v d) = Py.keys d.
Proof.
  unfold Py.keys. induction d as [|[k0 v0] d IH]; simpl; [contradiction|].
  intros H. destruct (String.eqb k k0) eqn:E; simpl; [reflexivity|].
  destruct H as [H|H]; [subst k0; rewrite String.eqb_refl in E; discriminate|].
  f_equal. exact (IH H).
Qed.

Lemma keys_setitem_new (k : string) (v : Py.pyval) (d : Py.dict) :
  ~ In k (Py.keys d) -> Py.keys (Py.setitem k v d) = Py.keys d ++ [k].
Proof.
  unfold Py.keys. induction d as [|[k0 v0] d IH]; simpl; [reflexivity|].
  intros H. destruct (String.eqb k k0) eqn:E; simpl.
  - apply String.eqb_eq in E. subst k0. tauto.
  - f_equal. apply IH. tauto.
Qed.

Lemma lookup_in_keys (k : string) (d : Py.dict) (v : Py.pyval) :
  Py.lookup k d = Some v -> In k (Py.keys d).
Proof.
  unfold Py.keys. induction d as [|[k0 v0] d IH]; simpl; [discriminate|].
  destruct (String.eqb k k0) eqn:E.
  - apply String.eqb_eq in E. auto.
  - auto.
Qed.

Lemma lookup_not_in_keys (k : string) (d : Py.dict) :
  ~ In k (Py.keys d) -> Py.lookup k d = None.
Proof.
  destruct (Py.lookup k d) as [v|] eqn:E; [|reflexivity].
  intros H. elim H. exact (lookup_in_keys _ _ _ E).
Qed.

(** ** The parsing loop of [analyze_log] *)

Lemma inv_initial : ParserInv.holds AIService.initial.
Proof.
  split; simpl; auto; intros k v H; discriminate H.
Qed.

Lemma inv_enter (name : string) (st : AIService.parse_state) :
  In name ParserInv.sections ->
  ParserInv.holds st -> ParserInv.holds (AIService.enter name st).
Proof.
  intros Hname [? ? ? ? ?]. split; simpl; assumption.
Qed.

Lemma inv_set_error_str (k v : string) (st : AIService.parse_state) :
  (k =? "status_code") = false ->
  ParserInv.holds st ->
  ParserInv.holds (AIService.set_error_info k (Py.PStr v) st).
Proof.
  intros Hk [? He ? ? ?]. split; simpl; try assumption.
  intros k' v'. rewrite lookup_setitem.
  destruct (k' =? k) eqn:E.
  - apply String.eqb_eq in E. subst k'. intros [= <-]. rewrite Hk. reflexivity.
  - apply He.
Qed.

Lemma inv_set_status (z : Z) (st : AIService.parse_state) :
  ParserInv.holds st ->
  ParserInv.holds (AIService.set_error_info "status_code" (Py.PInt z) st).
Proof.
  intros [? He ? ? ?]. split; simpl; try assumption.
  intros k' v'. rewrite lookup_setitem.
  destruct (k' =? "status_code") eqn:E.
  - intros [= <-]. reflexivity.
  - intros H. generalize (He k' v' H). rewrite E. trivial.
Qed.

Lemma inv_set_code (k v : string) (st : AIService.parse_state) :
  ParserInv.holds st ->
  ParserInv.holds (AIService.set_code_info k (Py.PStr v) st).
Proof.
  intros [? ? Hc ? ?]. split; simpl; try assumption.
  intros k' v'. rewrite lookup_setitem.
  destruct (k' =? k); [intros [= <-]; reflexivity | apply Hc].
Qed.

Lemma no_bullet_section (section : string) :
  In section ParserInv.sections ->
  Py.contains "Immediate Actions" section = false /\
  Py.contains "Long-term Solutions" section = false.
Proof.
  unfold ParserInv.sections. simpl.
  intros [<-|[<-|[<-|[<-|[<-|[]]]]]]; split; reflexivity.
Qed.

(** A labelled line that passed its [startswith] test has a colon:
    [line.split(":", 1)[1]] is there. *)
Ltac labelled C :=
  let S := fresh "S" in
  apply andb_prop in C; destruct C as [C S];
  let rest := fresh "rest" in
  let L := fresh "L" in
  let E := fresh "E" in
  match type of C with
  | Py.startswith ?pre _ = true =>
      destruct (field_startswith pre _ _ eq_refl C) as (rest & L & E)
  end;
  rewrite E; cbn [Py.bind].

Ltac next_test :=
  match goal with
  | |- context [if ?c then _ else _] =>
      let C := fresh "C" in destruct c eqn:C
  end.

Lemma parse_line_inv (st : AIService.parse_state) (raw : string) :
  ParserInv.holds st ->
  exists st', AIService.parse_line st raw = Py.Ok st' /\ ParserInv.holds st'.
Proof.
  intros Hst. unfold AIService.parse_line. cbv zeta.
  generalize (Py.strip raw). intros line.
  destruct (no_bullet_section _ (ParserInv.section_known _ Hst)) as [Hia Hlt].
  next_test; [eauto|].
  next_test; [eexists; split; [reflexivity|apply inv_enter; simpl; auto]|].
  next_test; [eexists; split; [reflexivity|apply inv_enter; simpl; auto]|].
  next_test; [eexists; split; [reflexivity|apply inv_enter; simpl; auto 6]|].
  next_test; [eexists; split; [reflexivity|apply inv_enter; simpl; auto 6]|].
  next_test; [labelled C4; eexists; split;
              [reflexivity|apply inv_set_error_str; auto]|].
  next_test; [eexists; split; [reflexivity|apply inv_set_status; auto]|].
  next_test; [labelled C6; eexists; split;
              [reflexivity|apply inv_set_error_str; auto]|].
  next_test; [labelled C7; eexists; split;
              [reflexivity|apply inv_set_error_str; auto]|].
  next_test; [labelled C8; eexists; split;
              [reflexivity|apply inv_set_code; auto]|].
  next_test; [labelled C9; eexists; split;
              [reflexivity|apply inv_set_code; auto]|].
  next_test; [labelled C10; eexists; split;
              [reflexivity|apply inv_set_error_str; auto]|].
  next_test; [labelled C11; eexists; split;
              [reflexivity|apply inv_set_error_str; auto]|].
  next_test; [labelled C12; eexists; split;
              [reflexivity|apply inv_set_error_str; auto]|].
  rewrite Hia, Hlt.
  next_test; eauto.
Qed.

Lemma parse_lines_inv (lines : list string) (st : AIService.parse_state) :
  ParserInv.holds st ->
  exists st', AIService.parse_lines st lines = Py.Ok st' /\
              ParserInv.holds st'.
Proof.
  revert st. induction lines as [|raw lines IH]; intros st Hst; simpl.
  - eauto.
  - destruct (parse_line_inv st raw Hst) as (st1 & -> & H1). simpl.
    apply IH. exact H1.
Qed.

Lemma get_error_str (k default : string) (d : Py.dict) :
  (k =? "status_code") = false ->
  ParserInv.typed_error_info d ->
  Schema.is_str (Py.get k (Py.PStr default) d) = true.
Proof.
  intros Hk Hd. unfold Py.get.
  destruct (Py.lookup k d) as [v|] eqn:E; [|reflexivity].
  generalize (Hd k v E). rewrite Hk. trivial.
Qed.

Lemma get_status_int (d : Py.dict) :
  ParserInv.typed_error_info d ->
  Schema.is_int (Py.get "status_code" (Py.PInt 500) d) = true.
Proof.
  intros Hd. unfold Py.get.
  destruct (Py.lookup "status_code" d) as [v|] eqn:E; [|reflexivity].
  exact (Hd _ v E).
Qed.

Lemma get_code_opt_str (k : string) (d : Py.dict) :
  ParserInv.typed_code_info d ->
  Schema.is_opt_str (Py.get k Py.PNone d) = true.
Proof.
  intros Hd. unfold Py.get.
  destruct (Py.lookup k d) as [v|] eqn:E; [|reflexivity].
  generalize (Hd k v E). destruct v; simpl; congruence.
Qed.

(** The slice of the message is a text or a list, or raises. *)
Lemma message_head_sliced (log : ElkLog) (head : Py.pyval) :
  AIService.message_head log = Py.Ok head ->
  Schema.is_str_or_list head = true.
Proof.
  unfold AIService.message_head, Py.slice_value.
  destruct (match message (source log) with
            | Some m => m
            | None => Py.PStr ""
            end); intros [= <-]; reflexivity.
Qed.

Lemma message_head_text (log : ElkLog) (text : string) :
  message (source log) = Some (Py.PStr text) ->
  AIService.message_head log = Py.Ok (Py.PStr (Py.slice_to 150 text)).
Proof. unfold AIService.message_head. intros ->. reflexivity. Qed.

Lemma get_error_message (head : Py.pyval) (d : Py.dict)
  (p : Py.pyval -> bool) :
  ParserInv.typed_error_info d ->
  p head = true ->
  (forall v, Schema.is_str v = true -> p v = true) ->
  p (Py.get "error_message" head d) = true.
Proof.
  intros Hd Hhead Hp. unfold Py.get.
  destruct (Py.lookup "error_message" d) as [v|] eqn:E; [|exact Hhead].
  apply Hp. exact (Hd _ v E).
Qed.

Lemma analysis_dict_conforms (log : ElkLog) (timestamp : string)
  (st : AIService.parse_state) (head : Py.pyval) :
  ParserInv.holds st ->
  AIService.message_head log = Py.Ok head ->
  exists d,
    AIService.analysis_dict log timestamp st = Py.Ok d /\
    Schema.conforms Schema.sliced_fields d = true /\
    (Schema.is_str head = true ->
     Schema.conforms Schema.analysis_fields d = true).
Proof.
  intros [_ He Hc Ha Hr] Hhead.
  unfold AIService.analysis_dict. rewrite Hhead. cbn [Py.bind].
  eexists. split; [reflexivity|].
  unfold Schema.analysis_fields, Schema.sliced_fields.
  cbn [Schema.conforms String.eqb Ascii.eqb Bool.eqb andb Schema.is_str
       Schema.is_bool].
  rewrite Ha, Hr.
  rewrite !get_error_str by (reflexivity || assumption).
  rewrite !get_code_opt_str by assumption.
  rewrite get_status_int by assumption.
  split.
  - rewrite (get_error_message head _ Schema.is_str_or_list He).
    + reflexivity.
    + exact (message_head_sliced _ _ Hhead).
    + intros [] H; try discriminate H; reflexivity.
  - intros Hstr.
    rewrite (get_error_message head _ Schema.is_str He Hstr); auto.
Qed.

(** The parsing step raises exactly when the message cannot be
    sliced. *)
Lemma parse_response_raises (log : ElkLog) (analysis timestamp : string)
  (e : Py.exn) :
  AIService.message_head log = Py.Raise e ->
  AIService.parse_response log analysis timestamp = Py.Raise e.
Proof.
  intros Hhead. unfold AIService.parse_response.
  destruct (parse_lines_inv (Py.split AIService.newline analysis)
              AIService.initial inv_initial) as (st & -> & _).
  cbn [Py.bind]. unfold AIService.analysis_dict. rewrite Hhead.
  reflexivity.
Qed.

(** The bullets of a reply are never collected: no section name holds
    the words the bullet branch looks for. *)
Lemma bullets_never_collected (log : ElkLog) (analysis timestamp : string)
  (d : Py.dict) :
  AIService.parse_response log analysis timestamp = Py.Ok d ->
  Py.lookup "immediate_actions" d = Some (Py.PList []) /\
  Py.lookup "resolution_steps" d = Some (Py.PList []).
Proof.
  unfold AIService.parse_response.
  destruct (parse_lines_inv (Py.split AIService.newline analysis)
              AIService.initial inv_initial) as (st & -> & Hst).
  cbn [Py.bind]. unfold AIService.analysis_dict.
  destruct (AIService.message_head log) as [head|e]; [|discriminate].
  cbn [Py.bind]. intros [= <-].
  destruct Hst as [_ _ _ Ha Hr].
  cbn [Py.lookup String.eqb Ascii.eqb Bool.eqb].
  rewrite Ha, Hr. split; reflexivity.
Qed.

(** ** The severity the loop settles on *)

Lemma field_value_of (line v : string) :
  AIService.field line = Py.Ok v -> SpecParser.value_of line = v.
Proof.
  unfold AIService.field, SpecParser.value_of.
  destruct (Py.split1_snd ":" line); [intros [= <-]; reflexivity|discriminate].
Qed.

Lemma last_value_cons (v : string) (l : list string) :
  SpecParser.last_value (v :: l) =
  match SpecParser.last_value l with
  | Some x => Some x
  | None => Some v
  end.
Proof.
  unfold SpecParser.last_value. simpl.
  destruct (rev l) as [|x r]; reflexivity.
Qed.

(** The line is known to begin with a label: compute the other
    [startswith] tests on it. *)
Ltac known_line C :=
  match type of C with
  | Py.startswith ?pre ?line = true =>
      let rest := fresh "rest" in
      destruct (startswith_app pre line C) as [rest ->]
  end.

Ltac other_key :=
  cbn [AIService.current_section AIService.error_info AIService.enter
       AIService.set_error_info AIService.set_code_info
       AIService.add_immediate_action AIService.add_resolution_step];
  try rewrite lookup_setitem;
  split; reflexivity.

(** What one line does to the section tag and to the severity. *)
Lemma parse_line_severity (st st' : AIService.parse_state) (raw : string) :
  AIService.parse_line st raw = Py.Ok st' ->
  match SpecParser.header_of (Py.strip raw) with
  | Some section =>
      AIService.current_section st' = section /\
      Py.lookup "severity" (AIService.error_info st') =
      Py.lookup "severity" (AIService.error_info st)
  | None =>
      AIService.current_section st' = AIService.current_section st /\
      Py.lookup "severity" (AIService.error_info st') =
      if Py.startswith "Severity:" (Py.strip raw) &&
         (AIService.current_section st =? "analysis")
      then Some (Py.PStr (Py.upper (SpecParser.value_of (Py.strip raw))))
      else Py.lookup "severity" (AIService.error_info st)
  end.
Proof.
  unfold AIService.parse_line, SpecParser.header_of. cbv zeta.
  generalize (Py.strip raw). intros line.
  next_test.
  { intros [= <-]. destruct line; [|discriminate]. split; reflexivity. }
  next_test; [intros [= <-]; split; reflexivity|].
  next_test; [intros [= <-]; split; reflexivity|].
  next_test; [intros [= <-]; split; reflexivity|].
  next_test; [intros [= <-]; split; reflexivity|].
  next_test.
  { labelled C4. intros [= <-]. subst line. other_key. }
  next_test.
  { apply andb_prop in C5. destruct C5 as [C5 _]. known_line C5.
    intros [= <-]. other_key. }
  next_test; [labelled C6; intros [= <-]; subst line; other_key|].
  next_test; [labelled C7; intros [= <-]; subst line; other_key|].
  next_test; [labelled C8; intros [= <-]; subst line; other_key|].
  next_test; [labelled C9; intros [= <-]; subst line; other_key|].
  next_test.
  { labelled C10. intros [= <-]. rewrite (field_value_of _ _ E).
    cbn [AIService.current_section AIService.error_info
         AIService.set_error_info].
    rewrite lookup_setitem. split; reflexivity. }
  next_test; [labelled C11; intros [= <-]; other_key|].
  next_test; [labelled C12; intros [= <-]; other_key|].
  next_test; [|intros [= <-]; split; reflexivity].
  next_test; [intros [= <-]; split; reflexivity|].
  next_test; intros [= <-]; split; reflexivity.
Qed.

Lemma parse_lines_severity (default : Py.pyval) (lines : list string)
  (st st' : AIService.parse_state) :
  AIService.parse_lines st lines = Py.Ok st' ->
  Py.get "severity" default (AIService.error_info st') =
  match SpecParser.last_value
          (SpecParser.severity_values (AIService.current_section st) lines)
  with
  | Some v => Py.PStr (Py.upper v)
  | None => Py.get "severity" default (AIService.error_info st)
  end.
Proof.
  revert st. induction lines as [|raw lines IH]; intros st; simpl.
  - intros [= <-]. reflexivity.
  - destruct (AIService.parse_line st raw) as [st1|e] eqn:E1; simpl;
      [|discriminate].
    intros H. rewrite (IH _ H). clear IH H.
    generalize (parse_line_severity _ _ _ E1).
    destruct (SpecParser.header_of (Py.strip raw)) as [section|].
    + intros [-> Hsev]. unfold Py.get. rewrite Hsev. reflexivity.
    + intros [-> Hsev].
      destruct (Py.startswith "Severity:" (Py.strip raw) &&
                (AIService.current_section st =? "analysis")).
      * rewrite last_value_cons. unfold Py.get. rewrite Hsev.
        destruct (SpecParser.last_value _); reflexivity.
      * unfold Py.get. rewrite Hsev. reflexivity.
Qed.

(** ** The claims about the parser *)

(** C1. The claim: a well-formed reply with severity HIGH and the single
    bullet "- Restart service" under "Immediate Actions:" parses to
    needs_immediate_attention = true and
    immediate_actions = ["Restart service"].  On the code the flag is
    true but the bullet is dropped: the parsed immediate_actions is the
    empty list.  This holds for every record and every timestamp: when
    the message of the record can be sliced the reply parses as said,
    and when it cannot the parsing step raises and returns nothing. *)
Theorem restart_service_bullet_dropped (log : ElkLog) (timestamp : string) :
  match AIService.message_head log with
  | Py.Ok _ =>
      exists d,
        AIService.parse_response log Samples.well_formed_response timestamp
        = Py.Ok d /\
        Py.lookup "needs_immediate_attention" d = Some (Py.PBool true) /\
        Py.lookup "immediate_actions" d = Some (Py.PList []) /\
        Py.lookup "immediate_actions" d
        <> Some (AIService.str_list ["Restart service"])
  | Py.Raise e =>
      AIService.parse_response log Samples.well_formed_response timestamp
      = Py.Raise e
  end.
Proof.
  destruct (AIService.message_head log) as [head|e] eqn:Hhead;
    [|exact (parse_response_raises _ _ _ _ Hhead)].
  unfold AIService.parse_response.
  destruct (AIService.parse_lines AIService.initial
              (Py.split AIService.newline Samples.well_formed_response))
    as [st|e] eqn:E; vm_compute in E; [|discriminate E].
  injection E as <-. cbn [Py.bind].
  unfold AIService.analysis_dict. rewrite Hhead. cbn [Py.bind].
  eexists. split; [reflexivity|].
  repeat split; try (vm_compute; reflexivity).
  vm_compute. discriminate.
Qed.

(** C3. The claim: for every reply text the parsing step never throws
    and returns a record with every field populated.  On a record
    whose source is {"level_name": "ERROR", "message": null} the
    default of "error_message", [log.source.get("message", "")[:150]],
    is computed for every reply and raises TypeError: the parsing step
    throws whatever the reply says, also when the reply has a
    "Description:" line, and the run that asked the backend about the
    record gives the batch up. *)
Theorem null_message_breaks_parsing (analysis timestamp : string) :
  message (source Samples.null_message_record) = Some Py.PNone /\
  AIService.parse_response Samples.null_message_record analysis timestamp
  = Py.Raise Py.TypeError /\
  AIService.parse_response Samples.null_message_record
    Samples.well_formed_response timestamp
  = Py.Raise Py.TypeError /\
  LogService.analyze_and_save_batch Samples.calm
    [Samples.null_message_record] None []
  = (Py.Ok None,
     [ChatCompletion (LogPrompt Samples.null_message_record (Py.PDict []))
        (Some Samples.well_formed_response)]).
Proof.
  split; [reflexivity|].
  split; [apply parse_response_raises; reflexivity|].
  split; [apply parse_response_raises; reflexivity|].
  vm_compute. reflexivity.
Qed.

(** What is left of C3 on the code: for a record whose message is
    text, or missing, the parsing step returns for every reply text,
    without raising, a dictionary that has every field of the
    analysis, each of its type: the text-supplied value or the
    fallback. *)
Theorem parse_response_populated (log : ElkLog)
  (analysis timestamp : string) :
  (message (source log) = None \/
   exists text, message (source log) = Some (Py.PStr text)) ->
  exists d,
    AIService.parse_response log analysis timestamp = Py.Ok d /\
    Schema.conforms Schema.analysis_fields d = true.
Proof.
  intros Hmessage.
  assert (Hhead : exists m,
            AIService.message_head log = Py.Ok (Py.PStr m)).
  { unfold AIService.message_head.
    destruct Hmessage as [-> | [text ->]]; eexists; reflexivity. }
  destruct Hhead as [m Hhead].
  unfold AIService.parse_response.
  destruct (parse_lines_inv (Py.split AIService.newline analysis)
              AIService.initial inv_initial) as (st & -> & Hst).
  cbn [Py.bind].
  destruct (analysis_dict_conforms log timestamp st _ Hst Hhead)
    as (d & Hd & _ & Hstrict).
  exists d. split; [exact Hd|]. apply Hstrict. reflexivity.
Qed.

Lemma parse_response_populated_witness :
  exists d,
    AIService.parse_response Samples.error_record
      "no section at all" "2024-01-01T00:00:00" = Py.Ok d /\
    Schema.conforms Schema.analysis_fields d = true.
Proof.
  apply (parse_response_populated Samples.error_record
           "no section at all" "2024-01-01T00:00:00").
  right. exists "connection refused". reflexivity.
Defined.

(** C6. The claim: a severity that is none of HIGH, MEDIUM, LOW falls
    back to MEDIUM.  The reply "ANALYSIS / Severity: critical" parses
    to the severity CRITICAL, which is none of the three, where the
    claim says MEDIUM. *)
Lemma unrecognized_severity_kept :
  Py.bind
    (AIService.parse_response Samples.error_record
       Samples.critical_response "2024-01-01T00:00:00")
    (fun d => Py.Ok (Py.lookup "severity" d))
  = Py.Ok (Some (Py.PStr "CRITICAL")) /\
  SpecParser.recognized "CRITICAL" = false /\
  SpecParser.claimed_severity Samples.critical_response = "MEDIUM".
Proof.
  repeat split; vm_compute; reflexivity.
Qed.

(** What the code does with the severity: for every reply text the
    parsed severity is the stripped, upper-cased value of the last
    "Severity:" line met while the section is ANALYSIS, whatever that
    value is; it is MEDIUM only when there is no such line. *)
Lemma severity_is_last_value_uppercased (log : ElkLog)
  (analysis timestamp : string) (d : Py.dict) :
  AIService.parse_response log analysis timestamp = Py.Ok d ->
  Py.lookup "severity" d = Some (Py.PStr (SpecParser.severity analysis)).
Proof.
  unfold AIService.parse_response.
  destruct (parse_lines_inv (Py.split AIService.newline analysis)
              AIService.initial inv_initial) as (st & Hparse & _).
  rewrite Hparse. cbn [Py.bind].
  unfold AIService.analysis_dict.
  destruct (AIService.message_head log) as [head|e]; [|discriminate].
  cbn [Py.bind]. intros [= <-].
  cbn [Py.lookup String.eqb Ascii.eqb Bool.eqb].
  rewrite (parse_lines_severity (Py.PStr "MEDIUM") _ _ _ Hparse).
  unfold SpecParser.severity. cbn [AIService.current_section AIService.initial].
  destruct (SpecParser.last_value _); reflexivity.
Qed.

(** C7. The claim: without a "Description:" line the error_message is
    the first 150 characters of the message, followed by an ellipsis
    when the message was longer.  On a message of 151 characters and an
    empty reply the code returns the 150 characters alone, where the
    helpers of the same class append "...". *)
Theorem long_message_cut_without_ellipsis (timestamp : string) :
  exists d,
    AIService.parse_response Samples.long_message_record "" timestamp
    = Py.Ok d /\
    Py.lookup "error_message" d
    = Some (Py.PStr (Samples.repeat_char "a" 150)) /\
    truncated_with_ellipsis (Samples.repeat_char "a" 151)
    = String.append (Samples.repeat_char "a" 150) "..." /\
    Py.lookup "error_message" d
    <> Some (Py.PStr (truncated_with_ellipsis (Samples.repeat_char "a" 151))).
Proof.
  destruct (AIService.parse_response Samples.long_message_record ""
              timestamp) as [d|e] eqn:E; vm_compute in E;
    [|discriminate E].
  injection E as <-. eexists. split; [reflexivity|].
  split; [vm_compute; reflexivity|].
  split; [vm_compute; reflexivity|].
  intros H. apply (f_equal (option_map
    (fun v => match v with Py.PStr s => String.length s | _ => O end))) in H.
  vm_compute in H. discriminate H.
Qed.

(** ** The custom parser *)

Lemma parse_custom_line_inv (st : string * Py.dict) (raw : string) :
  custom_result (snd st) ->
  exists st', AIService.parse_custom_line st raw = Py.Ok st' /\
              custom_result (snd st').
Proof.
  destruct st as [section result]. simpl. intros Hres.
  unfold AIService.parse_custom_line. cbv zeta.
  generalize (Py.strip raw). intros line.
  next_test; [eauto|].
  next_test; [eauto|]. next_test; [eauto|].
  next_test; [eauto|]. next_test; [eauto|].
  destruct Hres as (a & r & c & n & ->).
  next_test.
  - next_test; [|eexists; split; [reflexivity|]; simpl; red; eauto 8].
    simpl in C5.
    repeat (apply orb_prop in C5; destruct C5 as [C5|C5]);
      try discriminate C5; apply String.eqb_eq in C5; subst section;
      (eexists; split; [reflexivity|]; simpl; red; eauto 8).
  - next_test; [|eexists; split; [reflexivity|]; simpl; red; eauto 8].
    apply String.eqb_eq in C5. subst section.
    eexists; split; [reflexivity|]; simpl; red; eauto 8.
Qed.

Lemma parse_custom_lines_inv (lines : list string) (st : string * Py.dict) :
  custom_result (snd st) ->
  exists st', AIService.parse_custom_lines st lines = Py.Ok st' /\
              custom_result (snd st').
Proof.
  revert st. induction lines as [|raw lines IH]; intros st Hst; simpl.
  - eauto.
  - destruct (parse_custom_line_inv st raw Hst) as (st1 & -> & H1). simpl.
    apply IH. exact H1.
Qed.

Lemma _parse_custom_analysis_keys (analysis : string) :
  exists d, AIService._parse_custom_analysis analysis = Py.Ok d /\
    Py.keys d = ["analysis"; "recommendations"; "code_suggestions";
                 "next_steps"].
Proof.
  unfold AIService._parse_custom_analysis. cbv zeta.
  match goal with
  | |- context [AIService.parse_custom_lines ?st ?lines] =>
      destruct (parse_custom_lines_inv lines st) as (st' & -> & H)
  end.
  - simpl. red. eauto 8.
  - simpl. destruct H as (a & r & c & n & ->). eexists. split; reflexivity.
Qed.

(** ** The runs of the service *)

(** Peel the first [let*] of a computation whose first action is pure. *)
Ltac pure_step v e :=
  unfold io_bind at 1;
  match goal with
  | |- context [io_lift ?x ?tr] => destruct x as [v|e] eqn:?
  end;
  unfold io_lift at 1; cbv beta iota.

Lemma analyze_log_cases (w : world) (log : ElkLog) (tr tr' : trace)
  (r : Py.result Py.dict) :
  AIService.analyze_log w log tr = (r, tr') ->
  (tr' = tr /\ exists e, r = Py.Raise e) \/
  (exists req c, tr' = tr ++ [ChatCompletion req c] /\
                 exists e, r = Py.Raise e) \/
  (exists req text d, tr' = tr ++ [ChatCompletion req (Some text)] /\
                      r = Py.Ok d).
Proof.
  unfold AIService.analyze_log.
  pure_step v e; [|intros [= <- <-]; left; eauto].
  unfold io_bind at 1, create_completion. cbv zeta.
  destruct (chat_completion w tr (LogPrompt log v)) as [text|].
  - unfold io_bind at 1, io_lift.
    destruct (parse_lines_inv (Py.split AIService.newline text)
                AIService.initial inv_initial) as (st & -> & _).
    unfold io_bind, now.
    destruct (AIService.analysis_dict log _ st) as [d|e];
      intros [= <- <-]; right; [right|left]; eauto.
  - intros [= <- <-]. right. left. eauto.
Qed.

Lemma analyze_custom_prompt_cases (w : world) (prompt : string)
  (log : ElkLog) (tr tr' : trace) (r : Py.result Py.dict) :
  AIService.analyze_custom_prompt w prompt log tr = (r, tr') ->
  (exists req, tr' = tr ++ [ChatCompletion req None] /\
               exists e, r = Py.Raise e) \/
  (exists req text d, tr' = tr ++ [ChatCompletion req (Some text)] /\
     r = Py.Ok d /\
     Py.keys d = ["analysis"; "recommendations"; "code_suggestions";
                  "next_steps"]).
Proof.
  unfold AIService.analyze_custom_prompt, io_bind, create_completion.
  cbv zeta.
  destruct (chat_completion w tr (CustomPrompt prompt log)) as [text|].
  - unfold io_lift.
    destruct (_parse_custom_analysis_keys text) as (d & -> & Hk).
    intros [= <- <-]. right. eauto 8.
  - intros [= <- <-]. left. eauto.
Qed.

Lemma batch_inv_empty (custom_prompt : option string) :
  batch_inv custom_prompt LogService.empty_batch.
Proof.
  split; simpl; [reflexivity|]. intros _. constructor.
Qed.

(** One turn of the loop: the record is skipped, or an exception
    escapes before or at the backend call, or the backend answers and
    the record joins the batch. *)
Lemma process_log_cases (w : world) (custom_prompt : option string)
  (acc : LogService.batch) (log : ElkLog) (tr tr' : trace)
  (r : Py.result LogService.batch) :
  LogService.process_log w custom_prompt acc log tr = (r, tr') ->
  (tr' = tr /\ r = Py.Ok acc /\ LogService.is_error log = Py.Ok false) \/
  (tr' = tr /\ exists e, r = Py.Raise e) \/
  (LogService.is_error log = Py.Ok true /\
   exists req c, tr' = tr ++ [ChatCompletion req c] /\
                 exists e, r = Py.Raise e) \/
  (LogService.is_error log = Py.Ok true /\
   exists req text acc',
     tr' = tr ++ [ChatCompletion req (Some text)] /\ r = Py.Ok acc' /\
     LogService.error_logs acc' = LogService.error_logs acc ++ [log] /\
     (batch_inv custom_prompt acc -> batch_inv custom_prompt acc')).
Proof.
  unfold LogService.process_log.
  pure_step flagged e; [|intros [= <- <-]; right; left; eauto].
  destruct flagged; [|unfold io_ret; intros [= <- <-]; left; auto].
  unfold io_bind, io_ret.
  destruct (LogService.given custom_prompt) as [prompt|] eqn:G.
  - destruct (AIService.analyze_custom_prompt w prompt log tr)
      as [ra tra] eqn:Ea.
    destruct (analyze_custom_prompt_cases _ _ _ _ _ _ Ea)
      as [(req & -> & e & ->)|(req & text & d & -> & -> & Hk)].
    + intros [= <- <-]. right. right. left. eauto 10.
    + intros [= <- <-]. right. right. right. split; [reflexivity|].
      eexists _, _, _. split; [reflexivity|]. split; [reflexivity|].
      split; [reflexivity|].
      intros [Hlen Hkeys]. split; simpl.
      * rewrite !length_app. simpl. lia.
      * intros _. apply Forall_app. split; [apply Hkeys; congruence|].
        constructor; [|constructor].
        rewrite keys_setitem_new; [rewrite Hk; reflexivity|].
        rewrite Hk. simpl. intuition discriminate.
  - destruct (AIService.analyze_log w log tr) as [ra tra] eqn:Ea.
    destruct (analyze_log_cases _ _ _ _ _ Ea)
      as [(-> & e & ->)|[(req & c & -> & e & ->)|(req & text & d & -> & ->)]].
    + intros [= <- <-]. right. left. eauto.
    + intros [= <- <-]. right. right. left. eauto 10.
    + intros [= <- <-]. right. right. right. split; [reflexivity|].
      eexists _, _, _. split; [reflexivity|]. split; [reflexivity|].
      split; [reflexivity|].
      intros [Hlen Hkeys]. split; simpl.
      * rewrite !length_app. simpl. lia.
      * intros H. congruence.
Qed.

Lemma process_logs_cases (w : world) (custom_prompt : option string)
  (logs : list ElkLog) (acc : LogService.batch) (tr tr' : trace)
  (r : Py.result LogService.batch) :
  LogService.process_logs w custom_prompt acc logs tr = (r, tr') ->
  exists chats,
    tr' = tr ++ chats /\
    forallb Trace.is_chat chats = true /\
    forallb Trace.is_answered_chat (removelast chats) = true /\
    forall acc', r = Py.Ok acc' ->
      forallb Trace.is_answered_chat chats = true /\
      (batch_inv custom_prompt acc -> batch_inv custom_prompt acc').
Proof.
  revert acc tr. induction logs as [|log logs IH]; intros acc tr; simpl.
  - unfold io_ret. intros [= <- <-]. exists []. rewrite app_nil_r.
    split; [reflexivity|]. split; [reflexivity|]. split; [reflexivity|].
    intros acc' [= <-]. split; [reflexivity|trivial].
  - unfold io_bind.
    destruct (LogService.process_log w custom_prompt acc log tr)
      as [r1 tr1] eqn:E1.
    destruct (process_log_cases _ _ _ _ _ _ _ E1)
      as [(-> & -> & _)
         |[(-> & e & ->)
          |[(_ & req & c & -> & e & ->)
           |(_ & req & text & acc1 & -> & -> & _ & Hinv)]]].
    + apply IH.
    + intros [= <- <-]. exists []. rewrite app_nil_r.
      split; [reflexivity|]. split; [reflexivity|]. split; [reflexivity|].
      intros acc' [=].
    + intros [= <- <-]. eexists. split; [reflexivity|].
      split; [reflexivity|]. split; [reflexivity|]. intros acc' [=].
    + intros H. destruct (IH _ _ H) as (chats & -> & Hchat & Hlast & Hok).
      exists (ChatCompletion req (Some text) :: chats).
      split; [rewrite <- app_assoc; reflexivity|].
      split; [exact Hchat|].
      split; [destruct chats; [reflexivity|exact Hlast]|].
      intros acc' Hr. destruct (Hok acc' Hr) as [Hans Hacc].
      split; [exact Hans|]. auto.
Qed.

(** Without the fields of [analyze_log] the summary of the webhook
    cannot be built: the first analysis has no "severity". *)
Lemma custom_batch_has_no_summary (data : LogService.analysis_data)
  (batch_id : string) (elk_ids : list Z) :
  LogService.analyses data <> [] ->
  Forall (fun a => Py.keys a = Schema.custom_keys)
    (LogService.analyses data) ->
  LogService.webhook_payload data batch_id elk_ids
  = Py.Raise (Py.KeyError "severity").
Proof.
  unfold LogService.webhook_payload.
  destruct (LogService.analyses data) as [|a l]; [congruence|].
  intros _ H. inversion H as [|? ? Hk _]. subst.
  simpl. unfold Py.getitem.
  rewrite lookup_not_in_keys; [reflexivity|].
  rewrite Hk. simpl. intuition discriminate.
Qed.

Lemma answered_removelast (chats : trace) :
  forallb Trace.is_answered_chat chats = true ->
  forallb Trace.is_answered_chat (removelast chats) = true.
Proof.
  induction chats as [|e chats IH]; [reflexivity|].
  intros H. cbn [forallb] in H. apply andb_prop in H. destruct H as [He H].
  destruct chats as [|e' chats]; [reflexivity|].
  change (removelast (e :: e' :: chats)) with (e :: removelast (e' :: chats)).
  cbn [forallb]. rewrite He. exact (IH H).
Qed.

Lemma answered_chats_are_chats (chats : trace) :
  forallb Trace.is_answered_chat chats = true ->
  forallb Trace.is_chat chats = true.
Proof.
  induction chats as [|e chats IH]; simpl; [reflexivity|].
  intros H. apply andb_prop in H. destruct H as [He H].
  rewrite (IH H). destruct e; try discriminate He. reflexivity.
Qed.

Lemma analyze_and_save_batch_outcome (w : world) (logs : list ElkLog)
  (custom_prompt : option string) (tr tr' : trace)
  (r : Py.result (option string)) :
  LogService.analyze_and_save_batch w logs custom_prompt tr = (r, tr') ->
  outcome custom_prompt tr r tr'.
Proof.
  unfold LogService.analyze_and_save_batch, io_try.
  unfold io_bind at 1.
  destruct (LogService.process_logs w custom_prompt LogService.empty_batch
              logs tr) as [r0 tr0] eqn:E0.
  destruct (process_logs_cases _ _ _ _ _ _ _ E0)
    as (chats & -> & Hchat & Hlast & Hok).
  destruct r0 as [acc|e];
    [|unfold io_ret; intros [= <- <-]; constructor; assumption].
  destruct (Hok acc eq_refl) as [Hans Hinv]. clear Hok.
  specialize (Hinv (batch_inv_empty _)). destruct Hinv as [Hlen Hkeys].
  destruct (LogService.error_logs acc) as [|log0 logs0] eqn:El;
    [unfold io_ret; intros [= <- <-]; constructor; assumption|].
  assert (Hdoc : forall stamp n,
    saved_doc custom_prompt
      {| doc_timestamp := stamp; doc_logs := log0 :: logs0;
         doc_analyses := LogService.batch_analyses acc;
         doc_total_errors := n |}).
  { intros stamp n. split; simpl; [|exact Hkeys].
    intros Hnil. rewrite Hnil in Hlen. discriminate Hlen. }
  unfold LogRepository.save_batch, collection_insert_one, now.
  unfold io_bind at 1. unfold io_bind at 1. cbv zeta.
  match goal with
  | |- context [insert_one w ?t ?d] =>
      destruct (insert_one w t d) as [batch_id|]
  end.
  2:{ unfold io_ret. intros [= <- <-]. rewrite <- app_assoc.
      apply SaveFailed; [exact Hans|apply Hdoc]. }
  unfold io_bind at 1. unfold io_bind at 1.
  unfold LogService.send_webhook_notification, io_try, io_bind, io_lift,
    client_post, io_ret. cbv zeta.
  match goal with
  | |- context [LogService.webhook_payload ?d ?b ?i] =>
      destruct (LogService.webhook_payload d b i) as [payload|e] eqn:Ep
  end.
  - match goal with
    | |- context [http_post w ?t ?p] => destruct (http_post w t p)
    end;
      intros [= <- <-]; rewrite <- !app_assoc; simpl;
      (apply Saved; [exact Hans|apply Hdoc|]); right;
      (split; [|eauto]);
      (destruct (LogService.given custom_prompt) eqn:G; [|reflexivity]);
      rewrite custom_batch_has_no_summary in Ep;
      try discriminate Ep; simpl;
      try (apply Hkeys; discriminate);
      intros Hnil; rewrite Hnil in Hlen; discriminate Hlen.
  - intros [= <- <-]. rewrite <- app_assoc. simpl.
    apply Saved; [exact Hans|apply Hdoc|]. left. reflexivity.
Qed.

Lemma chats_hold_no_failure (chats : trace) :
  forallb Trace.is_answered_chat chats = true ->
  existsb Trace.is_failed_chat chats = false.
Proof.
  induction chats as [|e chats IH]; simpl; [reflexivity|].
  intros H. apply andb_prop in H. destruct H as [He H].
  rewrite (IH H). destruct e as [req [text|]| |]; try discriminate He;
    reflexivity.
Qed.

Lemma chats_hold_no_post (chats : trace) :
  forallb Trace.is_chat chats = true ->
  existsb Trace.is_post chats = false.
Proof.
  induction chats as [|e chats IH]; simpl; [reflexivity|].
  intros H. apply andb_prop in H. destruct H as [He H].
  rewrite (IH H). destruct e; try discriminate He; reflexivity.
Qed.

Lemma chats_hold_no_insert (chats : trace) (doc : batch_doc)
  (inserted_id : option string) :
  forallb Trace.is_chat chats = true ->
  ~ In (InsertOne doc inserted_id) chats.
Proof.
  intros H Hin. rewrite forallb_forall in H.
  discriminate (H _ Hin).
Qed.

Lemma run_outcome (w : world) (logs : list ElkLog)
  (custom_prompt : option string) :
  outcome custom_prompt [] (returned w logs custom_prompt)
    (effects w logs custom_prompt).
Proof.
  apply (analyze_and_save_batch_outcome w logs). unfold returned, effects.
  destruct (LogService.analyze_and_save_batch w logs custom_prompt []).
  reflexivity.
Qed.

Lemma process_logs_unflagged (w : world) (custom_prompt : option string)
  (logs : list ElkLog) (acc : LogService.batch) (tr : trace) :
  Forall (fun log => LogService.is_error log <> Py.Ok true) logs ->
  LogService.process_logs w custom_prompt acc logs tr = (Py.Ok acc, tr) \/
  exists e,
    LogService.process_logs w custom_prompt acc logs tr = (Py.Raise e, tr).
Proof.
  induction 1 as [|log logs Hlog _ IH]; simpl.
  - left. reflexivity.
  - unfold io_bind.
    destruct (LogService.process_log w custom_prompt acc log tr)
      as [r1 tr1] eqn:E1.
    destruct (process_log_cases _ _ _ _ _ _ _ E1)
      as [(-> & -> & _)
         |[(-> & e & ->)
          |[(Hflag & _)|(Hflag & _)]]];
      try (elim Hlog; exact Hflag).
    + exact IH.
    + right. eauto.
Qed.

(** ** The claims about the service *)

(** C2. The claim: a backend call that raises for one record does not
    abort the batch.  Two records are errors and the backend raises on
    the first call only: the run returns None after that one call; the
    second record is never analysed and nothing is inserted. *)
Theorem one_failed_call_loses_the_batch :
  LogService.is_error Samples.second_error_record = Py.Ok true /\
  LogService.analyze_and_save_batch Samples.first_call_fails
    [Samples.error_record; Samples.second_error_record] None []
  = (Py.Ok None,
     [ChatCompletion (LogPrompt Samples.error_record (Py.PDict [])) None]).
Proof.
  split; vm_compute; reflexivity.
Qed.

(** What the code does for every input and every backend: a backend
    call that raises is the last thing the run does.  The run returns
    None, the calls before the failed one were all answered, no later
    record is asked about, nothing is inserted and no webhook is
    attempted. *)
Theorem failed_backend_call_aborts_batch (w : world) (logs : list ElkLog)
  (custom_prompt : option string) :
  existsb Trace.is_failed_chat (effects w logs custom_prompt) = true ->
  returned w logs custom_prompt = Py.Ok None /\
  exists chats req,
    effects w logs custom_prompt = chats ++ [ChatCompletion req None] /\
    forallb Trace.is_answered_chat chats = true.
Proof.
  intros Hfail.
  destruct (run_outcome w logs custom_prompt)
    as [chats Hchat Hlast|chats doc Hans _
       |chats doc batch_id attempt Hans _ Hatt];
    simpl in *.
  - split; [reflexivity|].
    destruct chats as [|e0 chats0] eqn:Hc; [discriminate Hfail|].
    rewrite <- Hc in *.
    assert (Hne : chats <> []) by (rewrite Hc; discriminate).
    rewrite (app_removelast_last e0 Hne) in Hfail.
    rewrite existsb_app, (chats_hold_no_failure _ Hlast) in Hfail.
    cbn [existsb orb] in Hfail. rewrite orb_false_r in Hfail.
    exists (removelast chats).
    destruct (last chats e0) as [req [text|]| |] eqn:El;
      try discriminate Hfail.
    exists req. split; [|exact Hlast].
    rewrite <- El. apply app_removelast_last. exact Hne.
  - rewrite existsb_app, (chats_hold_no_failure _ Hans) in Hfail.
    discriminate Hfail.
  - rewrite existsb_app, (chats_hold_no_failure _ Hans) in Hfail.
    destruct Hatt as [->|(_ & payload & delivered & ->)];
      discriminate Hfail.
Qed.

Lemma failed_backend_call_aborts_batch_witness :
  returned Samples.first_call_fails
    [Samples.error_record; Samples.second_error_record] None = Py.Ok None /\
  exists chats req,
    effects Samples.first_call_fails
      [Samples.error_record; Samples.second_error_record] None
    = chats ++ [ChatCompletion req None] /\
    forallb Trace.is_answered_chat chats = true.
Proof.
  apply (failed_backend_call_aborts_batch Samples.first_call_fails
           [Samples.error_record; Samples.second_error_record] None).
  vm_compute. reflexivity.
Defined.

(** C4. The claim: a record whose level is ERROR or EMERGENCY is
    classified as an error whatever its original event holds.  On an
    ERROR record whose original event is the object {"level": "error"}
    the comparison with 400 raises TypeError, which the
    JSONDecodeError handler lets through: the record is not classified
    and the run returns None without any call. *)
Theorem text_level_breaks_classification (w : world)
  (custom_prompt : option string) :
  level_name (source Samples.text_level_record) = Some "ERROR" /\
  LogService.is_error Samples.text_level_record = Py.Raise Py.TypeError /\
  LogService.analyze_and_save_batch w [Samples.text_level_record]
    custom_prompt [] = (Py.Ok None, []).
Proof.
  repeat split.
Qed.

(** What is left of C4 on the code: a record whose level is ERROR or
    EMERGENCY is an error whenever its classification returns. *)
Lemma flagged_level_is_error_when_classified (log : ElkLog) (b : bool) :
  level_name (source log) = Some "ERROR" \/
  level_name (source log) = Some "EMERGENCY" ->
  LogService.is_error log = Py.Ok b -> b = true.
Proof.
  intros Hlevel. unfold LogService.is_error.
  assert (Hflag : match level_name (source log) with
                  | Some l => (l =? "ERROR") || (l =? "EMERGENCY")
                  | None => false
                  end = true)
    by (destruct Hlevel as [-> | ->]; reflexivity).
  rewrite Hflag.
  destruct (loads_event_original log) as [v|[]]; try discriminate;
    [|intros [= <-]; reflexivity].
  destruct (Py.value_get "level_name" Py.PNone v) as [name|]; simpl;
    [|discriminate].
  destruct (Py.eq_str name "ERROR"); [intros [= <-]; reflexivity|].
  destruct (Py.value_get "level" (Py.PInt 0) v) as [level|]; simpl;
    [|discriminate].
  destruct (Py.ge_400 level) as [[|]|]; simpl; try discriminate;
    intros [= <-]; reflexivity.
Qed.

(** C5. The claim: a record whose level is neither ERROR nor EMERGENCY
    and whose original event is absent or does not parse is classified
    false, and a payload that does not parse never makes the
    classification fail.  On an INFO record whose source has
    {"event": {"original": 5}} [json.loads] raises TypeError, which the
    JSONDecodeError handler lets through: the classification fails,
    the run returns None, and the analysis of an error record that
    came before it is lost.  The same happens with {"event": null}
    (AttributeError). *)
Theorem non_text_payload_breaks_classification (w : world)
  (custom_prompt : option string) :
  level_name (source Samples.number_payload_record) = Some "INFO" /\
  event (source Samples.number_payload_record) = OriginalNotText /\
  LogService.is_error Samples.number_payload_record
  = Py.Raise Py.TypeError /\
  LogService.is_error
    (with_event Samples.number_payload_record EventNotDict)
  = Py.Raise Py.AttributeError /\
  LogService.analyze_and_save_batch w [Samples.number_payload_record]
    custom_prompt [] = (Py.Ok None, []) /\
  LogService.analyze_and_save_batch Samples.calm
    [Samples.error_record; Samples.number_payload_record] None []
  = (Py.Ok None,
     [ChatCompletion (LogPrompt Samples.error_record (Py.PDict []))
        (Some Samples.well_formed_response)]).
Proof.
  repeat split.
Qed.

(** What is left of C5 on the code: a record whose level is neither
    ERROR nor EMERGENCY and whose original event is missing or is text
    that does not decode is not an error: the classification returns
    false without raising, and the text that does not decode is
    classified as the missing event is. *)
Theorem absent_or_undecodable_event_not_error (log : ElkLog) :
  level_name (source log) <> Some "ERROR" ->
  level_name (source log) <> Some "EMERGENCY" ->
  event (source log) = NoOriginal \/ event (source log) = Undecodable ->
  LogService.is_error log = Py.Ok false /\
  LogService.is_error (with_event log Undecodable)
  = LogService.is_error (with_event log NoOriginal).
Proof.
  intros H1 H2 Hev.
  assert (Hlevel : match level_name (source log) with
                   | Some l => (l =? "ERROR") || (l =? "EMERGENCY")
                   | None => false
                   end = false).
  { destruct (level_name (source log)) as [l|]; [|reflexivity].
    apply orb_false_intro; apply String.eqb_neq; congruence. }
  split.
  - unfold LogService.is_error, loads_event_original.
    destruct Hev as [-> | ->]; simpl; rewrite Hlevel; reflexivity.
  - unfold LogService.is_error, loads_event_original, with_event. simpl.
    reflexivity.
Qed.

Lemma absent_or_undecodable_event_not_error_witness :
  LogService.is_error Samples.info_record = Py.Ok false /\
  LogService.is_error (with_event Samples.info_record Undecodable)
  = LogService.is_error (with_event Samples.info_record NoOriginal).
Proof.
  apply (absent_or_undecodable_event_not_error Samples.info_record).
  - simpl. discriminate.
  - simpl. discriminate.
  - right. reflexivity.
Defined.

(** C8. When no record of the list is classified as an error,
    analyze_and_save_batch returns None and calls nothing outside: no
    insert reaches the store. *)
Theorem no_error_no_batch (w : world) (logs : list ElkLog)
  (custom_prompt : option string) :
  Forall (fun log => LogService.is_error log <> Py.Ok true) logs ->
  returned w logs custom_prompt = Py.Ok None /\
  effects w logs custom_prompt = [] /\
  existsb Trace.is_insert (effects w logs custom_prompt) = false.
Proof.
  intros Hlogs. unfold returned, effects, LogService.analyze_and_save_batch,
    io_try, io_bind.
  destruct (process_logs_unflagged w custom_prompt logs LogService.empty_batch
              [] Hlogs) as [-> | [e ->]]; simpl; auto.
Qed.

Lemma no_error_no_batch_witness :
  returned Samples.calm [Samples.info_record; Samples.info_record] None
  = Py.Ok None /\
  effects Samples.calm [Samples.info_record; Samples.info_record] None = [] /\
  existsb Trace.is_insert
    (effects Samples.calm [Samples.info_record; Samples.info_record] None)
  = false.
Proof.
  apply (no_error_no_batch Samples.calm
           [Samples.info_record; Samples.info_record] None).
  repeat constructor; vm_compute; discriminate.
Defined.

(** C9. When the insert of a run succeeded, analyze_and_save_batch
    returns the identifier the insert produced, whatever became of the
    webhook: the run is backend calls, then the insert, then at most
    one webhook attempt, delivered or not, and never an exception. *)
Theorem webhook_failure_keeps_batch_id (w : world) (logs : list ElkLog)
  (custom_prompt : option string) (doc : batch_doc) (batch_id : string) :
  In (InsertOne doc (Some batch_id)) (effects w logs custom_prompt) ->
  returned w logs custom_prompt = Py.Ok (Some batch_id) /\
  exists chats attempt,
    effects w logs custom_prompt
    = chats ++ InsertOne doc (Some batch_id) :: attempt /\
    forallb Trace.is_chat chats = true /\
    (attempt = [] \/
     exists payload delivered, attempt = [HttpPost payload delivered]).
Proof.
  intros Hin.
  destruct (run_outcome w logs custom_prompt)
    as [chats Hchat _|chats doc' Hans _|chats doc' id' attempt Hans _ Hatt];
    simpl in *.
  - elim (chats_hold_no_insert _ _ _ Hchat Hin).
  - apply in_app_or in Hin. destruct Hin as [Hin|[Hin|[]]].
    + elim (chats_hold_no_insert _ _ _ (answered_chats_are_chats _ Hans) Hin).
    + discriminate Hin.
  - apply in_app_or in Hin. destruct Hin as [Hin|[Hin|Hin]].
    + elim (chats_hold_no_insert _ _ _ (answered_chats_are_chats _ Hans) Hin).
    + injection Hin as -> ->. split; [reflexivity|].
      exists chats, attempt. split; [reflexivity|].
      split; [apply answered_chats_are_chats; exact Hans|].
      destruct Hatt as [->|(_ & payload & delivered & ->)]; eauto.
    + destruct Hatt as [->|(_ & payload & delivered & ->)];
        [destruct Hin|destruct Hin as [Hin|[]]; discriminate Hin].
Qed.

Lemma webhook_failure_keeps_batch_id_witness :
  existsb (fun e => match e with HttpPost _ false => true | _ => false end)
    (effects Samples.webhook_down [Samples.error_record] None) = true /\
  returned Samples.webhook_down [Samples.error_record] None
  = Py.Ok (Some "batch-1").
Proof.
  split; [vm_compute; reflexivity|].
  refine (proj1 (webhook_failure_keeps_batch_id Samples.webhook_down
                   [Samples.error_record] None SampleDocs.log_path_doc
                   "batch-1" _)).
  vm_compute. right. left. reflexivity.
Defined.

(** C10, the claim as stated fails. The empty text is a custom prompt
    that is not None, and with it the record goes through analyze_log:
    the inserted analysis has the fields of analyze_log and elk_id, and
    the webhook is posted. *)
Lemma empty_custom_prompt_is_ignored :
  map Py.keys
    (Trace.inserted_analyses
       (effects Samples.calm [Samples.error_record] (Some "")))
  = [ [ "timestamp"; "error_type"; "error_message"; "file_location";
        "problematic_code"; "suggested_fix"; "status_code"; "severity";
        "impact"; "root_cause"; "immediate_actions"; "resolution_steps";
        "needs_immediate_attention"; "elk_id" ] ] /\
  existsb Trace.is_post
    (effects Samples.calm [Samples.error_record] (Some "")) = true.
Proof.
  split; vm_compute; reflexivity.
Qed.

(** C10, amended. With a custom prompt that is not empty, every
    analysis of the document handed to the store has exactly the keys
    analysis, recommendations, code_suggestions, next_steps and elk_id;
    the document is not empty; no webhook payload can be built from its
    analyses, the first lacking "severity"; and no webhook is posted. *)
Theorem custom_prompt_batch_lacks_analysis_fields (w : world)
  (logs : list ElkLog) (prompt : string) (doc : batch_doc)
  (inserted_id : option string) :
  Py.is_empty prompt = false ->
  In (InsertOne doc inserted_id) (effects w logs (Some prompt)) ->
  doc_analyses doc <> [] /\
  Forall (fun a => Py.keys a = Schema.custom_keys) (doc_analyses doc) /\
  (forall stamp total batch_id elk_ids,
     LogService.webhook_payload
       {| LogService.timestamp := stamp;
          LogService.total_errors := total;
          LogService.analyses := doc_analyses doc |} batch_id elk_ids
     = Py.Raise (Py.KeyError "severity")) /\
  existsb Trace.is_post (effects w logs (Some prompt)) = false.
Proof.
  intros Hprompt Hin.
  assert (Hgiven : LogService.given (Some prompt) <> None)
    by (simpl; rewrite Hprompt; discriminate).
  assert (Hdoc : forall doc', saved_doc (Some prompt) doc' ->
    doc_analyses doc' <> [] /\
    Forall (fun a => Py.keys a = Schema.custom_keys) (doc_analyses doc') /\
    (forall stamp total batch_id elk_ids,
       LogService.webhook_payload
         {| LogService.timestamp := stamp;
            LogService.total_errors := total;
            LogService.analyses := doc_analyses doc' |} batch_id elk_ids
       = Py.Raise (Py.KeyError "severity"))).
  { intros doc' [Hne Hkeys]. specialize (Hkeys Hgiven).
    split; [exact Hne|]. split; [exact Hkeys|].
    intros. apply custom_batch_has_no_summary; assumption. }
  destruct (run_outcome w logs (Some prompt))
    as [chats Hchat _|chats doc' Hans Hsaved
       |chats doc' id' attempt Hans Hsaved Hatt];
    simpl in Hin |- *.
  - elim (chats_hold_no_insert _ _ _ Hchat Hin).
  - apply in_app_or in Hin. destruct Hin as [Hin|[Hin|[]]].
    + elim (chats_hold_no_insert _ _ _ (answered_chats_are_chats _ Hans) Hin).
    + injection Hin as <- _.
      destruct (Hdoc _ Hsaved) as (? & ? & ?).
      repeat (split; [assumption|]).
      rewrite existsb_app, chats_hold_no_post
        by (apply answered_chats_are_chats; exact Hans).
      reflexivity.
  - destruct Hatt as [->|(Hnone & _)]; [|elim (Hgiven Hnone)].
    apply in_app_or in Hin. destruct Hin as [Hin|[Hin|[]]].
    + elim (chats_hold_no_insert _ _ _ (answered_chats_are_chats _ Hans) Hin).
    + injection Hin as <- _.
      destruct (Hdoc _ Hsaved) as (? & ? & ?).
      repeat (split; [assumption|]).
      rewrite existsb_app, chats_hold_no_post
        by (apply answered_chats_are_chats; exact Hans).
      reflexivity.
Qed.

Lemma custom_prompt_batch_lacks_analysis_fields_witness :
  doc_analyses SampleDocs.custom_path_doc <> [] /\
  Forall (fun a => Py.keys a = Schema.custom_keys)
    (doc_analyses SampleDocs.custom_path_doc) /\
  (forall stamp total batch_id elk_ids,
     LogService.webhook_payload
       {| LogService.timestamp := stamp;
          LogService.total_errors := total;
          LogService.analyses := doc_analyses SampleDocs.custom_path_doc |}
       batch_id elk_ids
     = Py.Raise (Py.KeyError "severity")) /\
  existsb Trace.is_post
    (effects Samples.calm [Samples.error_record] (Some "why")) = false.
Proof.
  apply (custom_prompt_batch_lacks_analysis_fields Samples.calm
           [Samples.error_record] "why" SampleDocs.custom_path_doc
           (Some "batch-1")).
  - reflexivity.
  - vm_compute. right. left. reflexivity.
Defined.

(** ** More about the parsing loop of [analyze_log] *)

Ltac finish_branch S :=
  intros [= <-]; subst;
  cbn [Fields.info_of Fields.store Fields.key Fields.label Fields.in_section
       Fields.convert Fields.text
       AIService.current_section AIService.error_info AIService.code_info
       AIService.enter AIService.set_error_info AIService.set_code_info];
  rewrite ?S; try rewrite lookup_setitem; split; reflexivity.

Ltac text_branch C :=
  let S := fresh "S" in
  let rest := fresh "rest" in
  let L := fresh "L" in
  let E := fresh "E" in
  apply andb_prop in C; destruct C as [C S];
  match type of C with
  | Py.startswith ?pre _ = true =>
      destruct (field_startswith pre _ _ eq_refl C) as (rest & L & E)
  end;
  rewrite E; cbn [Py.bind]; apply String.eqb_eq in S;
  finish_branch S.

Ltac status_branch C :=
  let S := fresh "S" in
  apply andb_prop in C; destruct C as [C S];
  known_line C; apply String.eqb_eq in S;
  finish_branch S.

Ltac plain_branch :=
  intros [= <-];
  cbn [Fields.info_of Fields.store
       AIService.current_section AIService.error_info AIService.code_info
       AIService.enter AIService.add_immediate_action
       AIService.add_resolution_step];
  split; reflexivity.

(** What one line does to the section tag and to one field. *)
Lemma parse_line_field (f : Fields.labelled)
  (st st' : AIService.parse_state) (raw : string) :
  In f Fields.table ->
  AIService.parse_line st raw = Py.Ok st' ->
  match SpecParser.header_of (Py.strip raw) with
  | Some section =>
      AIService.current_section st' = section /\
      Py.lookup (Fields.key f) (Fields.info_of f st') =
      Py.lookup (Fields.key f) (Fields.info_of f st)
  | None =>
      AIService.current_section st' = AIService.current_section st /\
      Py.lookup (Fields.key f) (Fields.info_of f st') =
      if Py.startswith (Fields.label f) (Py.strip raw) &&
         (AIService.current_section st =? Fields.in_section f)
      then Some (Fields.convert f (SpecParser.value_of (Py.strip raw)))
      else Py.lookup (Fields.key f) (Fields.info_of f st)
  end.
Proof.
  intros Hin.
  unfold AIService.parse_line, SpecParser.header_of. cbv zeta.
  generalize (Py.strip raw). intros line.
  unfold Fields.table in Hin. simpl in Hin.
  decompose [or] Hin; clear Hin; try contradiction; subst f;
    cbn [Fields.label Fields.in_section Fields.text];
    (next_test;
     [intros [= <-]; destruct line; [|discriminate]; split; reflexivity|]);
    (next_test; [plain_branch|]);
    (next_test; [plain_branch|]);
    (next_test; [plain_branch|]);
    (next_test; [plain_branch|]);
    (next_test; [text_branch C4|]);
    (next_test; [status_branch C5|]);
    (next_test; [text_branch C6|]);
    (next_test; [text_branch C7|]);
    (next_test; [text_branch C8|]);
    (next_test; [text_branch C9|]);
    (next_test; [text_branch C10|]);
    (next_test; [text_branch C11|]);
    (next_test; [text_branch C12|]);
    (next_test; [|plain_branch]);
    (next_test; [plain_branch|]);
    (next_test; plain_branch).
Qed.

Lemma parse_lines_field (f : Fields.labelled) (default : Py.pyval)
  (lines : list string) (st st' : AIService.parse_state) :
  In f Fields.table ->
  AIService.parse_lines st lines = Py.Ok st' ->
  Py.get (Fields.key f) default (Fields.info_of f st') =
  match SpecParser.last_value
          (Fields.values f (AIService.current_section st) lines) with
  | Some v => Fields.convert f v
  | None => Py.get (Fields.key f) default (Fields.info_of f st)
  end.
Proof.
  intros Hin. revert st.
  induction lines as [|raw lines IH]; intros st; simpl.
  - intros [= <-]. reflexivity.
  - destruct (AIService.parse_line st raw) as [st1|e] eqn:E1; simpl;
      [|discriminate].
    intros H. rewrite (IH _ H). clear IH H.
    generalize (parse_line_field f _ _ _ Hin E1).
    destruct (SpecParser.header_of (Py.strip raw)) as [section|].
    + intros [-> Hkey]. unfold Py.get. rewrite Hkey. reflexivity.
    + intros [-> Hkey].
      destruct (Py.startswith (Fields.label f) (Py.strip raw) &&
                (AIService.current_section st =? Fields.in_section f)).
      * rewrite last_value_cons. unfold Py.get. rewrite Hkey.
        destruct (SpecParser.last_value _); reflexivity.
      * unfold Py.get. rewrite Hkey. reflexivity.
Qed.

Lemma analysis_dict_field (f : Fields.labelled) (log : ElkLog)
  (timestamp : string) (st : AIService.parse_state) (head : Py.pyval)
  (d : Py.dict) :
  In f Fields.table ->
  AIService.message_head log = Py.Ok head ->
  AIService.analysis_dict log timestamp st = Py.Ok d ->
  Py.lookup (Fields.key f) d
  = Some (Py.get (Fields.key f) (Fields.fallback f head)
            (Fields.info_of f st)).
Proof.
  unfold Fields.table, AIService.analysis_dict. simpl.
  intros Hin ->. cbn [Py.bind]. intros [= <-].
  decompose [or] Hin; clear Hin; try contradiction; subst f; reflexivity.
Qed.

(** The parsing step on a record whose message can be sliced. *)
Lemma parse_response_sliced (log : ElkLog) (analysis timestamp : string)
  (head : Py.pyval) :
  AIService.message_head log = Py.Ok head ->
  exists st d,
    AIService.parse_lines AIService.initial
      (Py.split AIService.newline analysis) = Py.Ok st /\
    AIService.analysis_dict log timestamp st = Py.Ok d /\
    AIService.parse_response log analysis timestamp = Py.Ok d.
Proof.
  intros Hhead. unfold AIService.parse_response.
  destruct (parse_lines_inv (Py.split AIService.newline analysis)
              AIService.initial inv_initial) as (st & Hparse & Hst).
  destruct (analysis_dict_conforms log timestamp st head Hst Hhead)
    as (d & Hd & _).
  exists st, d. rewrite Hparse. cbn [Py.bind]. auto.
Qed.

(** Every labelled field of the dictionary of [analyze_log] is settled
    by the last line that begins with its label while the section tag
    is its section: the text after the colon, stripped (upper-cased
    for the severity, read as an integer or else 500 for the status
    code); without such a line the field has its fallback.  This is so
    for every record whose message can be sliced; for the others the
    parsing step raises what the slice raises. *)
Theorem labelled_field_is_last_value (f : Fields.labelled) (log : ElkLog)
  (analysis timestamp : string) :
  In f Fields.table ->
  match AIService.message_head log with
  | Py.Ok head =>
      exists d,
        AIService.parse_response log analysis timestamp = Py.Ok d /\
        Py.lookup (Fields.key f) d = Some (Fields.settled f head analysis)
  | Py.Raise e =>
      AIService.parse_response log analysis timestamp = Py.Raise e
  end.
Proof.
  intros Hin.
  destruct (AIService.message_head log) as [head|e] eqn:Hhead;
    [|exact (parse_response_raises _ _ _ _ Hhead)].
  destruct (parse_response_sliced log analysis timestamp head Hhead)
    as (st & d & Hparse & Hd & ->).
  exists d. split; [reflexivity|].
  rewrite (analysis_dict_field f _ _ _ _ _ Hin Hhead Hd).
  rewrite (parse_lines_field f _ _ _ _ Hin Hparse).
  unfold Fields.settled. cbn [AIService.current_section AIService.initial].
  destruct (SpecParser.last_value _); [reflexivity|].
  unfold Fields.table in Hin. simpl in Hin.
  decompose [or] Hin; clear Hin; try contradiction; subst f; reflexivity.
Qed.

Lemma labelled_field_is_last_value_witness :
  exists d,
    AIService.parse_response Samples.error_record
      Samples.well_formed_response "2024-01-01T00:00:00" = Py.Ok d /\
    Py.lookup "status_code" d = Some (Py.PInt 503).
Proof.
  exact (labelled_field_is_last_value
           {| Fields.label := "Status Code:"; Fields.in_section := "error";
              Fields.key := "status_code"; Fields.store := Fields.ErrorInfo;
              Fields.convert := Fields.status_code_value;
              Fields.fallback := fun _ => Py.PInt 500 |}
           Samples.error_record Samples.well_formed_response
           "2024-01-01T00:00:00" (or_intror (or_introl eq_refl))).
Defined.

(** needs_immediate_attention is true exactly when the severity the
    parser settles on is HIGH: the last [Severity:] line of the ANALYSIS
    section reads HIGH in any letter case.  This is so for every record
    whose message can be sliced; for the others the parsing step
    raises what the slice raises. *)
Theorem urgent_iff_severity_high (log : ElkLog)
  (analysis timestamp : string) :
  match AIService.message_head log with
  | Py.Ok _ =>
      exists d,
        AIService.parse_response log analysis timestamp = Py.Ok d /\
        Py.lookup "needs_immediate_attention" d
        = Some (Py.PBool (SpecParser.severity analysis =? "HIGH"))
  | Py.Raise e =>
      AIService.parse_response log analysis timestamp = Py.Raise e
  end.
Proof.
  destruct (AIService.message_head log) as [head|e] eqn:Hhead;
    [|exact (parse_response_raises _ _ _ _ Hhead)].
  destruct (parse_response_sliced log analysis timestamp head Hhead)
    as (st & d & Hparse & Hd & ->).
  exists d. split; [reflexivity|].
  revert Hd. unfold AIService.analysis_dict. rewrite Hhead.
  cbn [Py.bind]. intros [= <-].
  cbn [Py.lookup String.eqb Ascii.eqb Bool.eqb].
  rewrite (parse_lines_severity (Py.PStr "MEDIUM") _ _ _ Hparse).
  unfold SpecParser.severity. cbn [AIService.current_section AIService.initial].
  destruct (SpecParser.last_value _); reflexivity.
Qed.

Lemma parse_line_headerless (raw : string) :
  SpecParser.header_of (Py.strip raw) = None ->
  AIService.parse_line AIService.initial raw = Py.Ok AIService.initial.
Proof.
  unfold AIService.parse_line, SpecParser.header_of. cbv zeta.
  generalize (Py.strip raw). intros line.
  cbn [AIService.current_section AIService.initial String.eqb].
  rewrite !andb_false_r.
  destruct (Py.is_empty line); [reflexivity|].
  destruct (Py.startswith "ERROR DETECTION" line); [discriminate|].
  destruct (Py.startswith "CODE ANALYSIS" line); [discriminate|].
  destruct (Py.startswith "ANALYSIS" line); [discriminate|].
  destruct (Py.startswith "RESOLUTION" line); [discriminate|].
  intros _. destruct (Py.startswith "-" line); reflexivity.
Qed.

(** A reply without any of the four headers is ignored as a whole:
    whatever labelled lines and bullets it holds, the returned
    dictionary is the one of the fallbacks. *)
Theorem headerless_reply_gives_fallbacks (log : ElkLog)
  (analysis timestamp : string) :
  Fields.headerless analysis = true ->
  AIService.parse_response log analysis timestamp
  = AIService.analysis_dict log timestamp AIService.initial.
Proof.
  unfold Fields.headerless, AIService.parse_response.
  generalize (Py.split AIService.newline analysis). intros lines Hlines.
  assert (H : AIService.parse_lines AIService.initial lines
              = Py.Ok AIService.initial).
  { induction lines as [|raw lines IH];
      cbn [AIService.parse_lines]; [reflexivity|].
    cbn [forallb] in Hlines. apply andb_prop in Hlines.
    destruct Hlines as [Hraw H].
    rewrite parse_line_headerless.
    - cbn [Py.bind]. exact (IH H).
    - destruct (SpecParser.header_of (Py.strip raw)); [discriminate|].
      reflexivity. }
  rewrite H. reflexivity.
Qed.

Lemma headerless_reply_gives_fallbacks_witness :
  AIService.parse_response Samples.error_record
    (Samples.join_lines ["Type: Timeout"; "Severity: HIGH"; "- Restart"])
    "2024-01-01T00:00:00"
  = AIService.analysis_dict Samples.error_record
      "2024-01-01T00:00:00" AIService.initial.
Proof.
  apply (headerless_reply_gives_fallbacks Samples.error_record
           (Samples.join_lines ["Type: Timeout"; "Severity: HIGH";
                                "- Restart"])
           "2024-01-01T00:00:00").
  vm_compute. reflexivity.
Defined.

Lemma slice_to_length (n : nat) (s : string) :
  String.length (Py.slice_to n s) = Nat.min n (String.length s).
Proof.
  revert s. induction n as [|n IH]; intros [|c s]; simpl; auto.
Qed.

Lemma slice_to_startswith (n : nat) (s : string) :
  Py.startswith (Py.slice_to n s) s = true.
Proof.
  unfold Py.startswith. revert s.
  induction n as [|n IH]; intros [|c s]; simpl; auto.
  destruct (ascii_dec c c); [apply IH|congruence].
Qed.

(** Without a [Description:] line in the ERROR DETECTION section the
    error_message is a prefix of the message of the record, of length
    min(150, len(message)): the whole message when it has at most 150
    characters, its first 150 otherwise. *)
Theorem error_message_fallback_is_bounded_prefix (log : ElkLog)
  (text analysis timestamp : string) :
  message (source log) = Some (Py.PStr text) ->
  Fields.values
    {| Fields.label := "Description:"; Fields.in_section := "error";
       Fields.key := "error_message"; Fields.store := Fields.ErrorInfo;
       Fields.convert := Py.PStr;
       Fields.fallback := fun head => head |}
    "" (Py.split AIService.newline analysis) = [] ->
  exists d m,
    AIService.parse_response log analysis timestamp = Py.Ok d /\
    Py.lookup "error_message" d = Some (Py.PStr m) /\
    Py.startswith m text = true /\
    String.length m = Nat.min 150 (String.length text).
Proof.
  intros Htext Hnone.
  pose proof (message_head_text log text Htext) as Hhead.
  destruct (parse_response_sliced log analysis timestamp _ Hhead)
    as (st & d & Hparse & Hd & ->).
  exists d, (Py.slice_to 150 text).
  split; [reflexivity|].
  split; [|split; [apply slice_to_startswith|apply slice_to_length]].
  match type of Hnone with
  | Fields.values ?f _ _ = _ =>
      assert (Hin : In f Fields.table) by (simpl; auto);
      generalize (analysis_dict_field f log timestamp st _ d Hin Hhead Hd);
      rewrite (parse_lines_field f (Fields.fallback f
                                      (Py.PStr (Py.slice_to 150 text)))
                 _ _ _ Hin Hparse)
  end.
  cbn [AIService.current_section AIService.initial].
  rewrite Hnone.
  cbn [SpecParser.last_value rev Fields.key Fields.fallback Fields.info_of
       Fields.store AIService.error_info Py.get Py.lookup].
  trivial.
Qed.

Lemma error_message_fallback_is_bounded_prefix_witness :
  exists d m,
    AIService.parse_response Samples.long_message_record "" "t" = Py.Ok d /\
    Py.lookup "error_message" d = Some (Py.PStr m) /\
    Py.startswith m (Samples.repeat_char "a" 151) = true /\
    String.length m = Nat.min 150 (String.length (Samples.repeat_char "a" 151)).
Proof.
  apply (error_message_fallback_is_bounded_prefix Samples.long_message_record
           (Samples.repeat_char "a" 151) "" "t").
  - reflexivity.
  - reflexivity.
Defined.

(** ** More about [_parse_custom_analysis] *)

Lemma parse_custom_line_typed (st : string * Py.dict) (raw : string) :
  custom_typed (snd st) ->
  exists st', AIService.parse_custom_line st raw = Py.Ok st' /\
              custom_typed (snd st').
Proof.
  destruct st as [section result]. simpl. intros Hres.
  unfold AIService.parse_custom_line. cbv zeta.
  generalize (Py.strip raw). intros line.
  next_test; [eauto|].
  next_test; [eauto|]. next_test; [eauto|].
  next_test; [eauto|]. next_test; [eauto|].
  destruct Hres as (a & r & c & n & ->).
  next_test.
  - next_test; [|eexists; split; [reflexivity|]; simpl; red; eauto 8].
    simpl in C5.
    repeat (apply orb_prop in C5; destruct C5 as [C5|C5]);
      try discriminate C5; apply String.eqb_eq in C5; subst section;
      (eexists; split; [reflexivity|]); simpl; red.
    + exists a, (r ++ [Py.strip (Py.tail line)]), c, n.
      unfold AIService.str_list. rewrite map_app. reflexivity.
    + exists a, r, (c ++ [Py.strip (Py.tail line)]), n.
      unfold AIService.str_list. rewrite map_app. reflexivity.
    + exists a, r, c, (n ++ [Py.strip (Py.tail line)]).
      unfold AIService.str_list. rewrite map_app. reflexivity.
  - next_test; [|eexists; split; [reflexivity|]; simpl; red; eauto 8].
    apply String.eqb_eq in C5. subst section.
    eexists; split; [reflexivity|]; simpl; red; eauto 8.
Qed.

Lemma parse_custom_lines_typed (lines : list string) (st : string * Py.dict) :
  custom_typed (snd st) ->
  exists st', AIService.parse_custom_lines st lines = Py.Ok st' /\
              custom_typed (snd st').
Proof.
  revert st. induction lines as [|raw lines IH]; intros st Hst; simpl.
  - eauto.
  - destruct (parse_custom_line_typed st raw Hst) as (st1 & -> & H1). simpl.
    apply IH. exact H1.
Qed.

(** [_parse_custom_analysis] never raises: for every text it returns
    exactly the keys analysis, recommendations, code_suggestions and
    next_steps, the first a text and the others lists of text. *)
Theorem _parse_custom_analysis_typed (analysis : string) :
  exists (a : string) (r c n : list string),
    AIService._parse_custom_analysis analysis
    = Py.Ok [ ("analysis", Py.PStr a);
              ("recommendations", AIService.str_list r);
              ("code_suggestions", AIService.str_list c);
              ("next_steps", AIService.str_list n) ].
Proof.
  unfold AIService._parse_custom_analysis. cbv zeta.
  match goal with
  | |- context [AIService.parse_custom_lines ?st ?lines] =>
      destruct (parse_custom_lines_typed lines st) as (st' & -> & H)
  end.
  - simpl. exists "", [], [], []. reflexivity.
  - simpl. destruct H as (a & r & c & n & ->). eauto.
Qed.

Lemma parse_custom_line_headingless (raw : string) :
  (let line := Py.strip raw in
   negb (Py.contains "Analysis" line
         || Py.contains "Recommendations" line
         || Py.contains "Code Suggestions" line
         || Py.contains "Next Steps" line)) = true ->
  AIService.parse_custom_line ("", custom_empty) raw
  = Py.Ok ("", custom_empty).
Proof.
  cbv zeta. unfold AIService.parse_custom_line. cbv zeta.
  generalize (Py.strip raw). intros line H.
  apply negb_true_iff in H.
  apply orb_false_elim in H. destruct H as [H H4].
  apply orb_false_elim in H. destruct H as [H H3].
  apply orb_false_elim in H. destruct H as [H1 H2].
  rewrite H1, H2, H3, H4.
  destruct (Py.is_empty line); [reflexivity|].
  destruct (Py.startswith "-" line); reflexivity.
Qed.

(** A reply that holds none of the words Analysis, Recommendations,
    Code Suggestions, Next Steps is dropped as a whole: its prose and
    its bullets are lost and the result is the empty one. *)
Theorem headingless_custom_reply_is_dropped (analysis : string) :
  headingless analysis = true ->
  AIService._parse_custom_analysis analysis = Py.Ok custom_empty.
Proof.
  unfold headingless, AIService._parse_custom_analysis. cbv zeta.
  generalize (Py.split AIService.newline analysis). intros lines Hlines.
  assert (H : AIService.parse_custom_lines ("", custom_empty) lines
              = Py.Ok ("", custom_empty)).
  { induction lines as [|raw lines IH];
      cbn [AIService.parse_custom_lines]; [reflexivity|].
    cbn [forallb] in Hlines. apply andb_prop in Hlines.
    destruct Hlines as [Hraw H].
    rewrite (parse_custom_line_headingless raw Hraw). cbn [Py.bind].
    exact (IH H). }
  change (Py.bind (AIService.parse_custom_lines ("", custom_empty) lines)
            (fun st => Py.Ok (snd st)) = Py.Ok custom_empty).
  rewrite H. reflexivity.
Qed.

Lemma headingless_custom_reply_is_dropped_witness :
  AIService._parse_custom_analysis
    (Samples.join_lines ["The pool is exhausted."; "- raise the limit"])
  = Py.Ok custom_empty.
Proof.
  apply (headingless_custom_reply_is_dropped
           (Samples.join_lines ["The pool is exhausted.";
                                "- raise the limit"])).
  vm_compute. reflexivity.
Defined.

(** ** [_parse_analysis] and [_extract_priority] *)

Lemma contains_colon_split (s : string) :
  Py.contains ":" s = true -> exists v, Py.split1_snd ":" s = Some v.
Proof.
  induction s as [|c s IH]; [discriminate|].
  cbn [Py.contains Py.split1_snd]. intros H.
  destruct (Ascii.eqb c ":") eqn:Ec; [eauto|].
  apply IH. apply orb_prop in H. destruct H as [H|H]; [|exact H].
  unfold Py.startswith in H. cbn [String.prefix] in H.
  destruct (ascii_dec ":" c) as [<-|Hc]; [|discriminate H].
  discriminate Ec.
Qed.

Lemma parse_analysis_line_inv (st : AIService.ParseAnalysis.state)
  (raw : string) :
  In (AIService.ParseAnalysis.severity st) three_severities ->
  exists st',
    AIService.ParseAnalysis.parse_line st raw = Py.Ok st' /\
    In (AIService.ParseAnalysis.severity st') three_severities.
Proof.
  intros Hst. unfold AIService.ParseAnalysis.parse_line. cbv zeta.
  generalize (Py.strip raw). intros line.
  next_test; [eauto|].
  next_test.
  - next_test; [eexists; split; [reflexivity|]; simpl; auto|].
    next_test; [eexists; split; [reflexivity|]; simpl; auto|].
    eauto.
  - next_test.
    + next_test; [|eauto].
      destruct (contains_colon_split _ C2) as [v Hv].
      unfold AIService.field. rewrite Hv. simpl. eauto.
    + next_test; [|eauto].
      next_test; [eauto|]. next_test; eauto.
Qed.

Lemma parse_analysis_lines_inv (lines : list string)
  (st : AIService.ParseAnalysis.state) :
  In (AIService.ParseAnalysis.severity st) three_severities ->
  exists st',
    AIService.ParseAnalysis.parse_lines st lines = Py.Ok st' /\
    In (AIService.ParseAnalysis.severity st') three_severities.
Proof.
  revert st. induction lines as [|raw lines IH]; intros st Hst; simpl.
  - eauto.
  - destruct (parse_analysis_line_inv st raw Hst) as (st1 & -> & H1). simpl.
    apply IH. exact H1.
Qed.

(** [_parse_analysis] never raises, and the severity it returns is
    always one of HIGH, MEDIUM, LOW, whatever the text says. *)
Theorem _parse_analysis_severity_is_known (analysis : string) :
  exists (severity impact : string) (actions steps : list string),
    AIService._parse_analysis analysis
    = Py.Ok [ ("severity", Py.PStr severity);
              ("impact", Py.PStr impact);
              ("immediate_actions", AIService.str_list actions);
              ("resolution_steps", AIService.str_list steps) ] /\
    In severity three_severities.
Proof.
  unfold AIService._parse_analysis.
  destruct (parse_analysis_lines_inv (Py.split AIService.newline analysis)
              AIService.ParseAnalysis.initial) as (st & -> & Hst).
  - simpl. auto.
  - simpl. eauto 8.
Qed.

Lemma upper_char_lower_char (c : ascii) :
  Py.upper_char (Py.lower_char c) = Py.upper_char c.
Proof.
  destruct c as [[] [] [] [] [] [] [] []]; reflexivity.
Qed.

Lemma upper_lower (s : string) : Py.upper (Py.lower s) = Py.upper s.
Proof.
  induction s as [|c s IH]; simpl; [reflexivity|].
  rewrite upper_char_lower_char, IH. reflexivity.
Qed.

(** [_extract_priority] returns one of CRITICAL, HIGH, MEDIUM, LOW, and
    the letter case of the text does not matter to it. *)
Theorem _extract_priority_ignores_case (analysis : string) :
  In (AIService._extract_priority analysis)
    ["CRITICAL"; "HIGH"; "MEDIUM"; "LOW"] /\
  AIService._extract_priority (Py.lower analysis)
  = AIService._extract_priority analysis.
Proof.
  unfold AIService._extract_priority, AIService.first_level_in.
  rewrite upper_lower. split; [|reflexivity].
  repeat match goal with
         | |- context [if ?c then _ else _] => destruct c
         end; simpl; auto.
Qed.

(** ** More about [analyze_log] and the loop of
       [analyze_and_save_batch] *)

Lemma parse_response_ok (log : ElkLog) (analysis timestamp : string)
  (head : Py.pyval) :
  AIService.message_head log = Py.Ok head ->
  exists d,
    AIService.parse_response log analysis timestamp = Py.Ok d /\
    Schema.conforms Schema.sliced_fields d = true /\
    (Schema.is_str head = true ->
     Schema.conforms Schema.analysis_fields d = true) /\
    Run.coherent d.
Proof.
  intros Hhead. unfold AIService.parse_response.
  destruct (parse_lines_inv (Py.split AIService.newline analysis)
              AIService.initial inv_initial) as (st & -> & Hst).
  cbn [Py.bind].
  destruct (analysis_dict_conforms log timestamp st head Hst Hhead)
    as (d & Hd & Hloose & Hstrict).
  exists d. split; [exact Hd|]. split; [exact Hloose|].
  split; [exact Hstrict|].
  revert Hd. unfold AIService.analysis_dict. rewrite Hhead.
  cbn [Py.bind]. intros [= <-]. reflexivity.
Qed.

Lemma parse_response_cases (log : ElkLog) (analysis timestamp : string) :
  (exists e, AIService.parse_response log analysis timestamp = Py.Raise e) \/
  exists d,
    AIService.parse_response log analysis timestamp = Py.Ok d /\
    Schema.conforms Schema.sliced_fields d = true /\
    Run.coherent d.
Proof.
  destruct (AIService.message_head log) as [head|e] eqn:Hhead.
  - right.
    destruct (parse_response_ok log analysis timestamp head Hhead)
      as (d & Hd & Hloose & _ & Hc).
    eauto.
  - left. exists e. exact (parse_response_raises _ _ _ _ Hhead).
Qed.

Lemma analyze_log_run (w : world) (log : ElkLog) (tr : trace) :
  AIService.analyze_log w log tr
  = match AIService.prompt_event log with
    | Py.Raise e => (Py.Raise e, tr)
    | Py.Ok event_data =>
        match chat_completion w tr (LogPrompt log event_data) with
        | None =>
            (Py.Raise Py.APIError,
             tr ++ [ChatCompletion (LogPrompt log event_data) None])
        | Some text =>
            (AIService.parse_response log text
               (utcnow w
                  (tr ++ [ChatCompletion (LogPrompt log event_data)
                            (Some text)])),
             tr ++ [ChatCompletion (LogPrompt log event_data) (Some text)])
        end
    end.
Proof.
  unfold AIService.analyze_log, io_bind at 1, io_lift at 1.
  destruct (AIService.prompt_event log) as [event_data|e]; [|reflexivity].
  unfold io_bind at 1, create_completion. cbv zeta.
  destruct (chat_completion w tr (LogPrompt log event_data)) as [text|];
    [|reflexivity].
  unfold AIService.parse_response, io_bind, io_lift, now.
  destruct (AIService.parse_lines AIService.initial
              (Py.split AIService.newline text)) as [st|e]; reflexivity.
Qed.

(** [analyze_log], in full: when the original event cannot be used for
    the prompt it raises before any call; otherwise it asks the
    backend once, about its record; when that call raises it raises,
    and when the call is answered its result is what the parsing step
    makes of the answer, stamped with the clock read after the call. *)
Theorem analyze_log_is_parse_of_reply (w : world) (log : ElkLog)
  (tr : trace) :
  match AIService.prompt_event log with
  | Py.Raise e =>
      AIService.analyze_log w log tr = (Py.Raise e, tr)
  | Py.Ok event_data =>
      let call := fun answer =>
        tr ++ [ChatCompletion (LogPrompt log event_data) answer] in
      match chat_completion w tr (LogPrompt log event_data) with
      | None =>
          AIService.analyze_log w log tr
          = (Py.Raise Py.APIError, call None)
      | Some text =>
          AIService.analyze_log w log tr
          = (AIService.parse_response log text
               (utcnow w (call (Some text))),
             call (Some text))
      end
  end.
Proof.
  rewrite analyze_log_run.
  destruct (AIService.prompt_event log) as [event_data|e]; [|reflexivity].
  cbv zeta.
  destruct (chat_completion w tr (LogPrompt log event_data));
    reflexivity.
Qed.

Lemma analyze_log_spec (w : world) (log : ElkLog) (tr tr' : trace)
  (r : Py.result Py.dict) :
  AIService.analyze_log w log tr = (r, tr') ->
  (tr' = tr /\ exists e, r = Py.Raise e) \/
  exists event_data,
    (tr' = tr ++ [ChatCompletion (LogPrompt log event_data) None] /\
     r = Py.Raise Py.APIError) \/
    exists text,
      tr' = tr ++ [ChatCompletion (LogPrompt log event_data) (Some text)] /\
      r = AIService.parse_response log text (utcnow w tr').
Proof.
  rewrite analyze_log_run.
  destruct (AIService.prompt_event log) as [event_data|e];
    [|intros [= <- <-]; left; eauto].
  destruct (chat_completion w tr (LogPrompt log event_data)) as [text|];
    intros [= <- <-]; right; exists event_data.
  - right. exists text. split; reflexivity.
  - left. split; reflexivity.
Qed.

Lemma analyze_custom_prompt_spec (w : world) (prompt : string)
  (log : ElkLog) (tr tr' : trace) (r : Py.result Py.dict) :
  AIService.analyze_custom_prompt w prompt log tr = (r, tr') ->
  exists c,
    tr' = tr ++ [ChatCompletion (CustomPrompt prompt log) c] /\
    match c with
    | None => r = Py.Raise Py.APIError
    | Some text => r = AIService._parse_custom_analysis text
    end.
Proof.
  unfold AIService.analyze_custom_prompt, io_bind, create_completion.
  cbv zeta.
  destruct (chat_completion w tr (CustomPrompt prompt log)) as [text|].
  - unfold io_lift. intros [= <- <-]. exists (Some text).
    split; reflexivity.
  - intros [= <- <-]. exists None. split; reflexivity.
Qed.

Lemma conforms_snoc (fields : list (string * (Py.pyval -> bool)))
  (d : Py.dict) (k : string) (p : Py.pyval -> bool) (v : Py.pyval) :
  Schema.conforms fields d = true ->
  existsb (String.eqb k) (map fst fields) = false ->
  p v = true ->
  Schema.conforms (fields ++ [(k, p)]) (Py.setitem k v d) = true.
Proof.
  revert d. induction fields as [|[k0 p0] fields IH]; intros [|[k1 v1] d];
    simpl; try discriminate.
  - intros _ _ Hp. rewrite String.eqb_refl, Hp. reflexivity.
  - intros H Hk Hp.
    apply andb_prop in H. destruct H as [H Hrest].
    apply andb_prop in H. destruct H as [Hk01 Hp0].
    apply orb_false_elim in Hk. destruct Hk as [Hk0 Hk].
    apply String.eqb_eq in Hk01. subst k1. rewrite Hk0. simpl.
    rewrite String.eqb_refl, Hp0. simpl. apply IH; assumption.
Qed.

Lemma conforms_lookup (fields : list (string * (Py.pyval -> bool)))
  (d : Py.dict) (k : string) :
  Schema.conforms fields d = true ->
  In k (map fst fields) ->
  exists v, Py.lookup k d = Some v.
Proof.
  revert d. induction fields as [|[k0 p0] fields IH]; intros [|[k1 v1] d];
    simpl; try discriminate; try contradiction.
  intros H Hin.
  apply andb_prop in H. destruct H as [H Hrest].
  apply andb_prop in H. destruct H as [Hk01 _].
  apply String.eqb_eq in Hk01. subst k1.
  destruct (k =? k0) eqn:E; [eauto|].
  destruct Hin as [->|Hin]; [rewrite String.eqb_refl in E; discriminate|].
  apply IH; assumption.
Qed.

Lemma tagged_analysis (d : Py.dict) (log : ElkLog) :
  Schema.conforms Schema.sliced_fields d = true ->
  Run.coherent d ->
  Py.lookup "elk_id" (Py.setitem "elk_id" (Run.elk_tag log) d)
  = Some (Run.elk_tag log) /\
  Schema.conforms Run.tagged_fields
    (Py.setitem "elk_id" (Run.elk_tag log) d) = true /\
  Run.coherent (Py.setitem "elk_id" (Run.elk_tag log) d).
Proof.
  intros Hd Hc. split; [|split].
  - rewrite lookup_setitem. reflexivity.
  - apply conforms_snoc; [exact Hd|reflexivity|].
    unfold Run.elk_tag. destruct (elk_id log); reflexivity.
  - unfold Run.coherent, Py.get in *. rewrite !lookup_setitem. exact Hc.
Qed.

Lemma flagged_true (log : ElkLog) :
  LogService.is_error log = Py.Ok true -> Run.flagged log = true.
Proof. unfold Run.flagged. intros ->. reflexivity. Qed.

(** One turn of the loop, in full. *)
Lemma process_log_spec (w : world) (custom_prompt : option string)
  (acc : LogService.batch) (log : ElkLog) (tr tr' : trace)
  (r : Py.result LogService.batch) :
  LogService.process_log w custom_prompt acc log tr = (r, tr') ->
  (Run.flagged log = false /\ tr' = tr /\
   (r = Py.Ok acc \/ exists e, r = Py.Raise e)) \/
  (Run.flagged log = true /\
   ((tr' = tr /\ exists e, r = Py.Raise e) \/
    exists req c,
      tr' = tr ++ [ChatCompletion req c] /\ Run.request_log req = log /\
      match c with
      | None => exists e, r = Py.Raise e
      | Some _ =>
          (exists e, r = Py.Raise e) \/
          exists a,
            Run.analysis_for custom_prompt a log /\
            r = Py.Ok
                  {| LogService.batch_analyses :=
                       LogService.batch_analyses acc ++ [a];
                     LogService.error_logs :=
                       LogService.error_logs acc ++ [log];
                     LogService.elk_ids :=
                       LogService.elk_ids acc ++ Run.nonzero_elk_ids [log] |}
      end)).
Proof.
  unfold LogService.process_log.
  pure_step flagged e.
  2:{ intros [= <- <-]. left. unfold Run.flagged.
      match goal with H : LogService.is_error log = _ |- _ => rewrite H end.
      eauto. }
  destruct flagged.
  2:{ unfold io_ret. intros [= <- <-]. left. unfold Run.flagged.
      match goal with H : LogService.is_error log = _ |- _ => rewrite H end.
      auto. }
  match goal with
  | H : LogService.is_error log = _ |- _ => apply flagged_true in H
  end.
  assert (Hids : forall ids : list Z,
    match elk_id log with
    | Some i => if (i =? 0)%Z then ids else ids ++ [i]
    | None => ids
    end = ids ++ Run.nonzero_elk_ids [log]).
  { intros ids. simpl. destruct (elk_id log) as [i|];
      [destruct (i =? 0)%Z|]; rewrite ?app_nil_r; reflexivity. }
  unfold io_bind, io_ret. unfold Run.analysis_for.
  destruct (LogService.given custom_prompt) as [prompt|] eqn:G.
  - destruct (AIService.analyze_custom_prompt w prompt log tr)
      as [ra tra] eqn:Ea.
    destruct (analyze_custom_prompt_spec _ _ _ _ _ _ Ea) as (c & -> & Hc).
    destruct c as [text|].
    + destruct (_parse_custom_analysis_keys text) as (d & Hd & Hk).
      rewrite Hd in Hc. subst ra. intros [= <- <-].
      right. split; [assumption|]. right.
      eexists _, (Some text). split; [reflexivity|]. split; [reflexivity|].
      right. eexists. split; [|rewrite Hids; reflexivity].
      split; [rewrite lookup_setitem; reflexivity|].
      rewrite keys_setitem_new; [rewrite Hk; reflexivity|].
      rewrite Hk. simpl. intuition discriminate.
    + subst ra. intros [= <- <-]. right. split; [assumption|]. right.
      eexists _, None. split; [reflexivity|]. split; [reflexivity|]. eauto.
  - destruct (AIService.analyze_log w log tr) as [ra tra] eqn:Ea.
    destruct (analyze_log_spec _ _ _ _ _ Ea)
      as [(-> & e & ->)|(ev & [(-> & ->)|(text & -> & ->)])].
    + intros [= <- <-]. right. split; [assumption|]. left. eauto.
    + intros [= <- <-]. right. split; [assumption|]. right.
      eexists _, None. split; [reflexivity|]. split; [reflexivity|]. eauto.
    + destruct (parse_response_cases log text
                  (utcnow w (tr ++ [ChatCompletion (LogPrompt log ev)
                                      (Some text)])))
        as [(e & ->)|(d & -> & Hd & Hc)].
      * intros [= <- <-]. right. split; [assumption|]. right.
        eexists _, (Some text). split; [reflexivity|].
        split; [reflexivity|]. left. eauto.
      * intros [= <- <-]. right. split; [assumption|]. right.
        eexists _, (Some text). split; [reflexivity|].
        split; [reflexivity|].
        right. eexists. split; [|rewrite Hids; reflexivity].
        destruct (tagged_analysis d log Hd Hc) as (H1 & H2 & H3).
        split; [exact H1|]. split; assumption.
Qed.

Lemma nonzero_elk_ids_cons (log : ElkLog) (logs : list ElkLog) :
  Run.nonzero_elk_ids (log :: logs)
  = Run.nonzero_elk_ids [log] ++ Run.nonzero_elk_ids logs.
Proof.
  simpl. destruct (elk_id log) as [i|]; [destruct (i =? 0)%Z|]; reflexivity.
Qed.

Lemma chat_for_requested (chats : trace) (logs : list ElkLog) :
  Forall2 Run.chat_for chats logs ->
  Run.requested_logs chats = logs /\
  forallb Trace.is_answered_chat chats = true.
Proof.
  induction 1 as [|e log chats logs (req & text & -> & <-) _ [IH1 IH2]];
    simpl; [auto|].
  rewrite IH1, IH2. auto.
Qed.

(** The loop, in full. *)
Lemma process_logs_spec (w : world) (custom_prompt : option string)
  (logs : list ElkLog) (acc : LogService.batch) (tr tr' : trace)
  (r : Py.result LogService.batch) :
  LogService.process_logs w custom_prompt acc logs tr = (r, tr') ->
  exists chats,
    tr' = tr ++ chats /\
    forallb Trace.is_chat chats = true /\
    (exists rest,
       filter Run.flagged logs = Run.requested_logs chats ++ rest) /\
    forall acc', r = Py.Ok acc' ->
      Forall2 Run.chat_for chats (filter Run.flagged logs) /\
      exists new,
        LogService.batch_analyses acc'
        = LogService.batch_analyses acc ++ new /\
        Forall2 (Run.analysis_for custom_prompt) new
          (filter Run.flagged logs) /\
        LogService.error_logs acc'
        = LogService.error_logs acc ++ filter Run.flagged logs /\
        LogService.elk_ids acc'
        = LogService.elk_ids acc
          ++ Run.nonzero_elk_ids (filter Run.flagged logs).
Proof.
  revert acc tr tr' r.
  induction logs as [|log logs IH]; intros acc tr tr' r;
    cbn [LogService.process_logs filter].
  - unfold io_ret. intros [= <- <-]. exists []. rewrite app_nil_r.
    split; [reflexivity|]. split; [reflexivity|].
    split; [exists []; reflexivity|].
    intros acc' [= <-]. split; [constructor|]. exists [].
    rewrite !app_nil_r. repeat split. constructor.
  - unfold io_bind.
    destruct (LogService.process_log w custom_prompt acc log tr)
      as [r1 tr1] eqn:E1.
    destruct (process_log_spec _ _ _ _ _ _ _ E1)
      as [(Hflag & -> & Hr)|(Hflag & Hcall)]; rewrite Hflag.
    + destruct Hr as [->|(e & ->)]; [apply IH|].
      intros [= <- <-]. exists []. rewrite app_nil_r.
      split; [reflexivity|]. split; [reflexivity|].
      split; [eexists; reflexivity|]. intros acc' [=].
    + destruct Hcall as [(-> & e & ->)|(req & c & -> & Hreq & Hc)].
      * intros [= <- <-]. exists []. rewrite app_nil_r.
        split; [reflexivity|]. split; [reflexivity|].
        split; [eexists; reflexivity|]. intros acc' [=].
      * destruct c as [text|]; [destruct Hc as [(e & ->)|Hc]|].
        -- intros [= <- <-].
           exists [ChatCompletion req (Some text)].
           split; [reflexivity|]. split; [reflexivity|].
           split; [exists (filter Run.flagged logs); simpl;
                   rewrite Hreq; reflexivity|].
           intros acc' [=].
        -- destruct Hc as (a & Ha & ->). intros H.
           destruct (IH _ _ _ _ H) as (chats & -> & Hchat & (rest & Hrest) & Hok).
           exists (ChatCompletion req (Some text) :: chats).
           split; [rewrite <- app_assoc; reflexivity|].
           split; [exact Hchat|].
           split; [exists rest; simpl; rewrite Hreq, Hrest; reflexivity|].
           intros acc' Hacc'.
           destruct (Hok acc' Hacc') as (Hfor & new & Hb & Hnew & He & Hi).
           cbn [LogService.batch_analyses LogService.error_logs
                LogService.elk_ids] in Hb, He, Hi.
           split; [constructor; [red; eauto|exact Hfor]|].
           exists (a :: new).
           rewrite (nonzero_elk_ids_cons log (filter Run.flagged logs)).
           rewrite Hb, He, Hi, <- !app_assoc.
           repeat split. constructor; assumption.
        -- destruct Hc as (e & ->). intros [= <- <-].
           exists [ChatCompletion req None].
           split; [reflexivity|]. split; [reflexivity|].
           split; [exists (filter Run.flagged logs); simpl;
                   rewrite Hreq; reflexivity|].
           intros acc' [=].
Qed.

(** The run, in full. *)
Lemma analyze_and_save_batch_detailed (w : world) (logs : list ElkLog)
  (custom_prompt : option string) (tr tr' : trace)
  (r : Py.result (option string)) :
  LogService.analyze_and_save_batch w logs custom_prompt tr = (r, tr') ->
  detailed custom_prompt logs tr r tr'.
Proof.
  unfold LogService.analyze_and_save_batch, io_try.
  unfold io_bind at 1.
  destruct (LogService.process_logs w custom_prompt LogService.empty_batch
              logs tr) as [r0 tr0] eqn:E0.
  destruct (process_logs_spec _ _ _ _ _ _ _ E0)
    as (chats & -> & Hchat & (rest & Hrest) & Hok).
  destruct r0 as [acc|e];
    [|unfold io_ret; intros [= <- <-]; econstructor; eassumption].
  destruct (Hok acc eq_refl) as (Hfor & new & Hb & Hnew & He & Hi).
  clear Hok. cbn [LogService.empty_batch LogService.batch_analyses
                  LogService.error_logs LogService.elk_ids app] in Hb, He, Hi.
  destruct (LogService.error_logs acc) as [|log0 logs0] eqn:El;
    [unfold io_ret; intros [= <- <-]; econstructor; eassumption|].
  assert (Hdoc : forall stamp,
    batch_doc_of custom_prompt logs
      {| doc_timestamp := stamp; doc_logs := log0 :: logs0;
         doc_analyses := LogService.batch_analyses acc;
         doc_total_errors := length (log0 :: logs0) |}).
  { intros stamp. unfold batch_doc_of.
    cbn [doc_logs doc_total_errors doc_analyses].
    split; [exact He|]. split; [rewrite He; reflexivity|].
    split; [rewrite Hb; exact Hnew|]. rewrite <- He. discriminate. }
  unfold LogRepository.save_batch, collection_insert_one, now.
  unfold io_bind at 1. unfold io_bind at 1. cbv zeta.
  match goal with
  | |- context [insert_one w ?t ?d] =>
      destruct (insert_one w t d) as [batch_id|]
  end.
  2:{ unfold io_ret. intros [= <- <-]. rewrite <- app_assoc.
      apply NotSaved; [exact Hfor|apply Hdoc]. }
  unfold io_bind at 1. unfold io_bind at 1.
  unfold LogService.send_webhook_notification, io_try, io_bind, io_lift,
    client_post, io_ret. cbv zeta.
  rewrite Hi.
  match goal with
  | |- context [LogService.webhook_payload ?d ?b ?i] =>
      destruct (LogService.webhook_payload d b i) as [payload|e] eqn:Ep
  end.
  - match goal with
    | |- context [http_post w ?t ?p] => destruct (http_post w t p)
    end;
      intros [= <- <-]; rewrite <- !app_assoc; simpl;
      (eapply Posted; [exact Hfor|apply Hdoc|exact Ep]).
  - intros [= <- <-]. rewrite <- app_assoc. simpl.
    eapply NotPosted; [exact Hfor|apply Hdoc|exact Ep].
Qed.

Lemma run_detailed (w : world) (logs : list ElkLog)
  (custom_prompt : option string) :
  detailed custom_prompt logs [] (returned w logs custom_prompt)
    (effects w logs custom_prompt).
Proof.
  apply (analyze_and_save_batch_detailed w logs). unfold returned, effects.
  destruct (LogService.analyze_and_save_batch w logs custom_prompt []).
  reflexivity.
Qed.

(** ** The webhook payload *)

Lemma webhook_payload_inv (data : LogService.analysis_data)
  (batch_id : string) (elk_ids : list Z) (payload : Py.pyval) :
  LogService.webhook_payload data batch_id elk_ids = Py.Ok payload ->
  exists h m l c,
    LogService.count_severity "HIGH" (LogService.analyses data) = Py.Ok h /\
    LogService.count_severity "MEDIUM" (LogService.analyses data) = Py.Ok m /\
    LogService.count_severity "LOW" (LogService.analyses data) = Py.Ok l /\
    LogService.critical_files (LogService.analyses data) = Py.Ok c /\
    payload =
    Py.PDict
      [ ("data",
          Py.PDict
            [ ("timestamp", Py.PStr (LogService.timestamp data));
              ("batch_id", Py.PStr batch_id);
              ("elk_ids", Py.PList (map Py.PInt elk_ids));
              ("total_errors",
                Py.PInt (Z.of_nat (LogService.total_errors data)));
              ("analyses",
                Py.PList (map Py.PDict (LogService.analyses data)));
              ("summary",
                Py.PDict
                  [ ("high_severity", Py.PInt h);
                    ("medium_severity", Py.PInt m);
                    ("low_severity", Py.PInt l);
                    ("critical_files", Py.PList c);
                    ("error_types", Py.PDict []) ]) ]) ].
Proof.
  unfold LogService.webhook_payload.
  destruct (LogService.count_severity "HIGH" _) as [h|]; [|discriminate].
  destruct (LogService.count_severity "MEDIUM" _) as [m|]; [|discriminate].
  destruct (LogService.count_severity "LOW" _) as [l|]; [|discriminate].
  destruct (LogService.critical_files _) as [c|]; [|discriminate].
  cbn [Py.bind]. intros [= <-]. exists h, m, l, c. repeat split.
Qed.

Lemma count_severity_value (sev : string) (l : list Py.dict) (n : Z) :
  LogService.count_severity sev l = Py.Ok n ->
  n = Z.of_nat (length (filter (Run.has_severity sev) l)).
Proof.
  revert n. induction l as [|a l IH]; intros n;
    cbn [LogService.count_severity filter].
  - intros [= <-]. reflexivity.
  - unfold Py.getitem. unfold Run.has_severity at 1. unfold Py.get.
    destruct (Py.lookup "severity" a) as [s|]; [|discriminate].
    cbn [Py.bind].
    destruct (LogService.count_severity sev l) as [k|]; [|discriminate].
    cbn [Py.bind]. intros [= <-]. rewrite (IH k eq_refl).
    destruct (Py.eq_str s sev); [|reflexivity].
    cbn [length].
    match goal with
    | |- ?L = Z.of_nat (S ?k) => change (1 + Z.of_nat k = Z.of_nat (S k))%Z
    end.
    lia.
Qed.

Lemma buckets_partition (l : list Py.dict) :
  (length (filter (Run.has_severity "HIGH") l)
   + length (filter (Run.has_severity "MEDIUM") l)
   + length (filter (Run.has_severity "LOW") l)
   = length (filter Run.in_a_bucket l))%nat.
Proof.
  induction l as [|a l IH]; [reflexivity|].
  cbn [filter].
  set (v := Py.get "severity" Py.PNone a).
  change (Run.has_severity "HIGH" a) with (Py.eq_str v "HIGH").
  change (Run.has_severity "MEDIUM" a) with (Py.eq_str v "MEDIUM").
  change (Run.has_severity "LOW" a) with (Py.eq_str v "LOW").
  change (Run.in_a_bucket a)
    with (Py.eq_str v "HIGH" || Py.eq_str v "MEDIUM" || Py.eq_str v "LOW").
  destruct v as [|b|z|f|s|l0|d]; try exact IH.
  cbn [Py.eq_str].
  destruct (s =? "HIGH") eqn:E1;
    [apply String.eqb_eq in E1; subst s; cbn [String.eqb Ascii.eqb Bool.eqb
       orb length]; lia|].
  destruct (s =? "MEDIUM") eqn:E2;
    [apply String.eqb_eq in E2; subst s; cbn [String.eqb Ascii.eqb Bool.eqb
       orb length]; lia|].
  destruct (s =? "LOW") eqn:E3; cbn [orb length]; lia.
Qed.

Lemma critical_files_length (l : list Py.dict) (c : list Py.pyval) :
  LogService.critical_files l = Py.Ok c ->
  Forall Run.coherent l ->
  length c = length (filter (Run.has_severity "HIGH") l).
Proof.
  revert c. induction l as [|a l IH]; intros c;
    cbn [LogService.critical_files filter].
  - intros [= <-] _. reflexivity.
  - intros H Hall. inversion Hall as [|? ? Ha Hl]. subst.
    unfold Py.getitem in H. red in Ha. rewrite Ha in H. cbn [Py.bind] in H.
    unfold Run.has_severity at 1.
    destruct (Py.eq_str (Py.get "severity" Py.PNone a) "HIGH");
      cbn [Py.truthy] in H.
    + destruct (Py.lookup "file_location" a); [|discriminate].
      destruct (Py.lookup "error_type" a); [|discriminate].
      destruct (Py.lookup "error_message" a); [|discriminate].
      destruct (Py.lookup "elk_id" a); [|discriminate].
      cbn [Py.bind] in H.
      destruct (LogService.critical_files l) as [c'|]; [|discriminate].
      cbn [Py.bind] in H. injection H as <-. cbn [length].
      rewrite (IH c' eq_refl Hl). reflexivity.
    + exact (IH c H Hl).
Qed.

Ltac known_key H k :=
  let v := fresh "v" in
  let E := fresh "E" in
  destruct (conforms_lookup _ _ k H) as [v E];
  [cbn; tauto|unfold Py.getitem; rewrite E; cbn [Py.bind]].

Lemma count_severity_total (sev : string) (l : list Py.dict) :
  Forall (fun a => Schema.conforms Run.tagged_fields a = true) l ->
  exists n, LogService.count_severity sev l = Py.Ok n.
Proof.
  induction 1 as [|a l Ha _ [n IH]]; simpl; [eauto|].
  known_key Ha "severity". rewrite IH. cbn [Py.bind]. eauto.
Qed.

Lemma critical_files_total (l : list Py.dict) :
  Forall (fun a => Schema.conforms Run.tagged_fields a = true) l ->
  exists c, LogService.critical_files l = Py.Ok c.
Proof.
  induction 1 as [|a l Ha _ [c IH]]; simpl; [eauto|].
  known_key Ha "needs_immediate_attention".
  destruct (Py.truthy v); [|eauto].
  known_key Ha "file_location". known_key Ha "error_type".
  known_key Ha "error_message". known_key Ha "elk_id".
  rewrite IH. cbn [Py.bind]. eauto.
Qed.

Lemma webhook_payload_total (data : LogService.analysis_data)
  (batch_id : string) (elk_ids : list Z) :
  Forall (fun a => Schema.conforms Run.tagged_fields a = true)
    (LogService.analyses data) ->
  exists payload,
    LogService.webhook_payload data batch_id elk_ids = Py.Ok payload.
Proof.
  intros H. unfold LogService.webhook_payload.
  destruct (count_severity_total "HIGH" _ H) as [h ->].
  destruct (count_severity_total "MEDIUM" _ H) as [m ->].
  destruct (count_severity_total "LOW" _ H) as [l ->].
  destruct (critical_files_total _ H) as [c ->].
  cbn [Py.bind]. eauto.
Qed.

(** The three counts of the summary of a webhook payload add up to the
    number of analyses whose severity is HIGH, MEDIUM or LOW: an
    analysis is counted at most once, and one with another severity
    is counted in no bucket, so the sum can stay below the number of
    analyses. *)
Theorem summary_counts_recognized_severities
  (data : LogService.analysis_data) (batch_id : string)
  (elk_ids : list Z) (payload : Py.pyval) :
  LogService.webhook_payload data batch_id elk_ids = Py.Ok payload ->
  exists h m l,
    Run.path ["data"; "summary"; "high_severity"] payload
    = Some (Py.PInt h) /\
    Run.path ["data"; "summary"; "medium_severity"] payload
    = Some (Py.PInt m) /\
    Run.path ["data"; "summary"; "low_severity"] payload
    = Some (Py.PInt l) /\
    (h + m + l)%Z
    = Z.of_nat (length (filter Run.in_a_bucket (LogService.analyses data)))
    /\
    (h + m + l <= Z.of_nat (length (LogService.analyses data)))%Z.
Proof.
  intros H.
  destruct (webhook_payload_inv _ _ _ _ H)
    as (h & m & l & c & Hh & Hm & Hl & _ & ->).
  exists h, m, l. repeat (split; [reflexivity|]).
  rewrite (count_severity_value _ _ _ Hh), (count_severity_value _ _ _ Hm),
    (count_severity_value _ _ _ Hl).
  pose proof (buckets_partition (LogService.analyses data)) as Hsum.
  pose proof (filter_length_le Run.in_a_bucket (LogService.analyses data))
    as Hle.
  split; lia.
Qed.

Lemma summary_counts_recognized_severities_witness :
  exists payload,
    LogService.webhook_payload MoreSamples.mixed_data "batch-1" [7; 8]%Z
    = Py.Ok payload /\
    exists h m l,
      Run.path ["data"; "summary"; "high_severity"] payload
      = Some (Py.PInt h) /\
      Run.path ["data"; "summary"; "medium_severity"] payload
      = Some (Py.PInt m) /\
      Run.path ["data"; "summary"; "low_severity"] payload
      = Some (Py.PInt l) /\
      (h + m + l)%Z
      = Z.of_nat (length (filter Run.in_a_bucket
                            (LogService.analyses MoreSamples.mixed_data)))
      /\
      (h + m + l
       <= Z.of_nat (length (LogService.analyses MoreSamples.mixed_data)))%Z.
Proof.
  destruct (LogService.webhook_payload MoreSamples.mixed_data "batch-1"
              [7; 8]%Z) as [payload|e] eqn:E;
    [|vm_compute in E; discriminate E].
  exists payload. split; [reflexivity|].
  exact (summary_counts_recognized_severities MoreSamples.mixed_data
           "batch-1" [7; 8]%Z payload E).
Defined.

(** ** More about the runs of [analyze_and_save_batch] *)

Lemma chat_for_answered (chats : trace) (logs : list ElkLog) :
  Forall2 Run.chat_for chats logs ->
  forallb Trace.is_answered_chat chats = true.
Proof. intros H. exact (proj2 (chat_for_requested _ _ H)). Qed.

Lemma chat_for_is_chat (chats : trace) (logs : list ElkLog) :
  Forall2 Run.chat_for chats logs ->
  forallb Trace.is_chat chats = true.
Proof.
  intros H. apply answered_chats_are_chats.
  exact (chat_for_answered _ _ H).
Qed.

Lemma chats_filter (chats : trace) :
  forallb Trace.is_chat chats = true ->
  filter Trace.is_insert chats = [] /\ filter Trace.is_post chats = [].
Proof.
  induction chats as [|e chats IH]; simpl; [auto|].
  intros H. apply andb_prop in H. destruct H as [He H].
  destruct e; try discriminate He. simpl. auto.
Qed.

Lemma requested_logs_app (tr1 tr2 : trace) :
  Run.requested_logs (tr1 ++ tr2)
  = Run.requested_logs tr1 ++ Run.requested_logs tr2.
Proof.
  induction tr1 as [|e tr1 IH]; simpl; [reflexivity|].
  destruct e; simpl; rewrite IH; reflexivity.
Qed.

Lemma analysis_for_tags (custom_prompt : option string)
  (analyses : list Py.dict) (logs : list ElkLog) :
  Forall2 (Run.analysis_for custom_prompt) analyses logs ->
  length analyses = length logs /\
  map (Py.lookup "elk_id") analyses
  = map (fun log => Some (Run.elk_tag log)) logs.
Proof.
  induction 1 as [|a log analyses logs [Ha _] _ [IH1 IH2]]; simpl; [auto|].
  rewrite Ha, IH1, IH2. auto.
Qed.

Lemma analysis_for_log_path (custom_prompt : option string)
  (analyses : list Py.dict) (logs : list ElkLog) :
  LogService.given custom_prompt = None ->
  Forall2 (Run.analysis_for custom_prompt) analyses logs ->
  Forall (fun a => Schema.conforms Run.tagged_fields a = true) analyses /\
  Forall Run.coherent analyses.
Proof.
  intros Hgiven.
  induction 1 as [|a log analyses logs [_ Ha] _ [IH1 IH2]]; [auto|].
  rewrite Hgiven in Ha. destruct Ha. auto.
Qed.

Lemma analysis_for_custom_path (custom_prompt : option string)
  (analyses : list Py.dict) (logs : list ElkLog) :
  LogService.given custom_prompt <> None ->
  Forall2 (Run.analysis_for custom_prompt) analyses logs ->
  Forall (fun a => Py.keys a = Schema.custom_keys) analyses.
Proof.
  intros Hgiven.
  induction 1 as [|a log analyses logs [_ Ha] _ IH]; [auto|].
  destruct (LogService.given custom_prompt); [auto|congruence].
Qed.

(** A payload was built: the batch is one of [analyze_log]. *)
Lemma posted_batch_is_log_path (custom_prompt : option string)
  (logs : list ElkLog) (doc : batch_doc) (stamp batch_id : string)
  (ids : list Z) (payload : Py.pyval) :
  batch_doc_of custom_prompt logs doc ->
  LogService.webhook_payload (data_of stamp doc) batch_id ids
  = Py.Ok payload ->
  LogService.given custom_prompt = None.
Proof.
  intros (Hlogs & _ & Hfor & Hne) Hp.
  destruct (LogService.given custom_prompt) as [p|] eqn:G; [|reflexivity].
  rewrite custom_batch_has_no_summary in Hp; [discriminate Hp| |].
  - cbn [data_of LogService.analyses]. intros Hnil. rewrite Hnil in Hfor.
    inversion Hfor as [Hnil'|]. congruence.
  - cbn [data_of LogService.analyses].
    apply (analysis_for_custom_path custom_prompt (doc_analyses doc)
             (filter Run.flagged logs)); [congruence|exact Hfor].
Qed.

Ltac run_cases w logs custom_prompt :=
  destruct (run_detailed w logs custom_prompt)
    as [chats rest Hchat Hrest
       |chats doc' Hfor Hdoc
       |chats doc' id' stamp e Hfor Hdoc Hp
       |chats doc' id' stamp payload' delivered' Hfor Hdoc Hp];
  cbn [app] in *.

Ltac not_in_chats H :=
  first [ elim (chats_hold_no_insert _ _ _ ltac:(eassumption) H)
        | elim (chats_hold_no_insert _ _ _
                  (chat_for_is_chat _ _ ltac:(eassumption)) H) ].

(** When the insert raises, [analyze_and_save_batch] returns None:
    the run ends with that insert, after one answered backend call for
    each error record, and no webhook is attempted. *)
Theorem store_failure_returns_none (w : world) (logs : list ElkLog)
  (custom_prompt : option string) (doc : batch_doc) :
  In (InsertOne doc None) (effects w logs custom_prompt) ->
  returned w logs custom_prompt = Py.Ok None /\
  filter Trace.is_post (effects w logs custom_prompt) = [] /\
  exists chats,
    effects w logs custom_prompt = chats ++ [InsertOne doc None] /\
    forallb Trace.is_answered_chat chats = true.
Proof.
  intros Hin. run_cases w logs custom_prompt.
  - not_in_chats Hin.
  - apply in_app_or in Hin. destruct Hin as [Hin|[Hin|[]]];
      [not_in_chats Hin|].
    injection Hin as ->. split; [reflexivity|].
    split.
    + rewrite filter_app.
      rewrite (proj2 (chats_filter _ (chat_for_is_chat _ _ Hfor))).
      reflexivity.
    + exists chats. split; [reflexivity|].
      exact (chat_for_answered _ _ Hfor).
  - apply in_app_or in Hin. destruct Hin as [Hin|[Hin|[]]];
      [not_in_chats Hin|discriminate Hin].
  - apply in_app_or in Hin. destruct Hin as [Hin|[Hin|[Hin|[]]]];
      [not_in_chats Hin|discriminate Hin|discriminate Hin].
Qed.

Lemma store_failure_returns_none_witness :
  returned MoreSamples.store_down [Samples.error_record] None = Py.Ok None /\
  filter Trace.is_post
    (effects MoreSamples.store_down [Samples.error_record] None) = [] /\
  exists chats,
    effects MoreSamples.store_down [Samples.error_record] None
    = chats ++ [InsertOne MoreSamples.unsaved_doc None] /\
    forallb Trace.is_answered_chat chats = true.
Proof.
  apply (store_failure_returns_none MoreSamples.store_down
           [Samples.error_record] None MoreSamples.unsaved_doc).
  vm_compute. right. left. reflexivity.
Defined.

(** A run of [analyze_and_save_batch] never raises, inserts at most
    one document and posts at most one webhook. *)
Theorem run_inserts_and_posts_at_most_once (w : world)
  (logs : list ElkLog) (custom_prompt : option string) :
  (exists batch_id, returned w logs custom_prompt = Py.Ok batch_id) /\
  (length (filter Trace.is_insert (effects w logs custom_prompt)) <= 1)%nat /\
  (length (filter Trace.is_post (effects w logs custom_prompt)) <= 1)%nat.
Proof.
  run_cases w logs custom_prompt;
    (split; [eauto|]);
    try pose proof (chat_for_is_chat _ _ Hfor) as Hchat;
    destruct (chats_filter _ Hchat) as [Hi Hp'];
    rewrite ?filter_app, ?Hi, ?Hp'; cbn; auto.
Qed.

(** The document handed to the store holds the error records of the
    input, in the order of the input, and one analysis for each, in
    the same order: the analysis at a position carries the elk_id of
    the record at that position, and total_errors is their number. *)
Theorem batch_holds_error_records_in_order (w : world)
  (logs : list ElkLog) (custom_prompt : option string) (doc : batch_doc)
  (inserted_id : option string) :
  In (InsertOne doc inserted_id) (effects w logs custom_prompt) ->
  doc_logs doc = filter Run.flagged logs /\
  doc_total_errors doc = length (doc_logs doc) /\
  length (doc_analyses doc) = length (doc_logs doc) /\
  map (Py.lookup "elk_id") (doc_analyses doc)
  = map (fun log => Some (Run.elk_tag log)) (doc_logs doc).
Proof.
  intros Hin.
  assert (H : batch_doc_of custom_prompt logs doc).
  { run_cases w logs custom_prompt.
    - not_in_chats Hin.
    - apply in_app_or in Hin. destruct Hin as [Hin|[Hin|[]]];
        [not_in_chats Hin|]. injection Hin as -> _. exact Hdoc.
    - apply in_app_or in Hin. destruct Hin as [Hin|[Hin|[]]];
        [not_in_chats Hin|]. injection Hin as -> _. exact Hdoc.
    - apply in_app_or in Hin. destruct Hin as [Hin|[Hin|[Hin|[]]]];
        [not_in_chats Hin| |discriminate Hin].
      injection Hin as -> _. exact Hdoc. }
  destruct H as (Hlogs & Htotal & Hfor & _).
  destruct (analysis_for_tags _ _ _ Hfor) as [Hlen Htags].
  rewrite Hlogs. auto.
Qed.

Lemma batch_holds_error_records_in_order_witness :
  doc_logs MoreSamples.mixed_doc
  = filter Run.flagged MoreSamples.mixed_logs /\
  doc_total_errors MoreSamples.mixed_doc
  = length (doc_logs MoreSamples.mixed_doc) /\
  length (doc_analyses MoreSamples.mixed_doc)
  = length (doc_logs MoreSamples.mixed_doc) /\
  map (Py.lookup "elk_id") (doc_analyses MoreSamples.mixed_doc)
  = map (fun log => Some (Run.elk_tag log)) (doc_logs MoreSamples.mixed_doc).
Proof.
  apply (batch_holds_error_records_in_order Samples.calm
           MoreSamples.mixed_logs None MoreSamples.mixed_doc
           (Some "batch-1")).
  vm_compute. right. right. left. reflexivity.
Defined.

(** The backend is asked about error records only, each in its turn:
    the records of the calls of a run are a prefix of the error records
    of the input, and all of them when the run reaches the insert. *)
Theorem backend_is_asked_about_error_records_in_order (w : world)
  (logs : list ElkLog) (custom_prompt : option string) :
  (exists rest,
     filter Run.flagged logs
     = Run.requested_logs (effects w logs custom_prompt) ++ rest) /\
  (existsb Trace.is_insert (effects w logs custom_prompt) = true ->
   Run.requested_logs (effects w logs custom_prompt)
   = filter Run.flagged logs).
Proof.
  run_cases w logs custom_prompt.
  - split; [eauto|]. intros H.
    rewrite existsb_exists in H. destruct H as ([| |] & Hin & He);
      try discriminate He.
    not_in_chats Hin.
  - rewrite requested_logs_app. cbn [Run.requested_logs].
    rewrite app_nil_r, (proj1 (chat_for_requested _ _ Hfor)).
    split; [exists []; rewrite app_nil_r; reflexivity|reflexivity].
  - rewrite requested_logs_app. cbn [Run.requested_logs].
    rewrite app_nil_r, (proj1 (chat_for_requested _ _ Hfor)).
    split; [exists []; rewrite app_nil_r; reflexivity|reflexivity].
  - rewrite requested_logs_app. cbn [Run.requested_logs].
    rewrite app_nil_r, (proj1 (chat_for_requested _ _ Hfor)).
    split; [exists []; rewrite app_nil_r; reflexivity|reflexivity].
Qed.

(** Without a custom prompt, a successful insert is always followed by
    exactly one webhook attempt: the payload can be built from the
    analyses of [analyze_log]. *)
Theorem log_path_insert_is_followed_by_one_post (w : world)
  (logs : list ElkLog) (custom_prompt : option string) (doc : batch_doc)
  (batch_id : string) :
  LogService.given custom_prompt = None ->
  In (InsertOne doc (Some batch_id)) (effects w logs custom_prompt) ->
  exists chats payload delivered,
    effects w logs custom_prompt
    = chats ++ [InsertOne doc (Some batch_id); HttpPost payload delivered] /\
    forallb Trace.is_answered_chat chats = true.
Proof.
  intros Hgiven Hin. run_cases w logs custom_prompt.
  - not_in_chats Hin.
  - apply in_app_or in Hin. destruct Hin as [Hin|[Hin|[]]];
      [not_in_chats Hin|discriminate Hin].
  - destruct Hdoc as (_ & _ & Hdoc & _).
    destruct (analysis_for_log_path _ _ _ Hgiven Hdoc) as [Hconf _].
    destruct (webhook_payload_total (data_of stamp doc') id'
                (Run.nonzero_elk_ids (filter Run.flagged logs)) Hconf)
      as [payload Hok].
    rewrite Hok in Hp. discriminate Hp.
  - apply in_app_or in Hin. destruct Hin as [Hin|[Hin|[Hin|[]]]];
      [not_in_chats Hin| |discriminate Hin].
    injection Hin as -> ->. exists chats, payload', delivered'.
    split; [reflexivity|exact (chat_for_answered _ _ Hfor)].
Qed.

Lemma log_path_insert_is_followed_by_one_post_witness :
  exists chats payload delivered,
    effects Samples.webhook_down [Samples.error_record] None
    = chats ++ [InsertOne SampleDocs.log_path_doc (Some "batch-1");
                HttpPost payload delivered] /\
    forallb Trace.is_answered_chat chats = true.
Proof.
  apply (log_path_insert_is_followed_by_one_post Samples.webhook_down
           [Samples.error_record] None SampleDocs.log_path_doc "batch-1").
  - reflexivity.
  - vm_compute. right. left. reflexivity.
Defined.

(** The payload of a webhook describes the batch that was just
    inserted: its batch_id is the inserted identifier, its analyses
    are those of the document, its total_errors is the number of error
    records, and its elk_ids are the elk_ids of the error records that
    are neither missing nor zero. *)
Theorem webhook_payload_describes_batch (w : world) (logs : list ElkLog)
  (custom_prompt : option string) (payload : Py.pyval) (delivered : bool) :
  In (HttpPost payload delivered) (effects w logs custom_prompt) ->
  exists doc batch_id,
    In (InsertOne doc (Some batch_id)) (effects w logs custom_prompt) /\
    Run.path ["data"; "batch_id"] payload = Some (Py.PStr batch_id) /\
    Run.path ["data"; "analyses"] payload
    = Some (Py.PList (map Py.PDict (doc_analyses doc))) /\
    Run.path ["data"; "total_errors"] payload
    = Some (Py.PInt (Z.of_nat (length (filter Run.flagged logs)))) /\
    Run.path ["data"; "elk_ids"] payload
    = Some (Py.PList (map Py.PInt
                        (Run.nonzero_elk_ids (filter Run.flagged logs)))).
Proof.
  intros Hin. run_cases w logs custom_prompt.
  - rewrite forallb_forall in Hchat. discriminate (Hchat _ Hin).
  - apply in_app_or in Hin. destruct Hin as [Hin|[Hin|[]]];
      [|discriminate Hin].
    pose proof (chat_for_is_chat _ _ Hfor) as Hchat.
    rewrite forallb_forall in Hchat. discriminate (Hchat _ Hin).
  - apply in_app_or in Hin. destruct Hin as [Hin|[Hin|[]]];
      [|discriminate Hin].
    pose proof (chat_for_is_chat _ _ Hfor) as Hchat.
    rewrite forallb_forall in Hchat. discriminate (Hchat _ Hin).
  - apply in_app_or in Hin. destruct Hin as [Hin|[Hin|[Hin|[]]]];
      [|discriminate Hin|].
    + pose proof (chat_for_is_chat _ _ Hfor) as Hchat.
      rewrite forallb_forall in Hchat. discriminate (Hchat _ Hin).
    + injection Hin as -> ->. exists doc', id'.
      split; [apply in_or_app; right; left; reflexivity|].
      destruct (webhook_payload_inv _ _ _ _ Hp)
        as (h & m & l & c & _ & _ & _ & _ & ->).
      destruct Hdoc as (Hlogs & _).
      cbn [data_of LogService.total_errors LogService.analyses].
      rewrite Hlogs. repeat split; reflexivity.
Qed.

Lemma webhook_payload_describes_batch_witness :
  exists doc batch_id,
    In (InsertOne doc (Some batch_id))
      (effects Samples.calm MoreSamples.mixed_logs None) /\
    Run.path ["data"; "batch_id"] MoreSamples.mixed_payload
    = Some (Py.PStr batch_id) /\
    Run.path ["data"; "analyses"] MoreSamples.mixed_payload
    = Some (Py.PList (map Py.PDict (doc_analyses doc))) /\
    Run.path ["data"; "total_errors"] MoreSamples.mixed_payload
    = Some (Py.PInt (Z.of_nat (length (filter Run.flagged
                                         MoreSamples.mixed_logs)))) /\
    Run.path ["data"; "elk_ids"] MoreSamples.mixed_payload
    = Some (Py.PList (map Py.PInt
                        (Run.nonzero_elk_ids
                           (filter Run.flagged MoreSamples.mixed_logs)))).
Proof.
  apply (webhook_payload_describes_batch Samples.calm MoreSamples.mixed_logs
           None MoreSamples.mixed_payload true).
  vm_compute. right. right. right. left. reflexivity.
Defined.

(** In every webhook that is posted, critical_files has exactly as
    many entries as high_severity counts: one for each analysis whose
    severity is HIGH. *)
Theorem critical_files_are_the_high_severity_analyses (w : world)
  (logs : list ElkLog) (custom_prompt : option string) (payload : Py.pyval)
  (delivered : bool) :
  In (HttpPost payload delivered) (effects w logs custom_prompt) ->
  exists h c,
    Run.path ["data"; "summary"; "high_severity"] payload
    = Some (Py.PInt h) /\
    Run.path ["data"; "summary"; "critical_files"] payload
    = Some (Py.PList c) /\
    Z.of_nat (length c) = h.
Proof.
  intros Hin. run_cases w logs custom_prompt.
  - rewrite forallb_forall in Hchat. discriminate (Hchat _ Hin).
  - apply in_app_or in Hin. destruct Hin as [Hin|[Hin|[]]];
      [|discriminate Hin].
    pose proof (chat_for_is_chat _ _ Hfor) as Hchat.
    rewrite forallb_forall in Hchat. discriminate (Hchat _ Hin).
  - apply in_app_or in Hin. destruct Hin as [Hin|[Hin|[]]];
      [|discriminate Hin].
    pose proof (chat_for_is_chat _ _ Hfor) as Hchat.
    rewrite forallb_forall in Hchat. discriminate (Hchat _ Hin).
  - apply in_app_or in Hin. destruct Hin as [Hin|[Hin|[Hin|[]]]];
      [|discriminate Hin|].
    + pose proof (chat_for_is_chat _ _ Hfor) as Hchat.
      rewrite forallb_forall in Hchat. discriminate (Hchat _ Hin).
    + injection Hin as -> ->.
      pose proof (posted_batch_is_log_path _ _ _ _ _ _ _ Hdoc Hp) as Hgiven.
      destruct Hdoc as (_ & _ & Hfor' & _).
      destruct (analysis_for_log_path _ _ _ Hgiven Hfor') as [_ Hcoh].
      destruct (webhook_payload_inv _ _ _ _ Hp)
        as (h & m & l & c & Hh & _ & _ & Hc & ->).
      exists h, c. split; [reflexivity|]. split; [reflexivity|].
      rewrite (count_severity_value _ _ _ Hh).
      rewrite (critical_files_length _ _ Hc Hcoh). reflexivity.
Qed.

Lemma critical_files_are_the_high_severity_analyses_witness :
  exists h c,
    Run.path ["data"; "summary"; "high_severity"] MoreSamples.mixed_payload
    = Some (Py.PInt h) /\
    Run.path ["data"; "summary"; "critical_files"] MoreSamples.mixed_payload
    = Some (Py.PList c) /\
    Z.of_nat (length c) = h.
Proof.
  apply (critical_files_are_the_high_severity_analyses Samples.calm
           MoreSamples.mixed_logs None MoreSamples.mixed_payload true).
  vm_compute. right. right. right. left. reflexivity.
Defined.

(** ** [analyze_logs_batch] *)

Lemma analysable_true (log : ElkLog) :
  analysable log = true ->
  exists event_data head,
    AIService.prompt_event log = Py.Ok event_data /\
    AIService.message_head log = Py.Ok head.
Proof.
  unfold analysable.
  destruct (AIService.prompt_event log) as [event_data|];
    [|discriminate].
  destruct (AIService.message_head log) as [head|]; [|discriminate].
  eauto.
Qed.

Lemma analysable_false (log : ElkLog) :
  analysable log = false ->
  (exists e, AIService.prompt_event log = Py.Raise e) \/
  (exists e, AIService.message_head log = Py.Raise e).
Proof.
  unfold analysable.
  destruct (AIService.prompt_event log) as [event_data|e]; [|eauto].
  destruct (AIService.message_head log) as [head|e]; [discriminate|eauto].
Qed.

(** The loop of [analyze_logs_batch], in full. *)
Lemma analyze_each_spec (w : world) (logs : list ElkLog) (tr tr' : trace)
  (r : Py.result (list Py.dict)) :
  AIService.analyze_each w logs tr = (r, tr') ->
  exists chats,
    tr' = tr ++ chats /\
    forallb Trace.is_chat chats = true /\
    (exists rest, logs = Run.requested_logs chats ++ rest) /\
    (forall analyses, r = Py.Ok analyses ->
       Forall2 Run.chat_for chats logs /\
       length analyses = length logs /\
       Forall (fun a => Schema.conforms Schema.sliced_fields a = true)
         analyses) /\
    (always_answers w -> forallb analysable logs = true ->
     exists analyses, r = Py.Ok analyses) /\
    (forallb analysable logs = false -> exists e, r = Py.Raise e).
Proof.
  revert tr tr' r.
  induction logs as [|log logs IH]; intros tr tr' r;
    cbn [AIService.analyze_each forallb].
  - unfold io_ret. intros [= <- <-]. exists []. rewrite app_nil_r.
    split; [reflexivity|]. split; [reflexivity|].
    split; [exists []; reflexivity|].
    split; [intros analyses [= <-]; repeat constructor|].
    split; [eauto|discriminate].
  - unfold io_bind at 1. rewrite analyze_log_run.
    destruct (AIService.prompt_event log) as [ev|e] eqn:Hev.
    2:{ intros [= <- <-]. exists []. rewrite app_nil_r.
        assert (Hno : analysable log = false)
          by (unfold analysable; rewrite Hev; reflexivity).
        rewrite Hno.
        split; [reflexivity|]. split; [reflexivity|].
        split; [eexists; reflexivity|].
        split; [intros analyses [=]|].
        split; [discriminate|eauto]. }
    destruct (chat_completion w tr (LogPrompt log ev)) as [text|] eqn:Hc.
    2:{ intros [= <- <-]. eexists. split; [reflexivity|].
        split; [reflexivity|].
        split; [exists logs; reflexivity|].
        split; [intros analyses [=]|].
        split; [|eauto].
        intros Hw. elim (Hw _ _ Hc). }
    set (tr1 := tr ++ [ChatCompletion (LogPrompt log ev) (Some text)]).
    destruct (AIService.message_head log) as [head|e] eqn:Hhead.
    2:{ rewrite (parse_response_raises _ _ _ _ Hhead).
        intros [= <- <-]. eexists. split; [reflexivity|].
        assert (Hno : analysable log = false)
          by (unfold analysable; rewrite Hev, Hhead; reflexivity).
        rewrite Hno.
        split; [reflexivity|].
        split; [exists logs; reflexivity|].
        split; [intros analyses [=]|].
        split; [discriminate|eauto]. }
    assert (Hyes : analysable log = true)
      by (unfold analysable; rewrite Hev, Hhead; reflexivity).
    rewrite Hyes. cbn [andb].
    destruct (parse_response_ok log text (utcnow w tr1) head Hhead)
      as (d & -> & Hd & _).
    unfold io_bind.
    destruct (AIService.analyze_each w logs tr1) as [rs trs] eqn:Es.
    destruct (IH _ _ _ Es)
      as (chats & -> & Hchat & (rest & Hrest) & Hok & Hall & Hnone).
    unfold io_ret. intros H.
    exists (ChatCompletion (LogPrompt log ev) (Some text) :: chats).
    assert (Htr : tr' = tr ++ ChatCompletion (LogPrompt log ev) (Some text)
                               :: chats).
    { destruct rs; injection H as _ <-; unfold tr1;
        rewrite <- app_assoc; reflexivity. }
    split; [exact Htr|]. split; [exact Hchat|].
    split; [exists rest; cbn [Run.requested_logs Run.request_log app];
            rewrite <- Hrest; reflexivity|].
    split; [|split].
    + intros analyses' ->. destruct rs as [analyses|e]; [|discriminate H].
      injection H as <- _.
      destruct (Hok analyses eq_refl) as (Hfor & Hlen & Hconf).
      split; [constructor; [red; eauto|exact Hfor]|].
      split; [cbn [length]; rewrite Hlen; reflexivity|].
      constructor; assumption.
    + intros Hw Hlogs. destruct (Hall Hw Hlogs) as [analyses ->].
      injection H as <- _. eauto.
    + intros Hlogs. destruct (Hnone Hlogs) as [e ->].
      injection H as <- _. eauto.
Qed.

(** [analyze_logs_batch] is all or nothing.  It only makes backend
    calls, about the records in their order.  When it returns, every
    record was asked about in one answered call and there is one
    analysis for each, with all the fields of [analyze_log].  It
    returns whenever the backend answers every request and every
    record can be analysed (its original event can be used and its
    message sliced); and one record that cannot be analysed makes the
    whole call raise, whatever the backend does. *)
Theorem analyze_logs_batch_is_all_or_nothing (w : world)
  (logs : list ElkLog) :
  (forallb Trace.is_chat (snd (AIService.analyze_logs_batch w logs []))
   = true /\
   exists rest,
     logs
     = Run.requested_logs (snd (AIService.analyze_logs_batch w logs []))
       ++ rest) /\
  (forall analyses,
     fst (AIService.analyze_logs_batch w logs []) = Py.Ok analyses ->
     Forall2 Run.chat_for (snd (AIService.analyze_logs_batch w logs []))
       logs /\
     length analyses = length logs /\
     Forall (fun a => Schema.conforms Schema.sliced_fields a = true)
       analyses) /\
  (always_answers w -> forallb analysable logs = true ->
   exists analyses,
     fst (AIService.analyze_logs_batch w logs []) = Py.Ok analyses) /\
  (forallb analysable logs = false ->
   exists e, fst (AIService.analyze_logs_batch w logs []) = Py.Raise e).
Proof.
  unfold AIService.analyze_logs_batch, io_bind, io_ret,
    AIService._group_similar_errors.
  destruct (AIService.analyze_each w logs []) as [r tr'] eqn:E.
  destruct (analyze_each_spec _ _ _ _ _ E)
    as (chats & -> & Hchat & Hrest & Hok & Hall & Hnone).
  cbn [app]. destruct r as [analyses|e]; cbn [fst snd].
  - split; [auto|]. split; [intros a [= <-]; auto|].
    split; [eauto|]. intros H. destruct (Hnone H) as [e [=]].
  - split; [auto|]. split; [intros a [=]|].
    split; [|eauto]. intros Hw H. destruct (Hall Hw H) as [a [=]].
Qed.

Lemma analyze_logs_batch_is_all_or_nothing_witness :
  (exists analyses,
     fst (AIService.analyze_logs_batch Samples.calm
            [Samples.error_record; Samples.second_error_record] [])
     = Py.Ok analyses) /\
  (exists e,
     fst (AIService.analyze_logs_batch Samples.calm
            [Samples.error_record; Samples.null_message_record] [])
     = Py.Raise e).
Proof.
  split.
  - apply (analyze_logs_batch_is_all_or_nothing Samples.calm
             [Samples.error_record; Samples.second_error_record]).
    + intros tr req. discriminate.
    + reflexivity.
  - apply (analyze_logs_batch_is_all_or_nothing Samples.calm
             [Samples.error_record; Samples.null_message_record]).
    reflexivity.
Defined.

(** ** The routes of [main.py] *)

Lemma elk_ids_of_nonzero (logs : list ElkLog) :
  Main.elk_ids_of logs = map Py.PInt (Run.nonzero_elk_ids logs).
Proof.
  induction logs as [|log logs IH]; simpl; [reflexivity|].
  destruct (elk_id log) as [i|]; [destruct (i =? 0)%Z|]; simpl;
    rewrite IH; reflexivity.
Qed.

Lemma receive_logs_run (w : world) (logs : list ElkLog) :
  exists batch_id,
    returned w logs None = Py.Ok batch_id /\
    Main.receive_logs w logs []
    = (Py.Ok (Main.Body (Main.batch_body batch_id logs)),
       effects w logs None).
Proof.
  unfold Main.receive_logs, io_try, io_bind, io_ret.
  pose proof (run_detailed w logs None) as H.
  unfold returned, effects in *.
  destruct (LogService.analyze_and_save_batch w logs None []) as [r tr].
  cbn [fst snd] in *.
  destruct H; eexists; split; reflexivity.
Qed.

(** POST /receive-logs never answers with an error: when the run saved
    no batch, be it that no record is an error, that the backend
    raised or that the store raised, the body is the message
    "No errors to analyze". *)
Theorem receive_logs_reports_failure_as_no_errors (w : world)
  (logs : list ElkLog) :
  existsb is_saved (snd (Main.receive_logs w logs [])) = false ->
  fst (Main.receive_logs w logs []) = Py.Ok (Main.Body no_errors_body).
Proof.
  destruct (receive_logs_run w logs) as (b & Hb & ->). cbn [fst snd].
  intros Hsaved.
  pose proof (run_detailed w logs None) as H. rewrite Hb in H.
  revert Hsaved. inversion H as [chats rest Hchat Hrest Hr Htr
                                |chats doc Hfor Hdoc Hr Htr
                                |chats doc id stamp e Hfor Hdoc Hp Hr Htr
                                |chats doc id stamp p d Hfor Hdoc Hp Hr Htr];
    try reflexivity; subst b; rewrite existsb_app; cbn [existsb is_saved];
    rewrite orb_true_r; discriminate.
Qed.

Lemma receive_logs_reports_failure_as_no_errors_witness :
  fst (Main.receive_logs Samples.first_call_fails
         [Samples.error_record; Samples.second_error_record] [])
  = Py.Ok (Main.Body no_errors_body).
Proof.
  apply (receive_logs_reports_failure_as_no_errors Samples.first_call_fails
           [Samples.error_record; Samples.second_error_record]).
  vm_compute. reflexivity.
Defined.

(** When the batch is saved, POST /receive-logs answers with the
    inserted identifier and with the elk_ids, neither missing nor
    zero, of every record of the request, the records that are no
    errors included. *)
Theorem receive_logs_lists_the_elk_ids_of_all_records (w : world)
  (logs : list ElkLog) (doc : batch_doc) (batch_id : string) :
  In (InsertOne doc (Some batch_id)) (effects w logs None) ->
  Py.is_empty batch_id = false ->
  fst (Main.receive_logs w logs [])
  = Py.Ok (Main.Body
             [ ("message", Py.PStr "Analysis complete");
               ("batch_id", Py.PStr batch_id);
               ("elk_ids",
                 Py.PList (map Py.PInt (Run.nonzero_elk_ids logs))) ]).
Proof.
  intros Hin Hid.
  destruct (receive_logs_run w logs) as (b & Hb & ->). cbn [fst].
  assert (Hsome : b = Some batch_id).
  { pose proof (run_detailed w logs None) as H. rewrite Hb in H.
    inversion H as [chats rest Hchat Hrest Hr Htr
                   |chats doc' Hfor Hdoc Hr Htr
                   |chats doc' id stamp e Hfor Hdoc Hp Hr Htr
                   |chats doc' id stamp p d Hfor Hdoc Hp Hr Htr];
      rewrite <- Htr in Hin; cbn [app] in Hin.
    - not_in_chats Hin.
    - apply in_app_or in Hin. destruct Hin as [Hin|[Hin|[]]];
        [not_in_chats Hin|discriminate Hin].
    - apply in_app_or in Hin. destruct Hin as [Hin|[Hin|[]]];
        [not_in_chats Hin|]. injection Hin as _ ->. reflexivity.
    - apply in_app_or in Hin. destruct Hin as [Hin|[Hin|[Hin|[]]]];
        [not_in_chats Hin| |discriminate Hin].
      injection Hin as _ ->. reflexivity. }
  subst b. unfold Main.batch_body. rewrite Hid, elk_ids_of_nonzero.
  reflexivity.
Qed.

Lemma receive_logs_lists_the_elk_ids_of_all_records_witness :
  fst (Main.receive_logs Samples.calm MoreSamples.mixed_logs [])
  = Py.Ok (Main.Body
             [ ("message", Py.PStr "Analysis complete");
               ("batch_id", Py.PStr "batch-1");
               ("elk_ids",
                 Py.PList (map Py.PInt
                             (Run.nonzero_elk_ids MoreSamples.mixed_logs))) ]).
Proof.
  apply (receive_logs_lists_the_elk_ids_of_all_records Samples.calm
           MoreSamples.mixed_logs MoreSamples.mixed_doc "batch-1").
  - vm_compute. right. right. left. reflexivity.
  - reflexivity.
Defined.

(** POST /analyze-prompt-with-logs never reaches the backend or the
    store: building its context reads [log.source.message] on a dict,
    so the reply to any list that is not empty is the error of an
    AttributeError, and the reply to the empty list is the message
    "No errors to analyze". *)
Theorem analyze_prompt_with_logs_analyzes_nothing (w : world)
  (logs : list ElkLog) (prompt : string) (tr : trace) :
  Main.analyze_prompt_with_logs w logs prompt tr
  = (Py.Ok (match logs with
            | [] => Main.Body no_errors_body
            | _ :: _ => Main.Failure Py.AttributeError
            end), tr).
Proof.
  destruct logs as [|log logs]; reflexivity.
Qed.

Lemma analysis_view_total (a : Py.dict) :
  Schema.conforms Run.tagged_fields a = true ->
  exists view, Main.analysis_view a = Py.Ok view.
Proof.
  intros Ha. unfold Main.analysis_view.
  known_key Ha "timestamp". known_key Ha "error_type".
  known_key Ha "error_message". known_key Ha "file_location".
  cbv zeta.
  known_key Ha "severity". known_key Ha "impact".
  known_key Ha "immediate_actions". known_key Ha "resolution_steps".
  known_key Ha "needs_immediate_attention".
  eauto.
Qed.

Lemma analyses_view_total (l : list Py.dict) :
  Forall (fun a => Schema.conforms Run.tagged_fields a = true) l ->
  exists views,
    Main.analyses_view l = Py.Ok views /\ length views = length l.
Proof.
  induction 1 as [|a l Ha _ (views & IH & Hlen)];
    cbn [Main.analyses_view]; [eauto|].
  destruct (analysis_view_total a Ha) as [view ->]. rewrite IH.
  cbn [Py.bind]. eexists. split; [reflexivity|].
  cbn [length]. rewrite Hlen. reflexivity.
Qed.

Lemma inserted_doc (w : world) (logs : list ElkLog)
  (custom_prompt : option string) (doc : batch_doc)
  (inserted_id : option string) :
  In (InsertOne doc inserted_id) (effects w logs custom_prompt) ->
  batch_doc_of custom_prompt logs doc.
Proof.
  intros Hin. run_cases w logs custom_prompt.
  - not_in_chats Hin.
  - apply in_app_or in Hin. destruct Hin as [Hin|[Hin|[]]];
      [not_in_chats Hin|]. injection Hin as -> _. exact Hdoc.
  - apply in_app_or in Hin. destruct Hin as [Hin|[Hin|[]]];
      [not_in_chats Hin|]. injection Hin as -> _. exact Hdoc.
  - apply in_app_or in Hin. destruct Hin as [Hin|[Hin|[Hin|[]]]];
      [not_in_chats Hin| |discriminate Hin].
    injection Hin as -> _. exact Hdoc.
Qed.

(** GET /analyze/{batch_id} renders every batch that
    [analyze_and_save_batch] stored without a custom prompt, when it
    is asked under an identifier that [ObjectId] accepts and the
    collection gives the batch back: the body has the timestamp of the
    batch as read, the number of its error records, and one view for
    each of its analyses. *)
Theorem get_analysis_renders_log_path_batches (w : world)
  (logs : list ElkLog) (custom_prompt : option string)
  (find_one : string -> found) (batch_id : string)
  (doc read : batch_doc) (inserted_id : option string) :
  LogService.given custom_prompt = None ->
  In (InsertOne doc inserted_id) (effects w logs custom_prompt) ->
  Bson.object_id_ok batch_id = true ->
  find_one batch_id = Document read ->
  stored_as doc read ->
  exists views,
    Main.get_analysis find_one batch_id
    = Main.Body
        [ ("timestamp", Py.PStr (doc_timestamp read));
          ("total_errors",
            Py.PInt (Z.of_nat (length (filter Run.flagged logs))));
          ("analyses", Py.PList views) ] /\
    length views = length (filter Run.flagged logs).
Proof.
  intros Hgiven Hin Hid Hfind (_ & Hanalyses & Hcount).
  destruct (inserted_doc _ _ _ _ _ Hin) as (_ & Htotal & Hfor & _).
  destruct (analysis_for_log_path _ _ _ Hgiven Hfor) as [Hconf _].
  destruct (analyses_view_total _ Hconf) as (views & Hviews & Hlen).
  exists views.
  unfold Main.get_analysis, LogService.get_batch_analysis,
    LogRepository.get_batch.
  rewrite Hid, Hfind, Hanalyses, Hcount, Hviews, Htotal.
  split; [reflexivity|].
  rewrite Hlen. exact (proj1 (analysis_for_tags _ _ _ Hfor)).
Qed.

Lemma get_analysis_renders_log_path_batches_witness :
  exists views,
    Main.get_analysis MoreSamples.mixed_store MoreSamples.hex_id
    = Main.Body
        [ ("timestamp",
            Py.PStr (doc_timestamp
                       (MoreSamples.read_back MoreSamples.mixed_doc)));
          ("total_errors",
            Py.PInt (Z.of_nat (length (filter Run.flagged
                                         MoreSamples.mixed_logs))));
          ("analyses", Py.PList views) ] /\
    length views = length (filter Run.flagged MoreSamples.mixed_logs).
Proof.
  apply (get_analysis_renders_log_path_batches MoreSamples.hex_calm
           MoreSamples.mixed_logs None MoreSamples.mixed_store
           MoreSamples.hex_id MoreSamples.mixed_doc
           (MoreSamples.read_back MoreSamples.mixed_doc)
           (Some MoreSamples.hex_id)).
  - reflexivity.
  - vm_compute. right. right. left. reflexivity.
  - reflexivity.
  - reflexivity.
  - repeat split.
Defined.

(** GET /analyze/{batch_id} cannot render a batch that
    [analyze_and_save_batch] stored with a custom prompt: asked under
    an identifier that [ObjectId] accepts, and given the batch back by
    the collection, it finds no "timestamp" in the first analysis, and
    the reply is the error of that KeyError. *)
Theorem get_analysis_fails_on_custom_prompt_batches (w : world)
  (logs : list ElkLog) (prompt : string)
  (find_one : string -> found) (batch_id : string)
  (doc read : batch_doc) (inserted_id : option string) :
  Py.is_empty prompt = false ->
  In (InsertOne doc inserted_id) (effects w logs (Some prompt)) ->
  Bson.object_id_ok batch_id = true ->
  find_one batch_id = Document read ->
  stored_as doc read ->
  Main.get_analysis find_one batch_id
  = Main.Failure (Py.KeyError "timestamp").
Proof.
  intros Hprompt Hin Hid Hfind (_ & Hanalyses & _).
  assert (Hgiven : LogService.given (Some prompt) <> None)
    by (simpl; rewrite Hprompt; discriminate).
  destruct (inserted_doc _ _ _ _ _ Hin) as (_ & _ & Hfor & Hne).
  pose proof (analysis_for_custom_path _ _ _ Hgiven Hfor) as Hkeys.
  unfold Main.get_analysis, LogService.get_batch_analysis,
    LogRepository.get_batch.
  rewrite Hid, Hfind, Hanalyses.
  destruct (doc_analyses doc) as [|a l].
  - inversion Hfor as [Hnil|]. congruence.
  - inversion Hkeys as [|? ? Hk _]. subst.
    cbn [Main.analyses_view]. unfold Main.analysis_view, Py.getitem.
    rewrite (lookup_not_in_keys "timestamp" a); [reflexivity|].
    rewrite Hk. simpl. intuition discriminate.
Qed.

Lemma get_analysis_fails_on_custom_prompt_batches_witness :
  Main.get_analysis MoreSamples.custom_store MoreSamples.hex_id
  = Main.Failure (Py.KeyError "timestamp").
Proof.
  apply (get_analysis_fails_on_custom_prompt_batches MoreSamples.hex_calm
           [Samples.error_record] "why" MoreSamples.custom_store
           MoreSamples.hex_id SampleDocs.custom_path_doc
           (MoreSamples.read_back SampleDocs.custom_path_doc)
           (Some MoreSamples.hex_id)).
  - reflexivity.
  - vm_compute. right. left. reflexivity.
  - reflexivity.
  - reflexivity.
  - repeat split.
Defined.

(** GET /analyze/{batch_id} answers "Analysis not found" for every
    identifier that [ObjectId] rejects (any text that is not 24
    hexadecimal digits), whatever the collection holds; and for an
    identifier it accepts, whenever the collection raises, has no
    such document, or has one that is not a batch. *)
Theorem get_analysis_not_found (find_one : string -> found)
  (batch_id : string) :
  Bson.object_id_ok batch_id = false \/
  (forall doc, find_one batch_id <> Document doc) ->
  Main.get_analysis find_one batch_id
  = Main.Body [ ("error", Py.PStr "Analysis not found") ].
Proof.
  unfold Main.get_analysis, LogService.get_batch_analysis,
    LogRepository.get_batch.
  intros [-> | Hnone]; [reflexivity|].
  destruct (Bson.object_id_ok batch_id); [|reflexivity].
  destruct (find_one batch_id) as [| | |doc] eqn:E; try reflexivity.
  elim (Hnone doc). reflexivity.
Qed.

Lemma get_analysis_not_found_witness :
  Main.get_analysis MoreSamples.mixed_store "batch-1"
  = Main.Body [ ("error", Py.PStr "Analysis not found") ].
Proof.
  apply (get_analysis_not_found MoreSamples.mixed_store "batch-1").
  left. reflexivity.
Defined.

(** ** Classification of a record by its decoded payload *)

(** When the original event decodes to an object whose level is an
    integer, or has no level (then it counts as 0), the classification
    returns without raising, and the record is an error exactly when
    the level_name of the object is ERROR, or its level is at least
    400, or the level of the record itself is ERROR or EMERGENCY. *)
Theorem decoded_payload_classification (log : ElkLog) (d : Py.dict)
  (z : Z) :
  event (source log) = Decoded (Py.PDict d) ->
  Py.get "level" (Py.PInt 0) d = Py.PInt z ->
  LogService.is_error log
  = Py.Ok (Py.eq_str (Py.get "level_name" Py.PNone d) "ERROR"
           || (400 <=? z)%Z || Classify.by_level log).
Proof.
  intros He Hl.
  unfold LogService.is_error, loads_event_original, Classify.by_level.
  rewrite He. cbn [Py.value_get Py.bind]. rewrite Hl.
  destruct (Py.eq_str (Py.get "level_name" Py.PNone d) "ERROR");
    [reflexivity|].
  cbn [Py.ge_400 Py.bind orb].
  destruct (400 <=? z)%Z; reflexivity.
Qed.

Lemma decoded_payload_classification_witness :
  LogService.is_error Classify.notice_record = Py.Ok true.
Proof.
  exact (decoded_payload_classification Classify.notice_record
           [ ("level_name", Py.PStr "NOTICE"); ("level", Py.PInt 400) ]
           400%Z eq_refl eq_refl).
Defined.

Lemma flagged_level_is_error_when_classified_witness :
  level_name (source Samples.second_error_record) = Some "EMERGENCY" /\
  LogService.is_error Samples.second_error_record = Py.Ok true /\
  true = true.
Proof.
  split; [reflexivity|]. split; [reflexivity|].
  apply (flagged_level_is_error_when_classified
           Samples.second_error_record true).
  - right. reflexivity.
  - reflexivity.
Defined.

Lemma bullets_never_collected_witness :
  Py.lookup "immediate_actions" Classify.well_formed_analysis
  = Some (Py.PList []) /\
  Py.lookup "resolution_steps" Classify.well_formed_analysis
  = Some (Py.PList []).
Proof.
  apply (bullets_never_collected Samples.error_record
           Samples.well_formed_response "2024-01-01T00:00:00").
  vm_compute. reflexivity.
Defined.
